(** * TimeHarp 260 PCIe driver (th260pcie): a shallow embedding

    The driver source is a Linux character-device driver.  Its functions are
    embedded as pure functions over an explicit card record; every kernel
    call and every register access the code performs is logged, in program
    order, in a trace of [event]s.  Values the code obtains from the kernel
    or from the hardware (return codes, register contents, wake-up reasons)
    are inputs of the embedded functions. *)

From Stdlib Require Import ZArith Lia List Bool.
From stdpp Require Import base option list gmap.
Import ListNotations.

Local Open Scope Z_scope.

(** ** Machine integers *)

(** [u32], [unsigned], [uint32_t] wrap at 32 bits; [size_t] and [unsigned
    long] are taken 64 bits wide. *)
Definition u32 (x : Z) : Z := x mod 2 ^ 32.
Definition u64 (x : Z) : Z := x mod 2 ^ 64.
(** conversion of an unsigned 32-bit pattern to [int] *)
Definition s32 (x : Z) : Z := (x + 2 ^ 31) mod 2 ^ 32 - 2 ^ 31.

(** ** Constants of the driver *)

Definition MAX_DEVICES : nat := 4.
Definition BAR_0_LEN : Z := 65536.

Definition DCR_OFFSET : Z := 0x0.
Definition DCSR_OFFSET : Z := 0x4.
Definition WRITE_ADDR_OFFSET : Z := 0x8.
Definition WRITE_SIZE_OFFSET : Z := 0xC.
Definition WRITE_COUNT_OFFSET : Z := 0x10.
Definition TRANS_SIZE_OFFSET : Z := 0x40.
Definition MB_SERIAL_OFFSET : Z := 0x140.

Definition BUSMASTERED_READ_DONE : Z := 0x100.

Definition VER_MAJOR : Z := 1.
Definition VER_MINOR : Z := 0.
Definition REV_MAJOR : Z := 0.
Definition REV_MINOR : Z := 0.
Definition DRVVERSION : Z :=
  Z.shiftl VER_MAJOR 24 + Z.shiftl VER_MINOR 16 + Z.shiftl REV_MAJOR 8 + REV_MINOR.

Definition MIN (a b : Z) : Z := if a <? b then a else b.

(** Linux error numbers (asm-generic/errno-base.h). *)
Definition EINTR : Z := 4.
Definition EAGAIN : Z := 11.
Definition EACCES : Z := 13.
Definition EFAULT : Z := 14.
Definition EBUSY : Z := 16.
Definition ENODEV : Z := 19.
Definition EINVAL : Z := 22.

(** ** Traces *)

(** A PCI device is named by a number; a slot of the device table by its
    index. *)
Definition pci_dev_id := nat.

Inductive event :=
| IoWrite32 (val off : Z)          (* iowrite32(val, bar0base + off) *)
| IoRead32 (off : Z)               (* ioread32(bar0base + off) *)
| CdevAdd (minor : Z)
| CdevDel
| PciSetDrvdata (p : pci_dev_id) (slot : option nat)
| PciEnableDevice
| PciDisableDevice
| PciRequestRegion
| PciReleaseRegion
| Ioremap
| Iounmap
| GetFreePages (order : Z)
| FreePages (buf order : Z)
| PciSetMaster
| DmaSetMask
| DmaSetCoherentMask
| RequestIrq
| FreeIrq
| DeviceCreate (minor : Z)
| DeviceDestroy (minor : Z)
| RemapPfnRange (pfn len : Z)
| CopyToUser (dst src len : Z).

Definition trace := list event.

Definition is_write (e : event) : bool :=
  match e with IoWrite32 _ _ => true | _ => false end.

(** ** Card state: [struct th260_cdev]

    Pointers are addresses, [0] is [NULL]; [pci_dev] is [None] for [NULL].
    The spinlock and the wait queue carry no data. *)

Record th260_cdev := mk_cdev {
  minor : Z;
  busy : Z;
  pci_dev : option pci_dev_id;
  cdev : Z;
  bar0base : Z;
  bar0offset : Z;
  serial : Z;
  maxtlpsize : Z;
  dmabuf : Z;
  dmabuf_order : Z;
  irq_received : Z;
  dmacount : Z;
  bytes_done : Z
}.

Definition set_busy (v : Z) (c : th260_cdev) : th260_cdev :=
  mk_cdev (minor c) v (pci_dev c) (cdev c) (bar0base c) (bar0offset c) (serial c)
    (maxtlpsize c) (dmabuf c) (dmabuf_order c) (irq_received c) (dmacount c)
    (bytes_done c).
Definition set_pci_dev (v : option pci_dev_id) (c : th260_cdev) : th260_cdev :=
  mk_cdev (minor c) (busy c) v (cdev c) (bar0base c) (bar0offset c) (serial c)
    (maxtlpsize c) (dmabuf c) (dmabuf_order c) (irq_received c) (dmacount c)
    (bytes_done c).
Definition set_cdev (v : Z) (c : th260_cdev) : th260_cdev :=
  mk_cdev (minor c) (busy c) (pci_dev c) v (bar0base c) (bar0offset c) (serial c)
    (maxtlpsize c) (dmabuf c) (dmabuf_order c) (irq_received c) (dmacount c)
    (bytes_done c).
Definition set_bar0base (v : Z) (c : th260_cdev) : th260_cdev :=
  mk_cdev (minor c) (busy c) (pci_dev c) (cdev c) v (bar0offset c) (serial c)
    (maxtlpsize c) (dmabuf c) (dmabuf_order c) (irq_received c) (dmacount c)
    (bytes_done c).
Definition set_bar0offset (v : Z) (c : th260_cdev) : th260_cdev :=
  mk_cdev (minor c) (busy c) (pci_dev c) (cdev c) (bar0base c) v (serial c)
    (maxtlpsize c) (dmabuf c) (dmabuf_order c) (irq_received c) (dmacount c)
    (bytes_done c).
Definition set_serial (v : Z) (c : th260_cdev) : th260_cdev :=
  mk_cdev (minor c) (busy c) (pci_dev c) (cdev c) (bar0base c) (bar0offset c) v
    (maxtlpsize c) (dmabuf c) (dmabuf_order c) (irq_received c) (dmacount c)
    (bytes_done c).
Definition set_maxtlpsize (v : Z) (c : th260_cdev) : th260_cdev :=
  mk_cdev (minor c) (busy c) (pci_dev c) (cdev c) (bar0base c) (bar0offset c)
    (serial c) v (dmabuf c) (dmabuf_order c) (irq_received c) (dmacount c)
    (bytes_done c).
Definition set_dmabuf (v : Z) (c : th260_cdev) : th260_cdev :=
  mk_cdev (minor c) (busy c) (pci_dev c) (cdev c) (bar0base c) (bar0offset c)
    (serial c) (maxtlpsize c) v (dmabuf_order c) (irq_received c) (dmacount c)
    (bytes_done c).
Definition set_dmabuf_order (v : Z) (c : th260_cdev) : th260_cdev :=
  mk_cdev (minor c) (busy c) (pci_dev c) (cdev c) (bar0base c) (bar0offset c)
    (serial c) (maxtlpsize c) (dmabuf c) v (irq_received c) (dmacount c)
    (bytes_done c).
Definition set_irq_received (v : Z) (c : th260_cdev) : th260_cdev :=
  mk_cdev (minor c) (busy c) (pci_dev c) (cdev c) (bar0base c) (bar0offset c)
    (serial c) (maxtlpsize c) (dmabuf c) (dmabuf_order c) v (dmacount c)
    (bytes_done c).
Definition set_dmacount (v : Z) (c : th260_cdev) : th260_cdev :=
  mk_cdev (minor c) (busy c) (pci_dev c) (cdev c) (bar0base c) (bar0offset c)
    (serial c) (maxtlpsize c) (dmabuf c) (dmabuf_order c) (irq_received c) v
    (bytes_done c).
Definition set_bytes_done (v : Z) (c : th260_cdev) : th260_cdev :=
  mk_cdev (minor c) (busy c) (pci_dev c) (cdev c) (bar0base c) (bar0offset c)
    (serial c) (maxtlpsize c) (dmabuf c) (dmabuf_order c) (irq_received c)
    (dmacount c) v.

(** One slot as [th260_cdev_init] leaves it. *)
Definition init_slot (i : nat) : th260_cdev :=
  mk_cdev (Z.of_nat i) 0 None 0 0 0 0 0 0 0 0 0 0.

(** ** Kernel parameters

    [PAGE_SHIFT] and [virt_to_phys] belong to the kernel the driver is built
    for; the driver's macros and functions take them from here. *)

Section KernelParameters.

Variable PAGE_SHIFT : Z.
Variable virt_to_phys : Z -> Z.

Definition PAGE_SIZE : Z := Z.shiftl 1 PAGE_SHIFT.
Definition PAGE_MASK : Z := Z.lnot (PAGE_SIZE - 1).
Definition PAGE_ALIGN (x : Z) : Z := Z.land (x + (PAGE_SIZE - 1)) PAGE_MASK.
Definition BUFFER_SIZE (ord : Z) : Z := Z.shiftl 1 (ord + PAGE_SHIFT).

(** [fls] and [get_order] as in the kernel's generic bitops. *)
Definition fls (x : Z) : Z := if x =? 0 then 0 else Z.log2 x + 1.
Definition get_order (size : Z) : Z := fls (Z.shiftr (size - 1) PAGE_SHIFT).

(** ** The DMA engine *)

(** The loop of [th260_dma_start]:
    [while (rest && tlpsize > 2) { tlpsize >>= 1; rest = ...; tlpcount = ...; }].
    The result is the final [(tlpsize, tlpcount, rest)]; [None] when the fuel
    runs out before the loop is left.  The loop divides by [tlpsize >> 1]
    only when [tlpsize > 2], so by a nonzero value whenever it divides. *)
Fixpoint tlp_loop (fuel : nat) (ndwords tlpsize tlpcount rest : Z)
  : option (Z * Z * Z) :=
  if negb (rest =? 0) && (2 <? tlpsize) then
    match fuel with
    | O => None
    | S fuel' =>
        let tlpsize' := Z.shiftr tlpsize 1 in
        let rest' := ndwords mod tlpsize' in
        let tlpcount' := ndwords / tlpsize' in
        tlp_loop fuel' ndwords tlpsize' tlpcount' rest'
    end
  else Some (tlpsize, tlpcount, rest).

(** 32 halvings bring any 32-bit [tlpsize] down to 2. *)
Definition dma_fuel : nat := 32.

Definition reset_pulse : trace :=
  [IoWrite32 1 DCR_OFFSET; IoWrite32 0 DCR_OFFSET].

(** [None]: the call does not return.  With [maxtlpsize = 0] the unsigned
    divisions [ndwords / tlpsize] and [ndwords % tlpsize] that follow the
    reset pulse trap; otherwise only a search that runs out of fuel gives
    [None]. *)
Definition th260_dma_start (pcard : th260_cdev) : option trace :=
  let tlpsize := maxtlpsize pcard in
  let ndwords := dmacount pcard / 4 in
  if tlpsize =? 0 then None
  else
  let tlpcount := ndwords / tlpsize in
  let rest := ndwords mod tlpsize in
  match tlp_loop dma_fuel ndwords tlpsize tlpcount rest with
  | None => None
  | Some (tlpsize, tlpcount, _) =>
      if 0xFFFF <? tlpcount then Some reset_pulse
      else if negb (dmacount pcard =? u32 (tlpsize * 4 * tlpcount))
      then Some reset_pulse
      else Some (reset_pulse ++
                 [IoWrite32 (u32 (virt_to_phys (dmabuf pcard))) WRITE_ADDR_OFFSET;
                  IoWrite32 tlpsize WRITE_SIZE_OFFSET;
                  IoWrite32 tlpcount WRITE_COUNT_OFFSET;
                  IoWrite32 1 DCSR_OFFSET])
  end.

(** ** The interrupt handler *)

(** The bookkeeping at the end of [th260_interrupt]. *)
Definition irq_complete (c : th260_cdev) : th260_cdev :=
  set_irq_received 1
    (set_dmacount 0 (set_bytes_done (u32 (bytes_done c + dmacount c)) c)).

(** [while (dcsr & BUSMASTERED_READ_DONE) { ... dcsr = ioread32(DCSR); }].
    [rd k] is what the [k]-th [ioread32] of the status register returns.  The
    result counts the executions of the loop body; [None] when the fuel runs
    out with the status bit still set. *)
Fixpoint interrupt_loop (fuel : nat) (rd : nat -> Z) (k : nat) (dcsr : Z)
  : option (nat * trace) :=
  if Z.land dcsr BUSMASTERED_READ_DONE =? 0 then Some (O, [])
  else
    match fuel with
    | O => None
    | S fuel' =>
        match interrupt_loop fuel' rd (S k) (u32 (rd k)) with
        | None => None
        | Some (n, t) =>
            Some (S n, [IoWrite32 (Z.lor dcsr 0x80) DCSR_OFFSET;
                        IoWrite32 1 DCR_OFFSET;
                        IoWrite32 0 DCR_OFFSET;
                        IoRead32 DCSR_OFFSET] ++ t)
        end
    end.

Record irq_result := mk_irq_result {
  irq_handled : Z;
  irq_card : th260_cdev;
  irq_iterations : nat;
  irq_trace : trace
}.

Definition th260_interrupt (fuel : nat) (rd : nat -> Z) (pcard : th260_cdev)
  : option irq_result :=
  let dcsr := u32 (rd O) in
  if Z.land dcsr BUSMASTERED_READ_DONE =? 0
  then Some (mk_irq_result 0 pcard O [IoRead32 DCSR_OFFSET])
  else
    match interrupt_loop fuel rd 1%nat dcsr with
    | None => None
    | Some (n, t) =>
        Some (mk_irq_result 1 (irq_complete pcard) n (IoRead32 DCSR_OFFSET :: t))
    end.

(** ** read *)

(** How one [wait_event_interruptible_timeout] ends.  [WaitTimeout]: it
    returns 0.  [WaitWoken irq copy_failed signal]: it returns nonzero;
    [irq] tells whether the interrupt handler has completed the transfer,
    [copy_failed] what [copy_to_user] answers if it is called, [signal] what
    [signal_pending(current)] answers. *)
Inductive wait_outcome :=
| WaitTimeout
| WaitWoken (irq copy_failed signal : bool).

(** How the inner loop of [th260_read] ends: with a [return] of the function,
    with its [break], or with no result ([LFuel]: the fuel has run out, or
    [th260_dma_start] has not returned). *)
Inductive loop_result :=
| LReturn (rv : Z) (c : th260_cdev) (tr : trace)
| LBreak (c : th260_cdev) (buffer count total : Z) (k : nat) (tr : trace)
| LFuel.

(** The inner loop [while (pcard->dmacount) { ... }]; [w k] is the outcome of
    the [k]-th wait of the call. *)
Fixpoint read_wait_loop (fuel : nat) (w : nat -> wait_outcome) (k : nat)
    (c : th260_cdev) (buffer count total : Z) (tr : trace) : loop_result :=
  if dmacount c =? 0 then LBreak c buffer count total k tr
  else
    match fuel with
    | O => LFuel
    | S fuel' =>
        let c1 := set_irq_received 0 c in
        match th260_dma_start c1 with
        | None => LFuel
        | Some t =>
            let tr1 := tr ++ t in
            match w k with
            | WaitTimeout => LReturn (- EINTR) c1 tr1
            | WaitWoken irq copy_failed signal =>
                let c2 := if irq then irq_complete c1 else c1 in
                let done := bytes_done c2 in
                let tr2 := if done =? 0 then tr1
                           else tr1 ++ [CopyToUser buffer (dmabuf c2) done] in
                if negb (done =? 0) && copy_failed then LReturn (- EFAULT) c2 tr2
                else if signal then
                  let rc := s32 (u32 (total + done)) in
                  LReturn (if rc =? 0 then - EINTR else rc) c2 tr2
                else if negb (irq_received c2 =? 0) then
                  LBreak c2 (buffer + done) (u64 (count - done))
                         (s32 (u32 (total + done))) (S k) tr2
                else read_wait_loop fuel' w (S k) c2 buffer count total tr2
            end
        end
    end.

(** The outer loop [do { ... } while (count > 0)]. *)
Fixpoint read_chunk_loop (fuel : nat) (w : nat -> wait_outcome) (k : nat)
    (c : th260_cdev) (buffer count total : Z) (tr : trace)
  : option (Z * th260_cdev * trace) :=
  match fuel with
  | O => None
  | S fuel' =>
      let c0 := set_bytes_done 0 c in
      let c1 := set_dmacount (u32 (MIN count (BUFFER_SIZE (dmabuf_order c0)))) c0 in
      match read_wait_loop fuel' w k c1 buffer count total tr with
      | LFuel => None
      | LReturn rv c' tr' => Some (rv, c', tr')
      | LBreak c' buffer' count' total' k' tr' =>
          if 0 <? count' then read_chunk_loop fuel' w k' c' buffer' count' total' tr'
          else Some (total', c', tr')
      end
  end.

(** [nonblock] is [file->f_flags & O_NONBLOCK], [access_ok] the answer of
    [access_ok(buffer, count)]. *)
Definition th260_read (fuel : nat) (w : nat -> wait_outcome)
    (nonblock access_ok : bool) (pcard : th260_cdev) (buffer count : Z)
  : option (Z * th260_cdev * trace) :=
  if count =? 0 then Some (0, pcard, [])
  else if nonblock then Some (- EFAULT, pcard, [])
  else if negb access_ok then Some (- EFAULT, pcard, [])
  else read_chunk_loop fuel w O pcard buffer count 0 [].

(** ** ioctl *)

(** The command numbers come from th260ioctl.h; only their identity matters. *)
Inductive ioctl_cmd :=
| IOCTL_GET_VERSION
| IOCTL_GET_SERIAL
| IOCTL_GET_BAROFFS
| IOCTL_OTHER (cmd : Z).

(** Result: the return code and, when [copy_to_user] ran and succeeded, the
    value stored at [arg] with its size in bytes. *)
Definition ioctl_copy (access_ok copy_failed : bool) (val size : Z)
  : Z * option (Z * Z) :=
  if negb access_ok then (- EFAULT, None)
  else if copy_failed then (- EACCES, None)
  else (0, Some (val, size)).

Definition th260_ioctl (pcard : th260_cdev) (cmd : ioctl_cmd)
    (access_ok copy_failed : bool) : Z * option (Z * Z) :=
  let version := DRVVERSION in
  match cmd with
  | IOCTL_GET_VERSION => ioctl_copy access_ok copy_failed version 4
  | IOCTL_GET_SERIAL => ioctl_copy access_ok copy_failed (serial pcard) 8
  | IOCTL_GET_BAROFFS => ioctl_copy access_ok copy_failed (bar0offset pcard) 4
  | IOCTL_OTHER _ => (- EINVAL, None)
  end.

(** ** mmap *)

Record vm_area_struct := mk_vma {
  vm_start : Z;
  vm_end : Z;
  vm_pgoff : Z;
  vm_ops_installed : bool
}.

Definition th260_vma_close (pcard : th260_cdev) : th260_cdev :=
  set_busy 0 pcard.

(** [resource_start] is [pci_resource_start(pcard->pci_dev, BAR_0)],
    [remap_ret] what [remap_pfn_range] returns if it is called. *)
Definition th260_mmap (resource_start remap_ret : Z) (pcard : th260_cdev)
    (vma : vm_area_struct) : Z * th260_cdev * vm_area_struct * trace :=
  if negb (busy pcard =? 0) then (- EBUSY, pcard, vma, [])
  else
    let c1 := set_busy 1 pcard in
    let len := u64 (vm_end vma - vm_start vma) in
    if PAGE_ALIGN BAR_0_LEN <? len then (- EINVAL, set_busy 0 c1, vma, [])
    else
      let pgoff := resource_start in
      let c2 := set_bar0offset (u32 (Z.land pgoff (Z.lnot PAGE_MASK))) c1 in
      let pgoff := Z.shiftr pgoff PAGE_SHIFT in
      let vma1 := mk_vma (vm_start vma) (vm_end vma) pgoff (vm_ops_installed vma) in
      let tr := [RemapPfnRange pgoff len] in
      if negb (remap_ret =? 0) then (- EAGAIN, set_busy 0 c2, vma1, tr)
      else (0, c2, mk_vma (vm_start vma) (vm_end vma) pgoff true, tr).

(** The mappings of one card as the kernel sees them: the card and the
    number of live mappings whose release hook is [th260_vma_close]. *)
Record map_state := mk_map_state {
  ms_card : th260_cdev;
  ms_active : nat
}.

Inductive map_op :=
| OpMmap (resource_start remap_ret : Z) (vma : vm_area_struct)
| OpClose.

(** The kernel calls the release hook only for a mapping that exists. *)
Definition map_step (s : map_state) (op : map_op) : Z * map_state :=
  match op with
  | OpMmap rs rr vma =>
      let '(rc, c, _, _) := th260_mmap rs rr (ms_card s) vma in
      (rc, mk_map_state c (if rc =? 0 then S (ms_active s) else ms_active s))
  | OpClose =>
      match ms_active s with
      | O => (0, s)
      | S n => (0, mk_map_state (th260_vma_close (ms_card s)) n)
      end
  end.

Fixpoint map_run (s : map_state) (ops : list map_op) : list Z * map_state :=
  match ops with
  | [] => ([], s)
  | op :: ops' =>
      let '(rc, s1) := map_step s op in
      let '(rcs, s2) := map_run s1 ops' in
      (rc :: rcs, s2)
  end.

(** ** Attach and detach *)

Definition th260_reset : trace :=
  [IoWrite32 0x800080 DCSR_OFFSET; IoWrite32 1 DCR_OFFSET; IoWrite32 0 DCR_OFFSET].

(** The device table [th260_cdev[MAX_DEVICES]] and the driver-data pointer
    each PCI device carries ([pci_set_drvdata]); an absent key is [NULL], a
    present one the index of the slot pointed to. *)
Record driver_state := mk_state {
  table : list th260_cdev;
  drvdata : gmap nat nat
}.

Definition th260_cdev_init : list th260_cdev :=
  map init_slot (seq 0 MAX_DEVICES).

Fixpoint th260_cdev_add (pdev : pci_dev_id) (tbl : list th260_cdev)
  : Z * list th260_cdev :=
  match tbl with
  | [] => (-1, [])
  | c :: rest =>
      match pci_dev c with
      | None => (minor c, set_pci_dev (Some pdev) c :: rest)
      | Some _ =>
          let '(ret, rest') := th260_cdev_add pdev rest in (ret, c :: rest')
      end
  end.

Definition th260_cdev_del (pdev : pci_dev_id) (tbl : list th260_cdev)
  : list th260_cdev :=
  (fun c => if decide (pci_dev c = Some pdev) then set_pci_dev None c else c) <$> tbl.

(** The [serialreg] union of [th260_probe] as its eight bytes of memory, on a
    little-endian machine: [dwords[0]] occupies bytes 0..3, [dwords[1]] bytes
    4..7, and [allbits] reads all eight. *)
Definition byte_of (x : Z) (i : Z) : Z := Z.land (Z.shiftr x (8 * i)) 0xFF.
Definition le_bytes32 (x : Z) : list Z :=
  [byte_of x 0; byte_of x 1; byte_of x 2; byte_of x 3].
Fixpoint le_value (bs : list Z) : Z :=
  match bs with
  | [] => 0
  | b :: rest => b + 256 * le_value rest
  end.
Definition serialreg (dword0 dword1 : Z) : list Z :=
  <[7%nat := 0]> (le_bytes32 dword0 ++ le_bytes32 dword1).
Definition serialreg_allbits (dword0 dword1 : Z) : Z :=
  le_value (serialreg dword0 dword1).

Definition maxtlpsize_of (dltrsstat : Z) : Z :=
  u32 (Z.shiftl 32 (Z.land (Z.shiftr dltrsstat 8) 7)).

(** What the kernel and the card answer during one [th260_probe]. *)
Record probe_env := mk_probe_env {
  cdev_alloc_ret : Z;
  cdev_add_ret : Z;
  pci_enable_device_ret : Z;
  pci_request_region_ret : Z;
  bar0_is_mem : bool;
  ioremap_ret : Z;
  serial_dword0 : Z;
  serial_dword1 : Z;
  dltrsstat : Z;
  get_free_pages : Z -> Z;
  dma_set_mask_ret : Z;
  dma_set_coherent_mask_ret : Z;
  request_irq_ret : Z
}.

(** [for (order = ...; order >= 0; order--)]: the order and buffer the card
    record is left with. *)
Fixpoint dma_alloc_loop (gfp : Z -> Z) (n : nat) : Z * Z * trace :=
  let order := Z.of_nat n in
  let buf := gfp order in
  if negb (buf =? 0) then (order, buf, [GetFreePages order])
  else
    match n with
    | O => (order, buf, [GetFreePages order])
    | S n' =>
        let '(o, b, t) := dma_alloc_loop gfp n' in
        (o, b, GetFreePages order :: t)
    end.

(** The [error:] label. *)
Definition probe_error (pdev : pci_dev_id) (tbl : list th260_cdev)
    (dd : gmap nat nat) (tr : trace) : Z * driver_state * trace :=
  (- ENODEV, mk_state tbl (delete pdev dd),
   tr ++ [PciSetDrvdata pdev None; PciDisableDevice]).

(** [th260_probe] from the point where [maxtlpsize] has been computed: the
    slot [minor] is claimed, the window mapped, the serial number stored;
    [mts] is the value assigned to [th260_cdev[minor].maxtlpsize]. *)
Definition probe_from_maxtlpsize (env : probe_env) (pdev : pci_dev_id)
    (minor : Z) (tbl : list th260_cdev) (dd : gmap nat nat) (tr : trace)
    (mts : Z) : Z * driver_state * trace :=
  let slot := Z.to_nat minor in
  let tbl := alter (set_maxtlpsize mts) slot tbl in
  let tr := tr ++ [IoRead32 TRANS_SIZE_OFFSET] in
  if (mts <? 32) || (4096 <? mts)
  then probe_error pdev tbl dd (tr ++ [CdevDel])
  else
    let tr := tr ++ th260_reset in
    let '(order, buf, ta) :=
      dma_alloc_loop (get_free_pages env)
                     (Z.to_nat (get_order (512 * 1024))) in
    let tbl := alter (fun c => set_dmabuf buf (set_dmabuf_order order c))
                     slot tbl in
    let tr := tr ++ ta in
    if buf =? 0 then probe_error pdev tbl dd (tr ++ [CdevDel])
    else
      let tr := tr ++ [PciSetMaster; DmaSetMask] in
      if negb (dma_set_mask_ret env =? 0)
      then probe_error pdev tbl dd (tr ++ [Iounmap; CdevDel])
      else
        let tr := tr ++ [DmaSetCoherentMask] in
        if negb (dma_set_coherent_mask_ret env =? 0)
        then probe_error pdev tbl dd (tr ++ [Iounmap; CdevDel])
        else
          let tr := tr ++ [RequestIrq] in
          if negb (request_irq_ret env =? 0)
          then probe_error pdev tbl dd (tr ++ [Iounmap; CdevDel])
          else (0, mk_state tbl dd, tr ++ [DeviceCreate minor]).

Definition th260_probe (env : probe_env) (pdev : pci_dev_id) (st : driver_state)
  : Z * driver_state * trace :=
  let '(minor, tbl) := th260_cdev_add pdev (table st) in
  if minor <? 0 then probe_error pdev tbl (drvdata st) []
  else
    let slot := Z.to_nat minor in
    let cdev := cdev_alloc_ret env in
    let tr := [CdevAdd minor] in
    if cdev_add_ret env <? 0 then probe_error pdev tbl (drvdata st) tr
    else
      let tbl := alter (set_cdev cdev) slot tbl in
      let dd := <[pdev := slot]> (drvdata st) in
      let tr := tr ++ [PciSetDrvdata pdev (Some slot); PciEnableDevice] in
      if pci_enable_device_ret env <? 0 then probe_error pdev tbl dd (tr ++ [CdevDel])
      else
        let tr := tr ++ [PciRequestRegion] in
        if negb (pci_request_region_ret env =? 0)
        then probe_error pdev tbl dd (tr ++ [CdevDel])
        else if negb (bar0_is_mem env)
        then probe_error pdev tbl dd (tr ++ [CdevDel])
        else
          let tbl := alter (set_bar0base (ioremap_ret env)) slot tbl in
          let tr := tr ++ [Ioremap] in
          if ioremap_ret env =? 0 then probe_error pdev tbl dd (tr ++ [CdevDel])
          else
            let dword0 := u32 (serial_dword0 env) in
            let dword1 := u32 (serial_dword1 env) in
            let tbl := alter (set_serial (serialreg_allbits dword0 dword1)) slot tbl in
            let tr := tr ++ [IoRead32 MB_SERIAL_OFFSET; IoRead32 (MB_SERIAL_OFFSET + 4)] in
            let dltrsstat := u32 (dltrsstat env) in
            probe_from_maxtlpsize env pdev minor tbl dd tr (maxtlpsize_of dltrsstat).

(** What [th260_remove] does to an attached card, in program order. *)
Definition teardown (pcard : th260_cdev) : trace :=
  (if cdev pcard =? 0 then [] else [CdevDel]) ++
  [DeviceDestroy (minor pcard)] ++
  th260_reset ++
  [FreeIrq; Iounmap; PciReleaseRegion] ++
  (if dmabuf pcard =? 0 then [] else [FreePages (dmabuf pcard) (dmabuf_order pcard)]).

Definition th260_remove (pdev : pci_dev_id) (st : driver_state)
  : driver_state * trace :=
  match drvdata st !! pdev with
  | None => (st, [])
  | Some slot =>
      match table st !! slot with
      | None => (st, [])
      | Some pcard =>
          match pci_dev pcard with
          | None => (st, [])
          | Some _ =>
              (mk_state (th260_cdev_del pdev (table st)) (drvdata st),
               teardown pcard)
          end
      end
  end.

End KernelParameters.

(** The value a [read] call returns, and the test of the completion-status
    bit of a status-register value. *)
Definition read_rv (r : option (Z * th260_cdev * trace)) : option Z :=
  match r with
  | Some (rv, _, _) => Some rv
  | None => None
  end.

Definition read_done (x : Z) : bool :=
  negb (Z.land (u32 x) BUSMASTERED_READ_DONE =? 0).

(** ** Sample inputs *)

(** An attached card: TLP size 128 dwords, a 512 KiB buffer (order 7 with
    4 KiB pages) at address 4096, 4096 bytes requested. *)
Definition dma_witness_card : th260_cdev :=
  mk_cdev 0 0 (Some O) 1 1 0 0 128 4096 7 0 4096 0.

(** A status register that shows the completion bit for its first [n + 1]
    reads and is clear afterwards; one whose bit never clears. *)
Definition status_set_for (n : nat) (k : nat) : Z :=
  if (k <=? n)%nat then BUSMASTERED_READ_DONE else 0.
Definition status_stuck (k : nat) : Z := BUSMASTERED_READ_DONE.

(** Wait outcomes: the completion interrupt arrives and the copy succeeds;
    the wait times out; a signal ends the wait before the transfer is done. *)
Definition wait_completes (k : nat) : wait_outcome := WaitWoken true false false.
Definition wait_times_out (k : nat) : wait_outcome := WaitTimeout.
Definition wait_signalled (k : nat) : wait_outcome := WaitWoken false false true.

(** A card nobody has mapped, and a one-page mapping request. *)
Definition idle_card : th260_cdev :=
  mk_cdev 0 0 (Some O) 1 1 0 0 128 4096 7 0 0 0.
Definition one_page_vma : vm_area_struct := mk_vma 0x7f0000000000 0x7f0000001000 0 false.

(** At most one live mapping, and a live mapping keeps the card busy. *)
Definition one_mapping (s : map_state) : Prop :=
  ms_active s = O \/ (ms_active s = 1%nat /\ busy (ms_card s) <> 0).

(** The driver after [pci_init_module]: empty slots, no driver data. *)
Definition init_state : driver_state := mk_state th260_cdev_init ∅.

Definition set_dltrsstat (v : Z) (e : probe_env) : probe_env :=
  mk_probe_env (cdev_alloc_ret e) (cdev_add_ret e) (pci_enable_device_ret e)
    (pci_request_region_ret e) (bar0_is_mem e) (ioremap_ret e) (serial_dword0 e)
    (serial_dword1 e) v (get_free_pages e) (dma_set_mask_ret e)
    (dma_set_coherent_mask_ret e) (request_irq_ret e).

Definition set_get_free_pages (g : Z -> Z) (e : probe_env) : probe_env :=
  mk_probe_env (cdev_alloc_ret e) (cdev_add_ret e) (pci_enable_device_ret e)
    (pci_request_region_ret e) (bar0_is_mem e) (ioremap_ret e) (serial_dword0 e)
    (serial_dword1 e) (dltrsstat e) g (dma_set_mask_ret e)
    (dma_set_coherent_mask_ret e) (request_irq_ret e).

(** A probe in which every kernel call succeeds: the first allocation that
    works is of order 5, the capability register reads 0x200 (128 dwords),
    the serial field reads all ones. *)
Definition good_env : probe_env :=
  mk_probe_env 0xc0de 0 0 0 true 0xf000 0xFFFFFFFF 0xFFFFFFFF 0x200
    (fun order => if order <=? 5 then 0x100000 else 0) 0 0 0.

(** The same with every page allocation failing. *)
Definition no_memory_env : probe_env := set_get_free_pages (fun _ => 0) good_env.

(** States the driver reaches from module load by attaching and detaching
    devices and by serving read, mmap, release and interrupts on a slot. *)
Inductive reachable (PAGE_SHIFT : Z) (v2p : Z -> Z) : driver_state -> Prop :=
| reach_init : reachable PAGE_SHIFT v2p init_state
| reach_probe env pdev st :
    reachable PAGE_SHIFT v2p st ->
    reachable PAGE_SHIFT v2p (snd (fst (th260_probe PAGE_SHIFT env pdev st)))
| reach_remove pdev st :
    reachable PAGE_SHIFT v2p st ->
    reachable PAGE_SHIFT v2p (fst (th260_remove pdev st))
| reach_read fuel w nonblock access_ok buffer count slot c rv c' tr st :
    reachable PAGE_SHIFT v2p st ->
    table st !! slot = Some c ->
    th260_read PAGE_SHIFT v2p fuel w nonblock access_ok c buffer count
      = Some (rv, c', tr) ->
    reachable PAGE_SHIFT v2p (mk_state (<[slot := c']> (table st)) (drvdata st))
| reach_mmap rs rr vma slot c st :
    reachable PAGE_SHIFT v2p st ->
    table st !! slot = Some c ->
    reachable PAGE_SHIFT v2p
      (mk_state (<[slot := snd (fst (fst (th260_mmap PAGE_SHIFT rs rr c vma)))]> (table st))
                (drvdata st))
| reach_vma_close slot c st :
    reachable PAGE_SHIFT v2p st ->
    table st !! slot = Some c ->
    reachable PAGE_SHIFT v2p
      (mk_state (<[slot := th260_vma_close c]> (table st)) (drvdata st))
| reach_interrupt fuel rd slot c r st :
    reachable PAGE_SHIFT v2p st ->
    table st !! slot = Some c ->
    th260_interrupt fuel rd c = Some r ->
    reachable PAGE_SHIFT v2p
      (mk_state (<[slot := irq_card r]> (table st)) (drvdata st)).

(** ** Module load and unload *)

(** The calls of [pci_init_module] and [pci_exit_module] beside those of the
    driver proper; an acquiring call carries whether it succeeded. *)
Inductive module_event :=
| ClassCreate (ok : bool)
| ClassDestroy
| AllocChrdevRegion (ok : bool)
| UnregisterChrdevRegion (first_minor : Z)
| PciRegisterDriver (ok : bool)
| PciUnregisterDriver
| Driver (e : event).

(** What the kernel answers during [pci_init_module]: [class_create_err] is
    [Some e] when [IS_ERR(th260_class)] holds, with [e] its [PTR_ERR];
    [devno_minor] is [MINOR(devno)]. *)
Record init_env := mk_init_env {
  class_create_err : option Z;
  alloc_chrdev_region_ret : Z;
  devno_minor : Z;
  pci_register_driver_ret : Z
}.

(** Result: the return code, the device table if [th260_cdev_init] has run,
    and the calls made. *)
Definition pci_init_module (env : init_env)
  : Z * option (list th260_cdev) * list module_event :=
  match class_create_err env with
  | Some err => (err, None, [ClassCreate false])
  | None =>
      let tr := [ClassCreate true] in
      let ret := alloc_chrdev_region_ret env in
      if ret <? 0
      then (ret, None, tr ++ [AllocChrdevRegion false; ClassDestroy])
      else
        let tr := tr ++ [AllocChrdevRegion true] in
        if negb (devno_minor env =? 0)
        then (- ENODEV, None,
              tr ++ [UnregisterChrdevRegion (devno_minor env); ClassDestroy])
        else
          let tbl := th260_cdev_init in
          let ret := pci_register_driver_ret env in
          if ret <? 0
          then (ret, Some tbl,
                tr ++ [PciRegisterDriver false;
                       UnregisterChrdevRegion (devno_minor env); ClassDestroy])
          else (0, Some tbl, tr ++ [PciRegisterDriver true])
  end.

(** The loop of [pci_exit_module] over the slots [i], [i+1], ...:
    [if (th260_cdev[i].pci_dev != NULL) th260_remove(th260_cdev[i].pci_dev)]. *)
Fixpoint exit_remove_loop (n i : nat) (st : driver_state) : driver_state * trace :=
  match n with
  | O => (st, [])
  | S n' =>
      let '(st1, t1) :=
        match table st !! i with
        | Some c =>
            match pci_dev c with
            | Some pdev => th260_remove pdev st
            | None => (st, [])
            end
        | None => (st, [])
        end in
      let '(st2, t2) := exit_remove_loop n' (S i) st1 in
      (st2, t1 ++ t2)
  end.

(** The remove callbacks the PCI core may issue, on [pci_unregister_driver],
    for the devices [bound] it holds bound to the driver. *)
Fixpoint remove_all (bound : list pci_dev_id) (st : driver_state)
  : driver_state * trace :=
  match bound with
  | [] => (st, [])
  | pdev :: rest =>
      let '(st1, t1) := th260_remove pdev st in
      let '(st2, t2) := remove_all rest st1 in
      (st2, t1 ++ t2)
  end.

Definition pci_exit_module (bound : list pci_dev_id) (st : driver_state)
  : driver_state * list module_event :=
  let '(st1, t1) := exit_remove_loop MAX_DEVICES O st in
  let first_minor := match table st1 !! O with Some c => minor c | None => 0 end in
  let '(st2, t2) := remove_all bound st1 in
  (st2,
   (Driver <$> t1) ++
   [UnregisterChrdevRegion first_minor; ClassDestroy; PciUnregisterDriver] ++
   (Driver <$> t2)).

(** What a run of module-level calls holds at its end, as a stack: an
    acquisition that succeeded is pushed, a release must find its
    acquisition on top; [None] when a release finds something else. *)
Fixpoint module_held (held : list module_event) (tr : list module_event)
  : option (list module_event) :=
  match tr with
  | [] => Some held
  | ClassCreate true :: rest => module_held (ClassCreate true :: held) rest
  | AllocChrdevRegion true :: rest => module_held (AllocChrdevRegion true :: held) rest
  | PciRegisterDriver true :: rest => module_held (PciRegisterDriver true :: held) rest
  | ClassDestroy :: rest =>
      match held with
      | ClassCreate true :: held' => module_held held' rest
      | _ => None
      end
  | UnregisterChrdevRegion _ :: rest =>
      match held with
      | AllocChrdevRegion true :: held' => module_held held' rest
      | _ => None
      end
  | PciUnregisterDriver :: rest =>
      match held with
      | PciRegisterDriver true :: held' => module_held held' rest
      | _ => None
      end
  | _ :: rest => module_held held rest
  end.

(** Every claimed slot is the one its device's driver data points to. *)
Definition claim_consistent (st : driver_state) : Prop :=
  forall (i : nat) (c : th260_cdev) (pdev : pci_dev_id),
    table st !! i = Some c -> pci_dev c = Some pdev -> drvdata st !! pdev = Some i.

Definition teardown_if_claimed (c : th260_cdev) : trace :=
  match pci_dev c with
  | Some _ => teardown c
  | None => []
  end.

(** ** A successful attach, in closed form *)

(** Whether the kernel's answers let [th260_probe] run to its end, once a
    slot is claimed. *)
Definition probe_succeeds (PAGE_SHIFT : Z) (env : probe_env) : bool :=
  (0 <=? cdev_add_ret env) && (0 <=? pci_enable_device_ret env) &&
  (pci_request_region_ret env =? 0) && bar0_is_mem env &&
  negb (ioremap_ret env =? 0) &&
  negb (snd (fst (dma_alloc_loop (get_free_pages env)
                    (Z.to_nat (get_order PAGE_SHIFT (512 * 1024))))) =? 0) &&
  (dma_set_mask_ret env =? 0) && (dma_set_coherent_mask_ret env =? 0) &&
  (request_irq_ret env =? 0).

(** The slot of a freshly attached device: the fields [th260_probe] assigns,
    the others as found. *)
Definition attach_card (PAGE_SHIFT : Z) (env : probe_env) (pdev : pci_dev_id)
    (c : th260_cdev) : th260_cdev :=
  let alloc := dma_alloc_loop (get_free_pages env)
                 (Z.to_nat (get_order PAGE_SHIFT (512 * 1024))) in
  mk_cdev (minor c) (busy c) (Some pdev) (cdev_alloc_ret env) (ioremap_ret env)
    (bar0offset c)
    (serialreg_allbits (u32 (serial_dword0 env)) (u32 (serial_dword1 env)))
    (maxtlpsize_of (u32 (dltrsstat env)))
    (snd (fst alloc)) (fst (fst alloc))
    (irq_received c) (dmacount c) (bytes_done c).

(** The calls of a successful attach to slot [slot], in order. *)
Definition attach_trace (PAGE_SHIFT : Z) (env : probe_env) (pdev : pci_dev_id)
    (slot : nat) : trace :=
  [CdevAdd (Z.of_nat slot); PciSetDrvdata pdev (Some slot); PciEnableDevice;
   PciRequestRegion; Ioremap; IoRead32 MB_SERIAL_OFFSET;
   IoRead32 (MB_SERIAL_OFFSET + 4); IoRead32 TRANS_SIZE_OFFSET] ++
  th260_reset ++
  snd (dma_alloc_loop (get_free_pages env)
         (Z.to_nat (get_order PAGE_SHIFT (512 * 1024)))) ++
  [PciSetMaster; DmaSetMask; DmaSetCoherentMask; RequestIrq;
   DeviceCreate (Z.of_nat slot)].

(** ** Observations on traces *)

(** The number of bytes a trace copies to user space. *)
Fixpoint copied_bytes (tr : trace) : Z :=
  match tr with
  | [] => 0
  | CopyToUser _ _ len :: rest => len + copied_bytes rest
  | _ :: rest => copied_bytes rest
  end.

(** Every copy of the trace reads from [src], is nonempty and starts where
    the previous one ended, the first one at [dst]. *)
Fixpoint copies_contiguous (src dst : Z) (tr : trace) : Prop :=
  match tr with
  | [] => True
  | CopyToUser d s len :: rest =>
      d = dst /\ s = src /\ 0 < len /\ copies_contiguous src (dst + len) rest
  | _ :: rest => copies_contiguous src dst rest
  end.

(** The events [th260_read] may produce: copies to user space and writes to
    the control, status and DMA descriptor registers. *)
Definition read_event (e : event) : Prop :=
  match e with
  | CopyToUser _ _ _ => True
  | IoWrite32 _ off =>
      off = DCR_OFFSET \/ off = DCSR_OFFSET \/ off = WRITE_ADDR_OFFSET \/
      off = WRITE_SIZE_OFFSET \/ off = WRITE_COUNT_OFFSET
  | _ => False
  end.

(** The events of [th260_interrupt]: reads of the status register, the reset
    pulse, and writes to the status register that keep the completion bit and
    set the interrupt-disable bit 7. *)
Definition interrupt_event (e : event) : Prop :=
  match e with
  | IoRead32 off => off = DCSR_OFFSET
  | IoWrite32 val off =>
      (off = DCR_OFFSET /\ (val = 1 \/ val = 0)) \/
      (off = DCSR_OFFSET /\ Z.testbit val 7 = true /\ Z.testbit val 8 = true)
  | _ => False
  end.

(** The fields of a card that describe the attached device, as opposed to
    the transfer in flight ([irq_received], [dmacount], [bytes_done]). *)
Definition card_config (c : th260_cdev)
  : Z * Z * option pci_dev_id * Z * Z * Z * Z * Z * Z * Z :=
  (minor c, busy c, pci_dev c, cdev c, bar0base c, bar0offset c, serial c,
   maxtlpsize c, dmabuf c, dmabuf_order c).

(** A copy of at most [cap] bytes, or an event that is no copy. *)
Definition copy_at_most (cap : Z) (e : event) : Prop :=
  match e with
  | CopyToUser _ _ len => len <= cap
  | _ => True
  end.

(** What holds of the trace of a [read] call that has copied [total] bytes
    from the DMA buffer [src], of [cap] bytes, to the caller's [buffer]. *)
Definition read_trace_ok (src buffer cap total : Z) (tr : trace) : Prop :=
  Forall read_event tr /\ Forall (copy_at_most cap) tr /\
  copies_contiguous src buffer tr /\ copied_bytes tr = total.

(** How a [read] call of [count] bytes may end: with the number of bytes
    copied, if positive, or with [-EINTR] or [-EFAULT]. *)
Definition read_returned (src buffer cap count rv : Z) (tr : trace) : Prop :=
  exists total, read_trace_ok src buffer cap total tr /\ 0 <= total <= count /\
                ((rv = total /\ 0 < rv) \/ rv = - EINTR \/ rv = - EFAULT).

(** The allocation requests for the orders [n], [n - 1], ..., [order], in
    this sequence. *)
Definition orders_tried (n : nat) (order : Z) : trace :=
  map (fun i : nat => GetFreePages (Z.of_nat n - Z.of_nat i))
      (seq 0 (Z.to_nat (Z.of_nat n - order + 1))).

(** Calls that give back what an attach has taken. *)
Definition releases (e : event) : bool :=
  match e with
  | PciReleaseRegion | FreePages _ _ | FreeIrq | DeviceDestroy _ => true
  | _ => false
  end.

(** The shape of the device table: [MAX_DEVICES] slots, slot [i] carrying
    minor number [i]. *)
Definition table_shape (tbl : list th260_cdev) : Prop :=
  length tbl = MAX_DEVICES /\
  forall (i : nat) (c : th260_cdev), tbl !! i = Some c -> minor c = Z.of_nat i.

(** A device table with two slots taken, and a probe in which
    [pci_enable_device] fails. *)
Definition two_cards_table : list th260_cdev :=
  snd (th260_cdev_add 7%nat (snd (th260_cdev_add 3%nat th260_cdev_init))).
Definition enable_fails_env : probe_env :=
  mk_probe_env 0xc0de 0 (-5) 0 true 0xf000 0xFFFFFFFF 0xFFFFFFFF 0x200
    (fun order => if order <=? 5 then 0x100000 else 0) 0 0 0.

(** A card with a one-page DMA buffer, for reads of several chunks. *)
Definition small_buffer_card : th260_cdev :=
  mk_cdev 0 0 (Some O) 1 1 0 0 128 4096 0 0 0 0.

(** Waits of a read of several chunks: the first [j] complete, then the
    wait times out, is ended by a signal, or completes with a failing copy. *)
Definition wait_timeout_after (j k : nat) : wait_outcome :=
  if (k <? j)%nat then WaitWoken true false false else WaitTimeout.
Definition wait_signal_after (j k : nat) : wait_outcome :=
  if (k <? j)%nat then WaitWoken true false false else WaitWoken false false true.
Definition wait_copy_fails_after (j k : nat) : wait_outcome :=
  if (k <? j)%nat then WaitWoken true false false else WaitWoken true true false.

(** A completed read of 4096 bytes and a handled interrupt, evaluated. *)
Definition sample_read : Z * th260_cdev * trace :=
  Eval vm_compute in
    match th260_read 12 (fun a => a) 2 wait_completes false true
                     dma_witness_card 0 4096 with
    | Some r => r
    | None => (0, dma_witness_card, [])
    end.
Definition sample_interrupt : irq_result :=
  Eval vm_compute in
    match th260_interrupt 5 (status_set_for 2) dma_witness_card with
    | Some r => r
    | None => mk_irq_result 0 dma_witness_card O []
    end.

(** A table with every slot taken, and a state with one attached card. *)
Definition full_table : list th260_cdev :=
  snd (th260_cdev_add 12%nat (snd (th260_cdev_add 11%nat two_cards_table))).
Definition attached_state : driver_state :=
  mk_state (mk_cdev 0 0 (Some 5%nat) 0xc0de 0xf000 0 0 128 0x100000 5 0 0 0 ::
            map init_slot (seq 1 3))
           {[ 5%nat := O ]}.

(** * Properties *)

(** ** Machine arithmetic *)

Lemma u32_small (x : Z) : 0 <= x < 2 ^ 32 -> u32 x = x.
Proof. intros H. unfold u32. apply Z.mod_small. exact H. Qed.

Lemma u32_range (x : Z) : 0 <= u32 x < 2 ^ 32.
Proof. unfold u32. apply Z.mod_pos_bound. lia. Qed.

Lemma s32_small (x : Z) : 0 <= x < 2 ^ 31 -> s32 x = x.
Proof. intros H. unfold s32. rewrite Z.mod_small; lia. Qed.

Lemma u64_small (x : Z) : 0 <= x < 2 ^ 64 -> u64 x = x.
Proof. intros H. unfold u64. apply Z.mod_small. exact H. Qed.

(** ** The TLP search *)

Lemma shiftr1_pos (t : Z) : 2 < t -> 0 < Z.shiftr t 1 < t.
Proof.
  intros H. rewrite Z.shiftr_div_pow2 by lia. change (2 ^ 1) with 2.
  split.
  - apply Z.div_str_pos. lia.
  - apply Z.div_lt; lia.
Qed.

Lemma shiftr1_le_pow (t : Z) (n : nat) :
  t <= 2 ^ (Z.of_nat (S n) + 1) -> Z.shiftr t 1 <= 2 ^ (Z.of_nat n + 1).
Proof.
  intros H. rewrite Z.shiftr_div_pow2 by lia. change (2 ^ 1) with 2.
  replace (Z.of_nat (S n) + 1) with (Z.succ (Z.of_nat n + 1)) in H by lia.
  rewrite Z.pow_succ_r in H by lia.
  apply Z.div_le_upper_bound; lia.
Qed.

(** The loop leaves within its fuel, after [k] halvings: every earlier size
    left a remainder and exceeded 2, the final one divides or is at most 2. *)
Lemma tlp_loop_spec (fuel : nat) : forall (nd t : Z),
  0 < t -> t <= 2 ^ (Z.of_nat fuel + 1) ->
  exists k : nat,
    tlp_loop fuel nd t (nd / t) (nd mod t) =
      Some (Z.shiftr t (Z.of_nat k),
            nd / Z.shiftr t (Z.of_nat k),
            nd mod Z.shiftr t (Z.of_nat k)) /\
    0 < Z.shiftr t (Z.of_nat k) /\
    (forall j : nat, (j < k)%nat ->
       nd mod Z.shiftr t (Z.of_nat j) <> 0 /\ 2 < Z.shiftr t (Z.of_nat j)) /\
    (nd mod Z.shiftr t (Z.of_nat k) = 0 \/ Z.shiftr t (Z.of_nat k) <= 2).
Proof.
  induction fuel as [|fuel IH]; intros nd t Hpos Hle.
  - exists O. change (Z.of_nat 0) with 0. rewrite Z.shiftr_0_r.
    change (2 ^ (0 + 1)) with 2 in Hle.
    simpl. replace (2 <? t) with false by (symmetry; apply Z.ltb_ge; lia).
    rewrite andb_false_r.
    split; [reflexivity|]. split; [lia|]. split; [intros j Hj; lia | right; lia].
  - simpl tlp_loop.
    destruct (negb (nd mod t =? 0) && (2 <? t)) eqn:Hc.
    + apply andb_true_iff in Hc as [Hr Ht].
      apply negb_true_iff, Z.eqb_neq in Hr. apply Z.ltb_lt in Ht.
      destruct (IH nd (Z.shiftr t 1)) as (k & Hk & Hp & Hbefore & Hlast).
      { apply shiftr1_pos. exact Ht. }
      { apply shiftr1_le_pow. exact Hle. }
      assert (Hsh : forall m : nat,
                 Z.shiftr (Z.shiftr t 1) (Z.of_nat m) = Z.shiftr t (Z.of_nat (S m))).
      { intros m. rewrite Z.shiftr_shiftr by lia. f_equal. lia. }
      exists (S k). rewrite <- Hsh.
      split; [exact Hk|]. split; [exact Hp|]. split; [|exact Hlast].
      intros [|j] Hj.
      * change (Z.of_nat 0) with 0. rewrite Z.shiftr_0_r. split; assumption.
      * rewrite <- Hsh. apply Hbefore. lia.
    + exists O. change (Z.of_nat 0) with 0. rewrite Z.shiftr_0_r.
      split; [reflexivity|]. split; [exact Hpos|]. split.
      * intros j Hj. lia.
      * apply andb_false_iff in Hc as [Hr | Ht].
        -- left. apply negb_false_iff, Z.eqb_eq in Hr. exact Hr.
        -- right. apply Z.ltb_ge in Ht. exact Ht.
Qed.

Section DmaEngine.

Variable PAGE_SHIFT : Z.
Variable virt_to_phys : Z -> Z.

(** C1. For a card whose maximum TLP size lies in 32..4096 and a byte count
    [n] that is a positive multiple of 4 within the DMA buffer's capacity
    (itself at most 512 KiB), [th260_dma_start] works on [n / 4] dwords,
    halves the TLP size [k] times from the maximum, as long as the remainder
    is nonzero and the size exceeds 2, and then either writes the reset
    pulse followed by source address, the pair [(tlp, tlpcount)] with
    [tlp * 4 * tlpcount = n] and [tlpcount <= 65535], and the enable bit, or,
    when the final pair violates one of the two conditions, writes nothing
    but the reset pulse to the control register. *)
Theorem dma_start_programs_or_rejects (c : th260_cdev) (n : Z) :
  32 <= maxtlpsize c <= 4096 ->
  dmacount c = n ->
  0 < n -> n mod 4 = 0 ->
  n <= BUFFER_SIZE PAGE_SHIFT (dmabuf_order c) ->
  BUFFER_SIZE PAGE_SHIFT (dmabuf_order c) <= 512 * 1024 ->
  exists (k : nat) (tlp tlpcount : Z),
    tlp = Z.shiftr (maxtlpsize c) (Z.of_nat k) /\
    tlpcount = (n / 4) / tlp /\
    (forall j : nat, (j < k)%nat ->
       (n / 4) mod Z.shiftr (maxtlpsize c) (Z.of_nat j) <> 0 /\
       2 < Z.shiftr (maxtlpsize c) (Z.of_nat j)) /\
    ((n / 4) mod tlp = 0 \/ tlp <= 2) /\
    ((tlp * 4 * tlpcount = n /\ tlpcount <= 65535 /\
      th260_dma_start virt_to_phys c =
        Some [IoWrite32 1 DCR_OFFSET; IoWrite32 0 DCR_OFFSET;
              IoWrite32 (u32 (virt_to_phys (dmabuf c))) WRITE_ADDR_OFFSET;
              IoWrite32 tlp WRITE_SIZE_OFFSET;
              IoWrite32 tlpcount WRITE_COUNT_OFFSET;
              IoWrite32 1 DCSR_OFFSET])
     \/
     ((tlp * 4 * tlpcount <> n \/ 65535 < tlpcount) /\
      th260_dma_start virt_to_phys c =
        Some [IoWrite32 1 DCR_OFFSET; IoWrite32 0 DCR_OFFSET])).
Proof.
  intros Hmax Hcnt Hn H4 Hcap Hbuf.
  destruct (tlp_loop_spec dma_fuel (n / 4) (maxtlpsize c))
    as (k & Hk & Hp & Hbefore & Hlast).
  { lia. }
  { unfold dma_fuel. change (2 ^ (Z.of_nat 32 + 1)) with 8589934592. lia. }
  set (tlp := Z.shiftr (maxtlpsize c) (Z.of_nat k)) in *.
  exists k, tlp, (n / 4 / tlp).
  split; [reflexivity|]. split; [reflexivity|].
  split; [exact Hbefore|]. split; [exact Hlast|].
  assert (Hnd : 0 <= n / 4) by (apply Z.div_pos; lia).
  assert (Hnd4 : 4 * (n / 4) <= n) by (apply Z.mul_div_le; lia).
  assert (Hq : 0 <= n / 4 / tlp) by (apply Z.div_pos; lia).
  assert (Hprod : tlp * (n / 4 / tlp) <= n / 4) by (apply Z.mul_div_le; lia).
  assert (Hu : u32 (tlp * 4 * (n / 4 / tlp)) = tlp * 4 * (n / 4 / tlp)).
  { apply u32_small. split; [nia | lia]. }
  unfold th260_dma_start.
  destruct (Z.eqb_spec (maxtlpsize c) 0) as [Hz | _]; [lia|].
  rewrite Hcnt, Hk. fold tlp. rewrite Hu.
  destruct (65535 <? n / 4 / tlp) eqn:Hbig.
  - right. apply Z.ltb_lt in Hbig. split; [right; exact Hbig | reflexivity].
  - apply Z.ltb_ge in Hbig.
    destruct (n =? tlp * 4 * (n / 4 / tlp)) eqn:Heq; simpl.
    + left. apply Z.eqb_eq in Heq. repeat split; try lia.
    + right. apply Z.eqb_neq in Heq. split; [left; lia | reflexivity].
Qed.

End DmaEngine.

Lemma dma_start_programs_or_rejects_witness :
  exists (k : nat) (tlp tlpcount : Z),
    tlp = Z.shiftr 128 (Z.of_nat k) /\
    tlpcount = (4096 / 4) / tlp /\
    (forall j : nat, (j < k)%nat ->
       (4096 / 4) mod Z.shiftr 128 (Z.of_nat j) <> 0 /\
       2 < Z.shiftr 128 (Z.of_nat j)) /\
    ((4096 / 4) mod tlp = 0 \/ tlp <= 2) /\
    ((tlp * 4 * tlpcount = 4096 /\ tlpcount <= 65535 /\
      th260_dma_start (fun a => a) dma_witness_card =
        Some [IoWrite32 1 DCR_OFFSET; IoWrite32 0 DCR_OFFSET;
              IoWrite32 (u32 4096) WRITE_ADDR_OFFSET;
              IoWrite32 tlp WRITE_SIZE_OFFSET;
              IoWrite32 tlpcount WRITE_COUNT_OFFSET;
              IoWrite32 1 DCSR_OFFSET])
     \/
     ((tlp * 4 * tlpcount <> 4096 \/ 65535 < tlpcount) /\
      th260_dma_start (fun a => a) dma_witness_card =
        Some [IoWrite32 1 DCR_OFFSET; IoWrite32 0 DCR_OFFSET])).
Proof.
  apply (dma_start_programs_or_rejects 12 (fun a => a) dma_witness_card 4096).
  - simpl. lia.
  - reflexivity.
  - lia.
  - reflexivity.
  - vm_compute. discriminate.
  - vm_compute. discriminate.
Defined.

(** The two outcomes on concrete byte counts: 4096 bytes go out as 8 TLPs of
    128 dwords; 12 bytes (3 dwords) end the search at size 2 with a remainder
    and are rejected after the reset pulse. *)
Example dma_start_4096 :
  th260_dma_start (fun a => a) dma_witness_card =
    Some [IoWrite32 1 DCR_OFFSET; IoWrite32 0 DCR_OFFSET;
          IoWrite32 4096 WRITE_ADDR_OFFSET; IoWrite32 128 WRITE_SIZE_OFFSET;
          IoWrite32 8 WRITE_COUNT_OFFSET; IoWrite32 1 DCSR_OFFSET].
Proof. reflexivity. Qed.

Example dma_start_12 :
  th260_dma_start (fun a => a) (set_dmacount 12 dma_witness_card) =
    Some [IoWrite32 1 DCR_OFFSET; IoWrite32 0 DCR_OFFSET].
Proof. reflexivity. Qed.

(** The search never runs out of fuel on a 32-bit TLP size. *)
Lemma tlp_loop_total (fuel : nat) : forall nd t cnt rest : Z,
  t <= 2 ^ (Z.of_nat fuel + 1) ->
  exists r, tlp_loop fuel nd t cnt rest = Some r.
Proof.
  induction fuel as [|fuel IH]; intros nd t cnt rest Hle; simpl.
  - change (2 ^ (0 + 1)) with 2 in Hle.
    replace (2 <? t) with false by (symmetry; apply Z.ltb_ge; lia).
    rewrite andb_false_r. eauto.
  - destruct (negb (rest =? 0) && (2 <? t)); [|eauto].
    apply IH. apply shiftr1_le_pow. exact Hle.
Qed.

(** With a zero maximum TLP size the call does not return; with any other
    32-bit one it does. *)
Lemma th260_dma_start_zero_tlpsize (v2p : Z -> Z) (c : th260_cdev) :
  maxtlpsize c = 0 -> th260_dma_start v2p c = None.
Proof. intros H. unfold th260_dma_start. rewrite H. reflexivity. Qed.

Lemma th260_dma_start_total (v2p : Z -> Z) (c : th260_cdev) :
  0 < maxtlpsize c < 2 ^ 32 -> exists t, th260_dma_start v2p c = Some t.
Proof.
  intros H. unfold th260_dma_start.
  destruct (Z.eqb_spec (maxtlpsize c) 0) as [Hz | _]; [lia|].
  destruct (tlp_loop_total dma_fuel (dmacount c / 4) (maxtlpsize c)
              (dmacount c / 4 / maxtlpsize c) (dmacount c / 4 mod maxtlpsize c))
    as [[[t n] r] Hr].
  { unfold dma_fuel. change (2 ^ (Z.of_nat 32 + 1)) with 8589934592. lia. }
  rewrite Hr.
  destruct (65535 <? n); [eauto|].
  destruct (negb (dmacount c =? u32 (t * 4 * n))); eauto.
Qed.

(** ** The interrupt handler's acknowledge loop *)

Lemma interrupt_loop_count (rd : nat -> Z) (m : nat) :
  forall (fuel k : nat) (dcsr : Z),
  Z.land dcsr BUSMASTERED_READ_DONE <> 0 ->
  (forall j : nat, (j < m)%nat -> read_done (rd (k + j)%nat) = true) ->
  read_done (rd (k + m)%nat) = false ->
  (m < fuel)%nat ->
  exists t, interrupt_loop fuel rd k dcsr = Some (S m, t).
Proof.
  induction m as [|m IH]; intros fuel k dcsr Hset Hbefore Hclear Hfuel.
  - destruct fuel as [|fuel]; [lia|]. simpl.
    apply Z.eqb_neq in Hset. rewrite Hset.
    unfold read_done in Hclear. rewrite Nat.add_0_r in Hclear.
    apply negb_false_iff in Hclear.
    destruct fuel; simpl; rewrite Hclear; eauto.
  - destruct fuel as [|fuel]; [lia|]. simpl.
    pose proof Hset as Hset'. apply Z.eqb_neq in Hset'. rewrite Hset'.
    destruct (IH fuel (S k) (u32 (rd k))) as [t Ht].
    + specialize (Hbefore O ltac:(lia)). rewrite Nat.add_0_r in Hbefore.
      unfold read_done in Hbefore. apply negb_true_iff, Z.eqb_neq in Hbefore.
      exact Hbefore.
    + intros j Hj. replace (S k + j)%nat with (k + S j)%nat by lia.
      apply Hbefore. lia.
    + replace (S k + m)%nat with (k + S m)%nat by lia. exact Hclear.
    + lia.
    + rewrite Ht. eauto.
Qed.

Lemma interrupt_loop_stuck (rd : nat -> Z) :
  (forall j : nat, read_done (rd j) = true) ->
  forall (fuel k : nat) (dcsr : Z),
  Z.land dcsr BUSMASTERED_READ_DONE <> 0 ->
  interrupt_loop fuel rd k dcsr = None.
Proof.
  intros Hall. induction fuel as [|fuel IH]; intros k dcsr Hset; simpl;
    pose proof Hset as Hset'; apply Z.eqb_neq in Hset'; rewrite Hset'.
  - reflexivity.
  - rewrite IH; [reflexivity|].
    specialize (Hall k). unfold read_done in Hall.
    apply negb_true_iff, Z.eqb_neq in Hall. exact Hall.
Qed.

Lemma status_set_for_done (n j : nat) :
  read_done (status_set_for n j) = (j <=? n)%nat.
Proof. unfold status_set_for. destruct (j <=? n)%nat; reflexivity. Qed.

Lemma status_set_for_iterations (cap : nat) :
  exists r, th260_interrupt (S (S cap)) (status_set_for cap) dma_witness_card = Some r /\
            irq_iterations r = S cap.
Proof.
  unfold th260_interrupt.
  replace (Z.land (u32 (status_set_for cap 0)) BUSMASTERED_READ_DONE =? 0)
    with false by reflexivity.
  destruct (interrupt_loop_count (status_set_for cap) cap (S (S cap)) 1%nat
              (u32 (status_set_for cap 0))) as [t Ht].
  - discriminate.
  - intros j Hj. rewrite status_set_for_done. apply Nat.leb_le. lia.
  - rewrite status_set_for_done. apply Nat.leb_gt. lia.
  - lia.
  - rewrite Ht. eexists. split; reflexivity.
Qed.

(** C5, as the code has it. The acknowledge loop of [th260_interrupt] runs
    until a read of the status register shows the completion bit clear: when
    the reads number 0 to [m] show the bit and read [m + 1] does not, the
    handler returns "handled" after exactly [m + 1] executions of the loop
    body (given fuel for them). *)
Theorem interrupt_loop_runs_until_clear
    (fuel : nat) (rd : nat -> Z) (pcard : th260_cdev) (m : nat) :
  (forall j : nat, (j <= m)%nat -> read_done (rd j) = true) ->
  read_done (rd (S m)) = false ->
  (m < fuel)%nat ->
  exists r, th260_interrupt fuel rd pcard = Some r /\
            irq_iterations r = S m /\
            irq_handled r = 1 /\
            irq_card r = irq_complete pcard.
Proof.
  intros Hset Hclear Hfuel. unfold th260_interrupt.
  pose proof (Hset O ltac:(lia)) as H0. unfold read_done in H0.
  apply negb_true_iff in H0. rewrite H0. apply Z.eqb_neq in H0.
  destruct (interrupt_loop_count rd m fuel 1%nat (u32 (rd O))) as [t Ht].
  - exact H0.
  - intros j Hj. apply Hset. lia.
  - exact Hclear.
  - exact Hfuel.
  - rewrite Ht. eexists. repeat split.
Qed.

Lemma interrupt_loop_runs_until_clear_witness :
  exists r, th260_interrupt 5 (status_set_for 2) dma_witness_card = Some r /\
            irq_iterations r = 3%nat /\
            irq_handled r = 1 /\
            irq_card r = irq_complete dma_witness_card.
Proof.
  apply (interrupt_loop_runs_until_clear 5 (status_set_for 2) dma_witness_card 2).
  - intros [|[|[|j]]] Hj; [reflexivity | reflexivity | reflexivity | lia].
  - reflexivity.
  - lia.
Defined.

(** C5, as stated, fails: no number caps the executions of the loop body over
    all sequences of status-register values, and with a status bit that never
    clears the handler does not return at all. *)
Lemma interrupt_loop_has_no_cap :
  ~ (exists cap : nat, forall (fuel : nat) (rd : nat -> Z) (c : th260_cdev) r,
        th260_interrupt fuel rd c = Some r -> (irq_iterations r <= cap)%nat)
  /\ (forall fuel : nat, th260_interrupt fuel status_stuck dma_witness_card = None).
Proof.
  split.
  - intros [cap Hcap].
    destruct (status_set_for_iterations cap) as (r & Hr & Hn).
    specialize (Hcap _ _ _ _ Hr). lia.
  - intros fuel. unfold th260_interrupt.
    replace (Z.land (u32 (status_stuck 0)) BUSMASTERED_READ_DONE =? 0) with false
      by reflexivity.
    rewrite interrupt_loop_stuck; [reflexivity | reflexivity | discriminate].
Qed.

(** ** read *)

Section Read.

Variable PAGE_SHIFT : Z.
Variable virt_to_phys : Z -> Z.

Local Abbreviation read := (th260_read PAGE_SHIFT virt_to_phys).
Local Abbreviation capacity c := (BUFFER_SIZE PAGE_SHIFT (dmabuf_order c)).

(** C9. With [O_NONBLOCK] set and a nonzero count, [th260_read] returns
    [-EFAULT] (which is not the would-block code [EAGAIN]) whatever
    [access_ok] would answer, with no register written and the card
    untouched. *)
Theorem read_nonblock_efault (fuel : nat) (w : nat -> wait_outcome)
    (access_ok : bool) (pcard : th260_cdev) (buffer count : Z) :
  count <> 0 ->
  read fuel w true access_ok pcard buffer count = Some (- EFAULT, pcard, []) /\
  - EFAULT <> - EAGAIN.
Proof.
  intros Hc. unfold th260_read. apply Z.eqb_neq in Hc. rewrite Hc.
  split; [reflexivity | discriminate].
Qed.

Lemma MIN_le (a b : Z) : a <= b -> MIN a b = a.
Proof. intros H. unfold MIN. destruct (a <? b) eqn:E; [reflexivity|]. apply Z.ltb_ge in E. lia. Qed.

Lemma MIN_range (a b : Z) : 0 < a -> 0 < b -> 0 < MIN a b <= b.
Proof. intros Ha Hb. unfold MIN. destruct (a <? b) eqn:E; [apply Z.ltb_lt in E|]; lia. Qed.

(** A chunk cycle does not depend on the completed-byte counter it finds. *)
Lemma read_chunk_loop_resets (fuel : nat) (w : nat -> wait_outcome) (k : nat)
    (c : th260_cdev) (b buffer count total : Z) (tr : trace) :
  read_chunk_loop PAGE_SHIFT virt_to_phys fuel w k (set_bytes_done b c)
                  buffer count total tr =
  read_chunk_loop PAGE_SHIFT virt_to_phys fuel w k c buffer count total tr.
Proof. destruct fuel; reflexivity. Qed.

(** C6. A read of 0 bytes returns 0 at once.  On a card with a nonzero
    maximum TLP size, a blocking read of [n] bytes, [0 < n <= capacity],
    into a writable buffer, whose single wait ends with the completion
    interrupt and whose copy succeeds, returns exactly [n], whatever the
    completed-byte counter held before the call: it triggers the DMA engine
    once, for [n] bytes, copies exactly these [n] bytes from the DMA buffer
    to the caller's buffer in one copy, and leaves the counter at [n] and
    nothing pending.  Every chunk cycle starts by resetting the counter, so
    its outcome is the same for every stale value. *)
Theorem read_returns_count (fuel : nat) (w : nat -> wait_outcome)
    (nonblock access_ok signal : bool) (pcard : th260_cdev) (stale buffer n : Z) :
  0 < maxtlpsize pcard < 2 ^ 32 ->
  capacity pcard <= 512 * 1024 ->
  0 < n <= capacity pcard ->
  w O = WaitWoken true false signal ->
  (2 <= fuel)%nat ->
  read fuel w nonblock access_ok pcard buffer 0 = Some (0, pcard, []) /\
  (exists c' t,
     th260_dma_start virt_to_phys
       (set_irq_received 0 (set_dmacount n (set_bytes_done 0 pcard))) = Some t /\
     read fuel w false true (set_bytes_done stale pcard) buffer n =
       Some (n, c', t ++ [CopyToUser buffer (dmabuf pcard) n]) /\
     bytes_done c' = n /\ dmacount c' = 0 /\ irq_received c' = 1 /\
     card_config c' = card_config pcard) /\
  (forall fuel' k c buffer' count total tr,
     read_chunk_loop PAGE_SHIFT virt_to_phys fuel' w k (set_bytes_done stale c)
                     buffer' count total tr =
     read_chunk_loop PAGE_SHIFT virt_to_phys fuel' w k (set_bytes_done 0 c)
                     buffer' count total tr).
Proof.
  intros Hmax Hcap Hn Hw Hfuel.
  split; [reflexivity|]. split.
  2:{ intros. rewrite !read_chunk_loop_resets. reflexivity. }
  destruct fuel as [|[|fuel]]; try lia.
  destruct (th260_dma_start_total virt_to_phys
              (set_irq_received 0 (set_dmacount n (set_bytes_done 0 pcard))))
    as [t Ht]; [exact Hmax|].
  exists (irq_complete
            (set_irq_received 0 (set_dmacount n (set_bytes_done 0 pcard)))), t.
  split; [exact Ht|].
  split.
  2:{ split; [cbn; rewrite Z.add_0_l; apply u32_small; lia|].
      split; [reflexivity|]. split; reflexivity. }
  unfold th260_read.
  replace (n =? 0) with false by (symmetry; apply Z.eqb_neq; lia).
  cbn [negb]. rewrite read_chunk_loop_resets.
  cbn [read_chunk_loop].
  replace (dmabuf_order (set_bytes_done 0 pcard)) with (dmabuf_order pcard)
    by reflexivity.
  rewrite MIN_le by lia. rewrite u32_small by lia.
  set (c1 := set_dmacount n (set_bytes_done 0 pcard)).
  cbn [read_wait_loop].
  replace (dmacount c1) with n by reflexivity.
  replace (n =? 0) with false by (symmetry; apply Z.eqb_neq; lia).
  fold c1 in Ht. rewrite Ht, Hw.
  replace (bytes_done (irq_complete (set_irq_received 0 c1))) with (u32 (0 + n))
    by reflexivity.
  replace (irq_received (irq_complete (set_irq_received 0 c1))) with 1
    by reflexivity.
  rewrite !Z.add_0_l. rewrite !(u32_small n) by lia. rewrite (s32_small n) by lia.
  replace (n =? 0) with false by (symmetry; apply Z.eqb_neq; lia).
  cbn [negb andb].
  destruct signal.
  - reflexivity.
  - cbn [Z.eqb negb]. rewrite Z.sub_diag. change (u64 0) with 0.
    cbn [Z.ltb Z.compare]. reflexivity.
Qed.

Lemma read_wait_loop_timeout (fuel : nat) (w : nat -> wait_outcome) (k : nat)
    (c : th260_cdev) (buffer count total : Z) (tr : trace) :
  0 < maxtlpsize c < 2 ^ 32 ->
  dmacount c <> 0 ->
  w k = WaitTimeout ->
  exists tr',
    read_wait_loop virt_to_phys (S fuel) w k c buffer count total tr =
      LReturn (- EINTR) (set_irq_received 0 c) tr'.
Proof.
  intros Hmax Hd Hw. cbn [read_wait_loop].
  apply Z.eqb_neq in Hd. rewrite Hd.
  destruct (th260_dma_start_total virt_to_phys (set_irq_received 0 c)) as [t Ht].
  { exact Hmax. }
  rewrite Ht, Hw. eauto.
Qed.

(** C2, as the code has it. On a card with a nonzero maximum TLP size, in a
    blocking read of a nonzero count into a writable buffer, a wait that
    times out makes the call return [-EINTR]:
    at the first wait of the call and at the wait of any later chunk.  The
    same [-EINTR] is what the call returns when a signal ends the first wait
    before any byte is done. *)
Theorem read_timeout_returns_eintr (fuel : nat) (w w' : nat -> wait_outcome)
    (copy_failed : bool) (pcard : th260_cdev) (buffer count : Z) :
  0 < maxtlpsize pcard < 2 ^ 32 ->
  0 < capacity pcard <= 512 * 1024 ->
  0 < count ->
  w O = WaitTimeout ->
  w' O = WaitWoken false copy_failed true ->
  (2 <= fuel)%nat ->
  read_rv (read fuel w false true pcard buffer count) = Some (- EINTR) /\
  read_rv (read fuel w' false true pcard buffer count) = Some (- EINTR) /\
  (forall (k : nat) (c : th260_cdev) (buffer' count' total : Z) (tr : trace),
     0 < maxtlpsize c < 2 ^ 32 -> dmacount c <> 0 -> w k = WaitTimeout ->
     exists tr',
       read_wait_loop virt_to_phys fuel w k c buffer' count' total tr =
         LReturn (- EINTR) (set_irq_received 0 c) tr').
Proof.
  intros Hmax Hcap Hcount Hw Hw' Hfuel.
  destruct fuel as [|[|fuel]]; try lia.
  assert (Hmin : 0 < u32 (MIN count (capacity pcard)) < 2 ^ 32).
  { pose proof (MIN_range count (capacity pcard)) as Hr.
    rewrite u32_small; lia. }
  split; [|split].
  - unfold th260_read.
    replace (count =? 0) with false by (symmetry; apply Z.eqb_neq; lia).
    cbn [negb read_chunk_loop].
    set (c1 := set_dmacount _ _).
    destruct (read_wait_loop_timeout fuel w O c1 buffer count 0 [])
      as [tr' Htr]; [exact Hmax | cbn; lia | exact Hw |].
    rewrite Htr. reflexivity.
  - unfold th260_read.
    replace (count =? 0) with false by (symmetry; apply Z.eqb_neq; lia).
    cbn [negb read_chunk_loop].
    replace (dmabuf_order (set_bytes_done 0 pcard)) with (dmabuf_order pcard)
      by reflexivity.
    set (c1 := set_dmacount _ _).
    cbn [read_wait_loop].
    replace (dmacount c1) with (u32 (MIN count (capacity pcard))) by reflexivity.
    replace (u32 (MIN count (capacity pcard)) =? 0) with false
      by (symmetry; apply Z.eqb_neq; lia).
    destruct (th260_dma_start_total virt_to_phys (set_irq_received 0 c1)) as [t Ht].
    { exact Hmax. }
    rewrite Ht, Hw'. reflexivity.
  - intros k c buffer' count' total tr Hm Hd Hk.
    apply read_wait_loop_timeout; assumption.
Qed.

End Read.

Lemma read_nonblock_efault_witness :
  th260_read 12 (fun a => a) 2 wait_completes true true dma_witness_card 0 4096
    = Some (- EFAULT, dma_witness_card, []) /\
  - EFAULT <> - EAGAIN.
Proof.
  apply (read_nonblock_efault 12 (fun a => a) 2 wait_completes true
           dma_witness_card 0 4096).
  discriminate.
Defined.

Lemma read_returns_count_witness :
  th260_read 12 (fun a => a) 2 wait_completes false true dma_witness_card 0 0
    = Some (0, dma_witness_card, []) /\
  (exists c' t,
     th260_dma_start (fun a => a)
       (set_irq_received 0 (set_dmacount 4096 (set_bytes_done 0 dma_witness_card)))
       = Some t /\
     th260_read 12 (fun a => a) 2 wait_completes false true
       (set_bytes_done 77 dma_witness_card) 0 4096 =
       Some (4096, c', t ++ [CopyToUser 0 (dmabuf dma_witness_card) 4096]) /\
     bytes_done c' = 4096 /\ dmacount c' = 0 /\ irq_received c' = 1 /\
     card_config c' = card_config dma_witness_card) /\
  (forall fuel' k c buffer' count total tr,
     read_chunk_loop 12 (fun a => a) fuel' wait_completes k (set_bytes_done 77 c)
                     buffer' count total tr =
     read_chunk_loop 12 (fun a => a) fuel' wait_completes k (set_bytes_done 0 c)
                     buffer' count total tr).
Proof.
  apply (read_returns_count 12 (fun a => a) 2 wait_completes false true false
           dma_witness_card 77 0 4096).
  - split; reflexivity.
  - vm_compute. discriminate.
  - split; [lia | vm_compute; discriminate].
  - reflexivity.
  - lia.
Defined.

Lemma read_timeout_returns_eintr_witness :
  read_rv (th260_read 12 (fun a => a) 2 wait_times_out false true
             dma_witness_card 0 4096) = Some (- EINTR) /\
  read_rv (th260_read 12 (fun a => a) 2 wait_signalled false true
             dma_witness_card 0 4096) = Some (- EINTR) /\
  (forall (k : nat) (c : th260_cdev) (buffer' count' total : Z) (tr : trace),
     0 < maxtlpsize c < 2 ^ 32 -> dmacount c <> 0 ->
     wait_times_out k = WaitTimeout ->
     exists tr',
       read_wait_loop (fun a => a) 2 wait_times_out k c buffer' count' total tr =
         LReturn (- EINTR) (set_irq_received 0 c) tr').
Proof.
  apply (read_timeout_returns_eintr 12 (fun a => a) 2 wait_times_out
           wait_signalled false dma_witness_card 0 4096).
  - split; reflexivity.
  - split; vm_compute; [reflexivity | discriminate].
  - lia.
  - reflexivity.
  - reflexivity.
  - lia.
Defined.

(** C2, as stated, fails: the call whose wait times out and the call that a
    signal cancels before any progress return the same error, [-EINTR]. *)
Lemma read_timeout_same_code_as_interrupted :
  read_rv (th260_read 12 (fun a => a) 2 wait_times_out false true
             dma_witness_card 0 4096) = Some (- EINTR) /\
  read_rv (th260_read 12 (fun a => a) 2 wait_signalled false true
             dma_witness_card 0 4096) = Some (- EINTR) /\
  ~ (read_rv (th260_read 12 (fun a => a) 2 wait_times_out false true
                dma_witness_card 0 4096) <>
     read_rv (th260_read 12 (fun a => a) 2 wait_signalled false true
                dma_witness_card 0 4096)).
Proof.
  split; [reflexivity|]. split; [reflexivity|].
  intros H. apply H. reflexivity.
Qed.

(** A completed read of 4096 bytes, with its trace. *)
Example read_4096 :
  th260_read 12 (fun a => a) 2 wait_completes false true dma_witness_card 0 4096
  = Some (4096,
          set_irq_received 1 (set_bytes_done 4096 (set_dmacount 0 dma_witness_card)),
          [IoWrite32 1 DCR_OFFSET; IoWrite32 0 DCR_OFFSET;
           IoWrite32 4096 WRITE_ADDR_OFFSET; IoWrite32 128 WRITE_SIZE_OFFSET;
           IoWrite32 8 WRITE_COUNT_OFFSET; IoWrite32 1 DCSR_OFFSET;
           CopyToUser 0 4096 4096]).
Proof. reflexivity. Qed.

(** ** mmap *)

Section Mmap.

Variable PAGE_SHIFT : Z.

Local Abbreviation mmap := (th260_mmap PAGE_SHIFT).
Local Abbreviation window := (PAGE_ALIGN PAGE_SHIFT BAR_0_LEN).
Local Abbreviation len v := (u64 (vm_end v - vm_start v)).

Lemma mmap_busy (rs rr : Z) (c : th260_cdev) (v : vm_area_struct) :
  busy c <> 0 -> mmap rs rr c v = (- EBUSY, c, v, []).
Proof.
  intros H. unfold th260_mmap. apply Z.eqb_neq in H. rewrite H. reflexivity.
Qed.

Lemma mmap_too_long (rs rr : Z) (c : th260_cdev) (v : vm_area_struct) :
  busy c = 0 -> window < len v ->
  mmap rs rr c v = (- EINVAL, set_busy 0 (set_busy 1 c), v, []).
Proof.
  intros H Hl. unfold th260_mmap. rewrite H. cbn [Z.eqb negb].
  apply Z.ltb_lt in Hl. rewrite Hl. reflexivity.
Qed.

Lemma mmap_ok (rs : Z) (c : th260_cdev) (v : vm_area_struct) :
  busy c = 0 -> len v <= window ->
  exists c' v' tr, mmap rs 0 c v = (0, c', v', tr) /\ busy c' = 1 /\
                   vm_ops_installed v' = true.
Proof.
  intros H Hl. unfold th260_mmap. rewrite H. cbn [Z.eqb negb].
  apply Z.ltb_ge in Hl. rewrite Hl. do 3 eexists. split; [reflexivity|].
  split; reflexivity.
Qed.

Lemma mmap_remap_fails (rs rr : Z) (c : th260_cdev) (v : vm_area_struct) :
  busy c = 0 -> len v <= window -> rr <> 0 ->
  exists c' v' tr, mmap rs rr c v = (- EAGAIN, c', v', tr) /\ busy c' = 0.
Proof.
  intros H Hl Hr. unfold th260_mmap. rewrite H. cbn [Z.eqb negb].
  apply Z.ltb_ge in Hl. rewrite Hl. apply Z.eqb_neq in Hr. rewrite Hr.
  do 3 eexists. split; reflexivity.
Qed.

Lemma map_step_one_mapping (s : map_state) (op : map_op) :
  one_mapping s -> one_mapping (snd (map_step PAGE_SHIFT s op)).
Proof.
  intros Hinv. destruct op as [rs rr v|].
  - unfold map_step.
    destruct (Z.eq_dec (busy (ms_card s)) 0) as [Hb|Hb].
    + destruct Hinv as [H0|[_ H1]]; [|contradiction].
      unfold th260_mmap. rewrite Hb. cbn [Z.eqb negb].
      destruct (_ <? _).
      * left. exact H0.
      * destruct (negb (rr =? 0)).
        -- left. exact H0.
        -- right. cbn. rewrite H0. split; [reflexivity | discriminate].
    + rewrite mmap_busy by exact Hb. cbn. exact Hinv.
  - unfold map_step. destruct (ms_active s) as [|n] eqn:Ha.
    + left. exact Ha.
    + left. destruct Hinv as [H0|[H1 _]]; cbn; lia.
Qed.

Lemma map_run_one_mapping (ops : list map_op) : forall s : map_state,
  one_mapping s -> one_mapping (snd (map_run PAGE_SHIFT s ops)).
Proof.
  induction ops as [|op ops IH]; intros s Hinv; [exact Hinv|].
  cbn [map_run].
  pose proof (map_step_one_mapping s op Hinv) as Hs.
  destruct (map_step PAGE_SHIFT s op) as [rc s1].
  specialize (IH s1 Hs).
  destruct (map_run PAGE_SHIFT s1 ops) as [rcs s2]. exact IH.
Qed.

(** C4, as the code has it. [th260_mmap] returns [-EBUSY] at once, changing
    nothing, when the card's busy flag is set; on an idle card it returns
    [-EINVAL] and leaves the flag clear when the requested length exceeds the
    page-rounded window; otherwise it returns 0 with the flag set when
    [remap_pfn_range] succeeds, and [-EAGAIN] with the flag clear when it
    fails.  The release hook clears the flag.  Hence
    map, map again, release, map yields 0, [-EBUSY], 0, 0 and every sequence
    of maps and releases keeps at most one mapping alive. *)
Theorem mmap_single_mapping (rs : Z) (c : th260_cdev) (v1 v2 v3 : vm_area_struct) :
  busy c = 0 ->
  len v1 <= window ->
  len v3 <= window ->
  (forall rr c0 v, busy c0 <> 0 -> mmap rs rr c0 v = (- EBUSY, c0, v, [])) /\
  (forall rr v, window < len v ->
     exists c', mmap rs rr c v = (- EINVAL, c', v, []) /\ busy c' = 0) /\
  (exists c' v' tr, mmap rs 0 c v1 = (0, c', v', tr) /\ busy c' = 1) /\
  (forall rr, rr <> 0 ->
     exists c' v' tr, mmap rs rr c v1 = (- EAGAIN, c', v', tr) /\ busy c' = 0) /\
  (forall c0, busy (th260_vma_close c0) = 0) /\
  fst (map_run PAGE_SHIFT (mk_map_state c O)
         [OpMmap rs 0 v1; OpMmap rs 0 v2; OpClose; OpMmap rs 0 v3])
    = [0; - EBUSY; 0; 0] /\
  (forall ops, (ms_active (snd (map_run PAGE_SHIFT (mk_map_state c O) ops)) <= 1)%nat).
Proof.
  intros Hb H1 H3.
  split; [intros; apply mmap_busy; assumption|].
  split.
  { intros rr v Hl. rewrite mmap_too_long by assumption. eexists. split; reflexivity. }
  split.
  { destruct (mmap_ok rs c v1 Hb H1) as (c' & v' & tr & He & Hc & _). eauto. }
  split; [intros rr Hr; apply mmap_remap_fails; assumption|].
  split; [reflexivity|].
  split.
  - cbn [map_run map_step ms_card ms_active].
    unfold th260_mmap at 1. rewrite Hb. cbn [Z.eqb negb].
    apply Z.ltb_ge in H1. rewrite H1. cbn [Z.eqb negb ms_card ms_active fst snd].
    rewrite mmap_busy by (cbn; discriminate).
    cbn [Z.eqb Z.opp EBUSY ms_card ms_active th260_vma_close].
    unfold th260_mmap. cbn [busy set_busy set_bar0offset Z.eqb negb].
    apply Z.ltb_ge in H3. rewrite H3. reflexivity.
  - intros ops.
    pose proof (map_run_one_mapping ops (mk_map_state c O)) as Hinv.
    destruct Hinv as [H|[H _]]; [left; reflexivity | |]; lia.
Qed.

End Mmap.

Lemma mmap_single_mapping_witness :
  (forall rr c0 v, busy c0 <> 0 ->
     th260_mmap 12 0xfe000000 rr c0 v = (- EBUSY, c0, v, [])) /\
  (forall rr v, PAGE_ALIGN 12 BAR_0_LEN < u64 (vm_end v - vm_start v) ->
     exists c', th260_mmap 12 0xfe000000 rr idle_card v = (- EINVAL, c', v, []) /\
                busy c' = 0) /\
  (exists c' v' tr,
     th260_mmap 12 0xfe000000 0 idle_card one_page_vma = (0, c', v', tr) /\
     busy c' = 1) /\
  (forall rr, rr <> 0 ->
     exists c' v' tr,
       th260_mmap 12 0xfe000000 rr idle_card one_page_vma = (- EAGAIN, c', v', tr) /\
       busy c' = 0) /\
  (forall c0, busy (th260_vma_close c0) = 0) /\
  fst (map_run 12 (mk_map_state idle_card O)
         [OpMmap 0xfe000000 0 one_page_vma; OpMmap 0xfe000000 0 one_page_vma;
          OpClose; OpMmap 0xfe000000 0 one_page_vma])
    = [0; - EBUSY; 0; 0] /\
  (forall ops,
     (ms_active (snd (map_run 12 (mk_map_state idle_card O) ops)) <= 1)%nat).
Proof.
  apply (mmap_single_mapping 12 0xfe000000 idle_card one_page_vma one_page_vma
           one_page_vma).
  - reflexivity.
  - vm_compute. discriminate.
  - vm_compute. discriminate.
Defined.

(** C4, as stated, fails: on an idle card and with a length within the
    window, [th260_mmap] does not succeed when [remap_pfn_range] fails; it
    returns [-EAGAIN] and clears the busy flag. *)
Lemma mmap_remap_failure_is_eagain :
  busy idle_card = 0 /\
  u64 (vm_end one_page_vma - vm_start one_page_vma) <= PAGE_ALIGN 12 BAR_0_LEN /\
  th260_mmap 12 0xfe000000 (-12) idle_card one_page_vma =
    (- EAGAIN, set_bar0offset 0 idle_card,
     mk_vma 0x7f0000000000 0x7f0000001000 0xfe000 false,
     [RemapPfnRange 0xfe000 4096]) /\
  - EAGAIN <> 0.
Proof.
  split; [reflexivity|]. split; [vm_compute; discriminate|].
  split; [reflexivity | discriminate].
Qed.

(** ** The serial number *)

Lemma byte_of_range (x i : Z) : 0 <= byte_of x i <= 255.
Proof.
  unfold byte_of. change 0xFF with (Z.ones 8).
  rewrite Z.land_ones by lia. change (2 ^ 8) with 256.
  change (Z.ones 8) with 255.
  pose proof (Z.mod_pos_bound (Z.shiftr x (8 * i)) 256). lia.
Qed.

Lemma serialreg_bytes (d0 d1 : Z) :
  serialreg d0 d1 =
    [byte_of d0 0; byte_of d0 1; byte_of d0 2; byte_of d0 3;
     byte_of d1 0; byte_of d1 1; byte_of d1 2; 0].
Proof. reflexivity. Qed.

Lemma serialreg_allbits_range (d0 d1 : Z) : 0 <= serialreg_allbits d0 d1 < 2 ^ 56.
Proof.
  unfold serialreg_allbits. rewrite serialreg_bytes. cbn [le_value].
  pose proof (byte_of_range d0 0). pose proof (byte_of_range d0 1).
  pose proof (byte_of_range d0 2). pose proof (byte_of_range d0 3).
  pose proof (byte_of_range d1 0). pose proof (byte_of_range d1 1).
  pose proof (byte_of_range d1 2).
  change (2 ^ 56) with 72057594037927936. lia.
Qed.

Lemma top_byte_zero (v : Z) :
  0 <= v < 2 ^ 56 -> byte_of v 7 = 0 /\ Z.shiftr v 56 = 0.
Proof.
  intros H. unfold byte_of. change (8 * 7) with 56.
  rewrite Z.shiftr_div_pow2 by lia. rewrite Z.div_small by exact H.
  split; reflexivity.
Qed.

Abbreviation serial_fits c := (0 <= serial c < 2 ^ 56).

Lemma th260_cdev_add_serial (pdev : pci_dev_id) (tbl : list th260_cdev) :
  Forall (fun c => serial_fits c) tbl ->
  Forall (fun c => serial_fits c) (snd (th260_cdev_add pdev tbl)).
Proof.
  induction 1 as [|c tbl Hc Htbl IH]; cbn [th260_cdev_add].
  - constructor.
  - destruct (pci_dev c).
    + destruct (th260_cdev_add pdev tbl) as [ret rest]. constructor; assumption.
    + constructor; assumption.
Qed.

Ltac serial_alter :=
  repeat (apply Forall_alter; [| intros; cbn [serial set_cdev set_bar0base
            set_serial set_maxtlpsize set_dmabuf set_dmabuf_order];
            try assumption; try apply serialreg_allbits_range]).

Lemma th260_probe_serial (ps : Z) (env : probe_env) (pdev : pci_dev_id)
    (st : driver_state) :
  Forall (fun c => serial_fits c) (table st) ->
  Forall (fun c => serial_fits c) (table (snd (fst (th260_probe ps env pdev st)))).
Proof.
  intros H. apply (th260_cdev_add_serial pdev) in H.
  unfold th260_probe, probe_from_maxtlpsize, probe_error.
  destruct (th260_cdev_add pdev (table st)) as [minor tbl]. cbn [snd] in H.
  destruct (dma_alloc_loop _ _) as [[order buf] ta].
  repeat match goal with
         | |- context [if ?b then _ else _] => destruct b
         end;
    cbn [fst snd table]; serial_alter; exact H.
Qed.

Lemma th260_remove_serial (pdev : pci_dev_id) (st : driver_state) :
  Forall (fun c => serial_fits c) (table st) ->
  Forall (fun c => serial_fits c) (table (fst (th260_remove pdev st))).
Proof.
  intros H. unfold th260_remove.
  destruct (drvdata st !! pdev) as [slot|]; [|exact H].
  destruct (table st !! slot) as [pcard|]; [|exact H].
  destruct (pci_dev pcard); [|exact H].
  cbn [fst table]. unfold th260_cdev_del. apply Forall_fmap.
  eapply Forall_impl; [exact H|]. intros c Hc. cbn.
  destruct (decide _); exact Hc.
Qed.

Lemma read_wait_loop_serial (v2p : Z -> Z) (fuel : nat) (w : nat -> wait_outcome) :
  forall (k : nat) (c : th260_cdev) (buffer count total : Z) (tr : trace),
  match read_wait_loop v2p fuel w k c buffer count total tr with
  | LReturn _ c' _ => serial c' = serial c
  | LBreak c' _ _ _ _ _ => serial c' = serial c
  | LFuel => True
  end.
Proof.
  induction fuel as [|fuel IH]; intros k c buffer count total tr;
    cbn [read_wait_loop]; destruct (dmacount c =? 0); try reflexivity; try exact I.
  destruct (th260_dma_start v2p (set_irq_received 0 c)) as [t|]; [|exact I].
  destruct (w k) as [|irq copy_failed signal]; [reflexivity|].
  set (c2 := if irq then _ else _).
  assert (Hc2 : serial c2 = serial c) by (subst c2; destruct irq; reflexivity).
  destruct (negb (bytes_done c2 =? 0) && copy_failed); [exact Hc2|].
  destruct signal; [exact Hc2|].
  destruct (negb (irq_received c2 =? 0)); [exact Hc2|].
  specialize (IH (S k) c2 buffer count total
                 (if bytes_done c2 =? 0 then tr ++ t
                  else (tr ++ t) ++ [CopyToUser buffer (dmabuf c2) (bytes_done c2)])).
  destruct (read_wait_loop _ _ _ _ _ _ _ _ _); try exact I; congruence.
Qed.

Lemma read_chunk_loop_serial (ps : Z) (v2p : Z -> Z) (fuel : nat)
    (w : nat -> wait_outcome) :
  forall (k : nat) (c : th260_cdev) (buffer count total : Z) (tr : trace) rv c' tr',
  read_chunk_loop ps v2p fuel w k c buffer count total tr = Some (rv, c', tr') ->
  serial c' = serial c.
Proof.
  induction fuel as [|fuel IH]; intros k c buffer count total tr rv c' tr';
    cbn [read_chunk_loop]; [discriminate|].
  set (c1 := set_dmacount _ _).
  pose proof (read_wait_loop_serial v2p fuel w k c1 buffer count total tr) as Hw.
  destruct (read_wait_loop _ _ _ _ _ _ _ _ _) as [rv0 c0 tr0|c0 b0 n0 t0 k0 tr0|];
    [| |discriminate].
  - intros [= <- <- <-]. exact Hw.
  - destruct (0 <? n0).
    + intros Hr. apply IH in Hr. rewrite Hr. exact Hw.
    + intros [= <- <- <-]. exact Hw.
Qed.

Lemma th260_read_serial (ps : Z) (v2p : Z -> Z) (fuel : nat)
    (w : nat -> wait_outcome) (nonblock access_ok : bool) (c : th260_cdev)
    (buffer count rv : Z) (c' : th260_cdev) (tr : trace) :
  th260_read ps v2p fuel w nonblock access_ok c buffer count = Some (rv, c', tr) ->
  serial c' = serial c.
Proof.
  unfold th260_read.
  destruct (count =? 0); [intros [= <- <- <-]; reflexivity|].
  destruct nonblock; [intros [= <- <- <-]; reflexivity|].
  destruct (negb access_ok); [intros [= <- <- <-]; reflexivity|].
  apply read_chunk_loop_serial.
Qed.

Lemma th260_mmap_serial (ps rs rr : Z) (c : th260_cdev) (v : vm_area_struct) :
  serial (snd (fst (fst (th260_mmap ps rs rr c v)))) = serial c.
Proof.
  unfold th260_mmap.
  repeat match goal with
         | |- context [if ?b then _ else _] => destruct b
         end; reflexivity.
Qed.

Lemma th260_interrupt_serial (fuel : nat) (rd : nat -> Z) (c : th260_cdev) r :
  th260_interrupt fuel rd c = Some r -> serial (irq_card r) = serial c.
Proof.
  unfold th260_interrupt. destruct (_ =? 0); [intros [= <-]; reflexivity|].
  destruct (interrupt_loop _ _ _ _) as [[n t]|]; [|discriminate].
  intros [= <-]. reflexivity.
Qed.

Lemma reachable_serial (ps : Z) (v2p : Z -> Z) (st : driver_state) :
  reachable ps v2p st -> Forall (fun c => serial_fits c) (table st).
Proof.
  induction 1 as [ | env pdev st _ IH | pdev st _ IH
                   | fuel w nb ok buffer count slot c rv c' tr st _ IH Hc Hr
                   | rs rr vma slot c st _ IH Hc
                   | slot c st _ IH Hc
                   | fuel rd slot c r st _ IH Hc Hr ].
  - unfold init_state, th260_cdev_init. cbn. repeat constructor; cbn; lia.
  - apply th260_probe_serial. exact IH.
  - apply th260_remove_serial. exact IH.
  - cbn [table]. apply Forall_insert; [exact IH|].
    rewrite (th260_read_serial _ _ _ _ _ _ _ _ _ _ _ _ Hr).
    exact (Forall_lookup_1 _ _ _ _ IH Hc).
  - cbn [table]. apply Forall_insert; [exact IH|].
    rewrite th260_mmap_serial. exact (Forall_lookup_1 _ _ _ _ IH Hc).
  - cbn [table]. apply Forall_insert; [exact IH|].
    exact (Forall_lookup_1 _ _ _ _ IH Hc).
  - cbn [table]. apply Forall_insert; [exact IH|].
    rewrite (th260_interrupt_serial _ _ _ _ Hr).
    exact (Forall_lookup_1 _ _ _ _ IH Hc).
Qed.

(** C10. The value [th260_probe] assembles from the two 32-bit reads of the
    serial field has byte 7 overwritten with 0, so the stored serial number
    has a zero most significant byte for every register content; in every
    state the driver reaches, what [IOCTL_GET_SERIAL] copies out for a slot
    is that slot's serial number, eight bytes with the top byte zero. *)
Theorem serial_top_byte_is_zero (ps : Z) (v2p : Z -> Z) (st : driver_state)
    (slot : nat) (c : th260_cdev) (access_ok copy_failed : bool)
    (rc v size : Z) :
  reachable ps v2p st ->
  table st !! slot = Some c ->
  th260_ioctl c IOCTL_GET_SERIAL access_ok copy_failed = (rc, Some (v, size)) ->
  (forall d0 d1 : Z,
     serialreg d0 d1 !! 7%nat = Some 0 /\
     byte_of (serialreg_allbits d0 d1) 7 = 0 /\
     Z.shiftr (serialreg_allbits d0 d1) 56 = 0) /\
  v = serial c /\ size = 8 /\ byte_of v 7 = 0 /\ Z.shiftr v 56 = 0.
Proof.
  intros Hst Hc Hio. split.
  { intros d0 d1. split; [reflexivity|].
    apply top_byte_zero, serialreg_allbits_range. }
  unfold th260_ioctl, ioctl_copy in Hio.
  destruct (negb access_ok); [discriminate|].
  destruct copy_failed; [discriminate|].
  injection Hio as _ Hv Hs. subst v size.
  pose proof (Forall_lookup_1 _ _ _ _ (reachable_serial ps v2p st Hst) Hc) as Hfit.
  cbn beta in Hfit.
  destruct (top_byte_zero (serial c) Hfit) as [Hb Hsh].
  repeat split; assumption.
Qed.

Lemma serial_top_byte_is_zero_witness :
  (forall d0 d1 : Z,
     serialreg d0 d1 !! 7%nat = Some 0 /\
     byte_of (serialreg_allbits d0 d1) 7 = 0 /\
     Z.shiftr (serialreg_allbits d0 d1) 56 = 0) /\
  0xFFFFFFFFFFFFFF = serial (mk_cdev 0 0 (Some O) 0xc0de 0xf000 0 0xFFFFFFFFFFFFFF
                                     128 0x100000 5 0 0 0) /\
  8 = 8 /\ byte_of 0xFFFFFFFFFFFFFF 7 = 0 /\ Z.shiftr 0xFFFFFFFFFFFFFF 56 = 0.
Proof.
  apply (serial_top_byte_is_zero 12 (fun a => a)
           (snd (fst (th260_probe 12 good_env O init_state))) O
           (mk_cdev 0 0 (Some O) 0xc0de 0xf000 0 0xFFFFFFFFFFFFFF 128 0x100000 5 0 0 0)
           true false 0 0xFFFFFFFFFFFFFF 8).
  - apply reach_probe. apply reach_init.
  - reflexivity.
  - reflexivity.
Defined.

(** ** Attach *)

Lemma maxtlpsize_of_range (x : Z) : 32 <= maxtlpsize_of x <= 4096.
Proof.
  unfold maxtlpsize_of. change 7 with (Z.ones 3).
  rewrite Z.land_ones by lia. change (2 ^ 3) with 8.
  pose proof (Z.mod_pos_bound (Z.shiftr x 8) 8 ltac:(lia)) as Hk.
  set (k := Z.shiftr x 8 mod 8) in *.
  assert (Hcases : k = 0 \/ k = 1 \/ k = 2 \/ k = 3 \/ k = 4 \/ k = 5 \/ k = 6 \/ k = 7)
    by lia.
  destruct Hcases as [-> | [-> | [-> | [-> | [-> | [-> | [-> | ->]]]]]]];
    vm_compute; split; discriminate.
Qed.

Lemma maxtlpsize_guard (x : Z) :
  (maxtlpsize_of x <? 32) || (4096 <? maxtlpsize_of x) = false.
Proof.
  pose proof (maxtlpsize_of_range x) as H.
  apply orb_false_iff. split; [apply Z.ltb_ge | apply Z.ltb_ge]; lia.
Qed.

(** C7, as the code has it. [th260_probe] tests the maximum TLP size it has
    stored: a value below 32 or above 4096 makes the attach fail with
    [-ENODEV] through [cdev_del] and the error exit, with no register access
    after the read of the capability register.  The value is decoded from
    the register as [32 << ((reg >> 8) & 7)] and so lies in 32..4096 for every
    content of the register: the test never fails the attach, whose return
    code and sequence of kernel calls and register accesses are the same for
    every content of the capability register. *)
Theorem probe_accepts_every_capability_value (ps : Z) (env : probe_env)
    (pdev : pci_dev_id) (st : driver_state) (reg : Z)
    (minor : Z) (tbl : list th260_cdev) (dd : gmap nat nat) (tr : trace) (mts : Z) :
  mts < 32 \/ 4096 < mts ->
  probe_from_maxtlpsize ps env pdev minor tbl dd tr mts =
    (- ENODEV,
     mk_state (alter (set_maxtlpsize mts) (Z.to_nat minor) tbl) (delete pdev dd),
     tr ++ [IoRead32 TRANS_SIZE_OFFSET; CdevDel;
            PciSetDrvdata pdev None; PciDisableDevice]) /\
  32 <= maxtlpsize_of (u32 reg) <= 4096 /\
  fst (fst (th260_probe ps (set_dltrsstat reg env) pdev st)) =
    fst (fst (th260_probe ps env pdev st)) /\
  snd (th260_probe ps (set_dltrsstat reg env) pdev st) =
    snd (th260_probe ps env pdev st).
Proof.
  intros Hout. split.
  { unfold probe_from_maxtlpsize, probe_error.
    replace ((mts <? 32) || (4096 <? mts)) with true.
    - rewrite <- !app_assoc. reflexivity.
    - symmetry. apply orb_true_iff.
      destruct Hout; [left; apply Z.ltb_lt | right; apply Z.ltb_lt]; assumption. }
  split; [apply maxtlpsize_of_range|].
  unfold th260_probe, probe_from_maxtlpsize, probe_error.
  cbn [cdev_alloc_ret cdev_add_ret pci_enable_device_ret pci_request_region_ret
       bar0_is_mem ioremap_ret serial_dword0 serial_dword1 dltrsstat
       get_free_pages dma_set_mask_ret dma_set_coherent_mask_ret request_irq_ret
       set_dltrsstat].
  cbv zeta. rewrite !maxtlpsize_guard.
  destruct (th260_cdev_add pdev (table st)) as [minor0 tbl0].
  destruct (dma_alloc_loop _ _) as [[order buf] ta].
  repeat match goal with
         | |- context [if ?b then _ else _] => destruct b
         end; split; reflexivity.
Qed.

Lemma probe_accepts_every_capability_value_witness :
  probe_from_maxtlpsize 12 good_env O 0 th260_cdev_init ∅ [Ioremap] 8 =
    (- ENODEV,
     mk_state (alter (set_maxtlpsize 8) (Z.to_nat 0) th260_cdev_init) (delete O ∅),
     [Ioremap] ++ [IoRead32 TRANS_SIZE_OFFSET; CdevDel;
                   PciSetDrvdata O None; PciDisableDevice]) /\
  32 <= maxtlpsize_of (u32 8192) <= 4096 /\
  fst (fst (th260_probe 12 (set_dltrsstat 8192 good_env) O init_state)) =
    fst (fst (th260_probe 12 good_env O init_state)) /\
  snd (th260_probe 12 (set_dltrsstat 8192 good_env) O init_state) =
    snd (th260_probe 12 good_env O init_state).
Proof.
  apply (probe_accepts_every_capability_value 12 good_env O init_state 8192
           0 th260_cdev_init ∅ [Ioremap] 8).
  left. lia.
Defined.

(** C7, as stated, fails: no content of the capability register reports a
    size outside 32..4096.  The contents 8 and 8192 both decode to 32, and
    the attach goes on to the reset sequence and succeeds. *)
Lemma probe_capability_8_and_8192_attach :
  maxtlpsize_of (u32 8) = 32 /\
  maxtlpsize_of (u32 8192) = 32 /\
  th260_probe 12 (set_dltrsstat 8 good_env) O init_state =
    (0,
     mk_state (alter (fun _ => mk_cdev 0 0 (Some O) 0xc0de 0xf000 0 0xFFFFFFFFFFFFFF
                                       32 0x100000 5 0 0 0) O th260_cdev_init)
              {[ O := O ]},
     [CdevAdd 0; PciSetDrvdata O (Some O); PciEnableDevice; PciRequestRegion;
      Ioremap; IoRead32 MB_SERIAL_OFFSET; IoRead32 (MB_SERIAL_OFFSET + 4);
      IoRead32 TRANS_SIZE_OFFSET;
      IoWrite32 0x800080 DCSR_OFFSET; IoWrite32 1 DCR_OFFSET; IoWrite32 0 DCR_OFFSET;
      GetFreePages 7; GetFreePages 6; GetFreePages 5;
      PciSetMaster; DmaSetMask; DmaSetCoherentMask; RequestIrq; DeviceCreate 0]) /\
  fst (fst (th260_probe 12 (set_dltrsstat 8192 good_env) O init_state)) = 0 /\
  ~ (exists reg : Z, maxtlpsize_of (u32 reg) < 32 \/ 4096 < maxtlpsize_of (u32 reg)).
Proof.
  split; [reflexivity|]. split; [reflexivity|].
  split; [reflexivity|]. split; [reflexivity|].
  intros [reg H]. pose proof (maxtlpsize_of_range (u32 reg)). lia.
Qed.

Lemma dma_alloc_loop_no_memory (gfp : Z -> Z) (n : nat) :
  (forall order, gfp order = 0) ->
  exists ta, dma_alloc_loop gfp n = (0, 0, ta) /\
             Forall (fun e => exists order, e = GetFreePages order) ta.
Proof.
  intros Hg. induction n as [|n (ta & IH & Hta)]; cbn [dma_alloc_loop];
    rewrite Hg; cbn [Z.eqb negb].
  - eexists. split; [reflexivity|]. repeat constructor. eauto.
  - rewrite IH. eexists. split; [reflexivity|]. constructor; eauto.
Qed.

(** C3 on the code. When every page allocation of the attach fails (all
    earlier steps having succeeded), [th260_probe] returns [-ENODEV] without
    creating a device node or requesting the interrupt, but its error path
    is [cdev_del], [pci_set_drvdata(pdev, NULL)], [pci_disable_device]: the
    register window mapped by [ioremap] is not unmapped. *)
Theorem probe_no_memory_keeps_window_mapped (ps : Z) (env : probe_env)
    (pdev : pci_dev_id) (st : driver_state) (minor : Z) (tbl : list th260_cdev) :
  th260_cdev_add pdev (table st) = (minor, tbl) ->
  0 <= minor ->
  0 <= cdev_add_ret env ->
  0 <= pci_enable_device_ret env ->
  pci_request_region_ret env = 0 ->
  bar0_is_mem env = true ->
  ioremap_ret env <> 0 ->
  (forall order, get_free_pages env order = 0) ->
  exists st' ta,
    th260_probe ps env pdev st =
      (- ENODEV, st',
       [CdevAdd minor; PciSetDrvdata pdev (Some (Z.to_nat minor)); PciEnableDevice;
        PciRequestRegion; Ioremap; IoRead32 MB_SERIAL_OFFSET;
        IoRead32 (MB_SERIAL_OFFSET + 4); IoRead32 TRANS_SIZE_OFFSET] ++
       th260_reset ++ ta ++ [CdevDel; PciSetDrvdata pdev None; PciDisableDevice]) /\
    Forall (fun e => exists order, e = GetFreePages order) ta /\
    In Ioremap (snd (th260_probe ps env pdev st)) /\
    ~ In Iounmap (snd (th260_probe ps env pdev st)) /\
    ~ In RequestIrq (snd (th260_probe ps env pdev st)) /\
    (forall m, ~ In (DeviceCreate m) (snd (th260_probe ps env pdev st))).
Proof.
  intros Hadd Hminor Hcdev Hen Hreg Hmem Hmap Hmemory.
  destruct (dma_alloc_loop_no_memory (get_free_pages env)
              (Z.to_nat (get_order ps (512 * 1024))) Hmemory) as (ta & Hta & Hev).
  assert (Hprobe : exists st',
    th260_probe ps env pdev st =
      (- ENODEV, st',
       [CdevAdd minor; PciSetDrvdata pdev (Some (Z.to_nat minor)); PciEnableDevice;
        PciRequestRegion; Ioremap; IoRead32 MB_SERIAL_OFFSET;
        IoRead32 (MB_SERIAL_OFFSET + 4); IoRead32 TRANS_SIZE_OFFSET] ++
       th260_reset ++ ta ++ [CdevDel; PciSetDrvdata pdev None; PciDisableDevice])).
  { unfold th260_probe, probe_from_maxtlpsize. rewrite Hadd. cbv zeta.
    rewrite maxtlpsize_guard, Hta.
    replace (minor <? 0) with false by (symmetry; apply Z.ltb_ge; lia).
    replace (cdev_add_ret env <? 0) with false by (symmetry; apply Z.ltb_ge; lia).
    replace (pci_enable_device_ret env <? 0) with false
      by (symmetry; apply Z.ltb_ge; lia).
    rewrite Hreg, Hmem.
    replace (ioremap_ret env =? 0) with false by (symmetry; apply Z.eqb_neq; lia).
    cbn [Z.eqb negb]. unfold probe_error. eexists. f_equal.
    cbn [app]. rewrite <- !app_assoc. reflexivity. }
  destruct Hprobe as [st' Hprobe]. exists st', ta.
  split; [exact Hprobe|]. split; [exact Hev|].
  rewrite Hprobe. cbn [snd].
  assert (Hnot : forall e, (forall order, e <> GetFreePages order) -> ~ In e ta).
  { intros e Hne Hin. rewrite Forall_forall in Hev.
    apply list_elem_of_In in Hin.
    destruct (Hev e Hin) as [order ->]. exact (Hne order eq_refl). }
  assert (Hsplit : forall e,
            e <> Ioremap -> (forall order, e <> GetFreePages order) ->
            e <> CdevDel -> e <> PciDisableDevice -> is_write e = false ->
            (forall q s, e <> PciSetDrvdata q s) -> (forall m, e <> CdevAdd m) ->
            e <> PciEnableDevice -> e <> PciRequestRegion ->
            (forall off, e <> IoRead32 off) ->
            ~ In e ([CdevAdd minor; PciSetDrvdata pdev (Some (Z.to_nat minor));
                     PciEnableDevice; PciRequestRegion; Ioremap;
                     IoRead32 MB_SERIAL_OFFSET; IoRead32 (MB_SERIAL_OFFSET + 4);
                     IoRead32 TRANS_SIZE_OFFSET] ++
                    th260_reset ++ ta ++
                    [CdevDel; PciSetDrvdata pdev None; PciDisableDevice])).
  { intros e H1 H2 H3 H4 H5 H6 H7 H8 H9 H10.
    rewrite !in_app_iff. cbn [In th260_reset].
    intros Hin.
    repeat match goal with
           | H : _ \/ _ |- _ => destruct H as [H|H]
           end;
      try (subst e; discriminate H5);
      try (symmetry in Hin; contradiction);
      try (symmetry in Hin; eapply H6; eassumption);
      try (symmetry in Hin; eapply H7; eassumption);
      try (symmetry in Hin; eapply H10; eassumption);
      try exact Hin.
    exact (Hnot e H2 Hin). }
  split; [cbn [app In]; tauto|].
  split; [|split; [|intros m]]; apply Hsplit;
    intros; try reflexivity; discriminate.
Qed.

Lemma probe_no_memory_keeps_window_mapped_witness :
  exists st' ta,
    th260_probe 12 no_memory_env O init_state =
      (- ENODEV, st',
       [CdevAdd 0; PciSetDrvdata O (Some (Z.to_nat 0)); PciEnableDevice;
        PciRequestRegion; Ioremap; IoRead32 MB_SERIAL_OFFSET;
        IoRead32 (MB_SERIAL_OFFSET + 4); IoRead32 TRANS_SIZE_OFFSET] ++
       th260_reset ++ ta ++ [CdevDel; PciSetDrvdata O None; PciDisableDevice]) /\
    Forall (fun e => exists order, e = GetFreePages order) ta /\
    In Ioremap (snd (th260_probe 12 no_memory_env O init_state)) /\
    ~ In Iounmap (snd (th260_probe 12 no_memory_env O init_state)) /\
    ~ In RequestIrq (snd (th260_probe 12 no_memory_env O init_state)) /\
    (forall m, ~ In (DeviceCreate m) (snd (th260_probe 12 no_memory_env O init_state))).
Proof.
  apply (probe_no_memory_keeps_window_mapped 12 no_memory_env O init_state 0
           (set_pci_dev (Some O) (init_slot 0) ::
            map init_slot (seq 1 3))).
  - reflexivity.
  - lia.
  - cbn. lia.
  - cbn. lia.
  - reflexivity.
  - reflexivity.
  - cbn. discriminate.
  - intros order. reflexivity.
Defined.

(** The attach with no memory, evaluated: the window is mapped and never
    unmapped; the failure paths of the DMA mask and of the interrupt request
    do call [iounmap]. *)
Example probe_no_memory_trace :
  snd (th260_probe 12 no_memory_env O init_state) =
    [CdevAdd 0; PciSetDrvdata O (Some O); PciEnableDevice; PciRequestRegion;
     Ioremap; IoRead32 MB_SERIAL_OFFSET; IoRead32 (MB_SERIAL_OFFSET + 4);
     IoRead32 TRANS_SIZE_OFFSET;
     IoWrite32 0x800080 DCSR_OFFSET; IoWrite32 1 DCR_OFFSET; IoWrite32 0 DCR_OFFSET;
     GetFreePages 7; GetFreePages 6; GetFreePages 5; GetFreePages 4;
     GetFreePages 3; GetFreePages 2; GetFreePages 1; GetFreePages 0;
     CdevDel; PciSetDrvdata O None; PciDisableDevice].
Proof. reflexivity. Qed.

(** ** Detach *)

Lemma th260_cdev_del_lookup (pdev : pci_dev_id) (tbl : list th260_cdev)
    (slot : nat) (c : th260_cdev) :
  tbl !! slot = Some c -> pci_dev c = Some pdev ->
  th260_cdev_del pdev tbl !! slot = Some (set_pci_dev None c).
Proof.
  intros Hc Hp. unfold th260_cdev_del. rewrite list_lookup_fmap, Hc. cbn.
  destruct (decide (pci_dev c = Some pdev)); [reflexivity | contradiction].
Qed.

(** C8. For a card attached to [pdev] (its driver data points to a slot
    whose [pci_dev] is [pdev], with a character device and a DMA buffer),
    the first [th260_remove] performs each teardown step once, in order:
    [cdev_del], node removal, reset, interrupt release, unmap, region
    release, buffer free, and clears the slot; the second call finds the
    slot cleared and does nothing: no kernel call, no register access, no
    change of state. *)
Theorem remove_twice_tears_down_once (pdev : pci_dev_id) (st : driver_state)
    (slot : nat) (c : th260_cdev) :
  drvdata st !! pdev = Some slot ->
  table st !! slot = Some c ->
  pci_dev c = Some pdev ->
  cdev c <> 0 ->
  dmabuf c <> 0 ->
  let st1 := fst (th260_remove pdev st) in
  snd (th260_remove pdev st) =
    [CdevDel; DeviceDestroy (minor c);
     IoWrite32 0x800080 DCSR_OFFSET; IoWrite32 1 DCR_OFFSET; IoWrite32 0 DCR_OFFSET;
     FreeIrq; Iounmap; PciReleaseRegion;
     FreePages (dmabuf c) (dmabuf_order c)] /\
  table st1 !! slot = Some (set_pci_dev None c) /\
  th260_remove pdev st1 = (st1, []) /\
  snd (th260_remove pdev st) ++ snd (th260_remove pdev st1) =
    snd (th260_remove pdev st).
Proof.
  intros Hd Hc Hp Hcdev Hbuf st1.
  assert (H1 : th260_remove pdev st =
               (mk_state (th260_cdev_del pdev (table st)) (drvdata st), teardown c)).
  { unfold th260_remove. rewrite Hd, Hc, Hp. reflexivity. }
  assert (Hslot : table st1 !! slot = Some (set_pci_dev None c)).
  { subst st1. rewrite H1. cbn [fst table].
    apply th260_cdev_del_lookup; assumption. }
  assert (H2 : th260_remove pdev st1 = (st1, [])).
  { assert (Hd1 : drvdata st1 !! pdev = Some slot).
    { subst st1. rewrite H1. exact Hd. }
    unfold th260_remove at 1. rewrite Hd1, Hslot. reflexivity. }
  split.
  { rewrite H1. cbn [snd]. unfold teardown, th260_reset.
    apply Z.eqb_neq in Hcdev, Hbuf. rewrite Hcdev, Hbuf. reflexivity. }
  split; [exact Hslot|]. split; [exact H2|].
  rewrite H2. cbn [snd]. apply app_nil_r.
Qed.

Lemma remove_twice_tears_down_once_witness :
  let st := snd (fst (th260_probe 12 good_env O init_state)) in
  let c := mk_cdev 0 0 (Some O) 0xc0de 0xf000 0 0xFFFFFFFFFFFFFF 128 0x100000 5 0 0 0 in
  let st1 := fst (th260_remove O st) in
  snd (th260_remove O st) =
    [CdevDel; DeviceDestroy (minor c);
     IoWrite32 0x800080 DCSR_OFFSET; IoWrite32 1 DCR_OFFSET; IoWrite32 0 DCR_OFFSET;
     FreeIrq; Iounmap; PciReleaseRegion;
     FreePages (dmabuf c) (dmabuf_order c)] /\
  table st1 !! O = Some (set_pci_dev None c) /\
  th260_remove O st1 = (st1, []) /\
  snd (th260_remove O st) ++ snd (th260_remove O st1) = snd (th260_remove O st).
Proof.
  intros st c.
  apply (remove_twice_tears_down_once O st O c).
  - reflexivity.
  - reflexivity.
  - reflexivity.
  - discriminate.
  - discriminate.
Defined.

(** What a successful attach establishes, on the sample probe: the
    assumptions made on attached cards above. *)
Example probe_good_env_card :
  let st := snd (fst (th260_probe 12 good_env O init_state)) in
  fst (fst (th260_probe 12 good_env O init_state)) = 0 /\
  drvdata st !! O = Some O /\
  exists c, table st !! O = Some c /\
            pci_dev c = Some O /\ cdev c <> 0 /\ dmabuf c <> 0 /\
            32 <= maxtlpsize c <= 4096 /\
            0 < BUFFER_SIZE 12 (dmabuf_order c) <= 512 * 1024.
Proof.
  split; [reflexivity|]. split; [reflexivity|].
  eexists. split; [reflexivity|]. cbn.
  repeat split; try discriminate; reflexivity.
Qed.

(** ** What a successful attach establishes *)

Lemma th260_cdev_add_spec (pdev : pci_dev_id) (tbl : list th260_cdev) :
  forall ret tbl',
  th260_cdev_add pdev tbl = (ret, tbl') ->
  (ret = -1 /\ tbl' = tbl) \/
  (exists (i : nat) (c : th260_cdev),
      tbl !! i = Some c /\ pci_dev c = None /\ ret = minor c /\
      tbl' = <[i := set_pci_dev (Some pdev) c]> tbl).
Proof.
  induction tbl as [|c tbl IH]; intros ret tbl'; cbn [th260_cdev_add].
  - intros [= <- <-]. left. split; reflexivity.
  - destruct (pci_dev c) eqn:Hp.
    + destruct (th260_cdev_add pdev tbl) as [r rest].
      intros [= <- <-].
      destruct (IH r rest eq_refl) as [[-> ->] | (i & c0 & Hi & Hn & -> & ->)].
      * left. split; reflexivity.
      * right. exists (S i), c0. repeat split; assumption.
    + intros [= <- <-]. right. exists O, c. repeat split. exact Hp.
Qed.

Lemma dma_alloc_loop_spec (gfp : Z -> Z) (n : nat) :
  forall order buf ta,
  dma_alloc_loop gfp n = (order, buf, ta) ->
  0 <= order <= Z.of_nat n /\ buf = gfp order.
Proof.
  induction n as [|n IH]; intros order buf ta; cbn [dma_alloc_loop].
  - destruct (negb _); intros [= <- <- <-]; split; (lia || reflexivity).
  - destruct (negb _).
    + intros [= <- <- <-]. split; [lia | reflexivity].
    + destruct (dma_alloc_loop gfp n) as [[o b] t].
      intros [= <- <- <-]. destruct (IH o b t eq_refl) as [Ho Hb].
      split; [lia | exact Hb].
Qed.

Lemma get_order_512K (ps : Z) :
  12 <= ps <= 19 -> get_order ps (512 * 1024) = 19 - ps.
Proof.
  intros H.
  assert (Hc : ps = 12 \/ ps = 13 \/ ps = 14 \/ ps = 15 \/ ps = 16 \/ ps = 17 \/
               ps = 18 \/ ps = 19) by lia.
  destruct Hc as [-> | [-> | [-> | [-> | [-> | [-> | [-> | ->]]]]]]]; reflexivity.
Qed.

Lemma BUFFER_SIZE_bound (ps order : Z) :
  12 <= ps <= 19 -> 0 <= order <= get_order ps (512 * 1024) ->
  0 < BUFFER_SIZE ps order <= 512 * 1024.
Proof.
  intros Hps Ho. rewrite get_order_512K in Ho by exact Hps.
  unfold BUFFER_SIZE. rewrite Z.shiftl_1_l.
  change (512 * 1024) with (2 ^ 19). split.
  - apply Z.pow_pos_nonneg; lia.
  - apply Z.pow_le_mono_r; lia.
Qed.

(** X16. After a successful [th260_probe] on a table whose slots carry their own
    index as minor number, the device's driver data points to a slot that
    belongs to the device and holds a DMA buffer of at most 512 KiB and a
    maximum TLP size in 32..4096. *)
Lemma probe_success_attaches_card (ps : Z) (env : probe_env) (pdev : pci_dev_id)
    (st st' : driver_state) (tr : trace) :
  12 <= ps <= 19 ->
  (forall (i : nat) (c : th260_cdev), table st !! i = Some c -> minor c = Z.of_nat i) ->
  th260_probe ps env pdev st = (0, st', tr) ->
  exists (slot : nat) (c : th260_cdev),
    drvdata st' !! pdev = Some slot /\
    table st' !! slot = Some c /\
    pci_dev c = Some pdev /\
    cdev c = cdev_alloc_ret env /\
    dmabuf c <> 0 /\
    32 <= maxtlpsize c <= 4096 /\
    0 < BUFFER_SIZE ps (dmabuf_order c) <= 512 * 1024.
Proof.
  intros Hps Hwf. unfold th260_probe, probe_from_maxtlpsize, probe_error.
  destruct (th260_cdev_add pdev (table st)) as [minor tbl] eqn:Hadd.
  apply th260_cdev_add_spec in Hadd.
  destruct (dma_alloc_loop _ _) as [[order buf] ta] eqn:Hloop.
  apply dma_alloc_loop_spec in Hloop. destruct Hloop as [Horder Hbuf].
  cbv zeta. rewrite maxtlpsize_guard.
  destruct Hadd as [[-> _] | (i & c & Hi & Hnone & -> & ->)].
  { change (-1 <? 0) with true. cbn iota. intros [=]. }
  destruct (buf =? 0) eqn:Hb0.
  { repeat match goal with
           | |- context [if ?b then _ else _] => destruct b
           end; intros [=]. }
  repeat match goal with
         | |- context [if ?b then _ else _] => destruct b
         end; try (intros [=]; fail).
  intros [= <- <-].
  rewrite (Hwf i c Hi), Nat2Z.id.
  pose proof (lookup_lt_Some _ _ _ Hi) as Hlen.
  exists i. eexists. split; [apply lookup_insert_eq|].
  split.
  { cbn [table]. rewrite !list_lookup_alter_eq.
    rewrite list_lookup_insert_eq by exact Hlen. reflexivity. }
  cbn. rewrite Z2Nat.id in Horder by
    (rewrite get_order_512K by exact Hps; lia).
  apply Z.eqb_neq in Hb0.
  repeat split; try apply maxtlpsize_of_range; try exact Hb0;
    apply BUFFER_SIZE_bound; assumption.
Qed.

(** * Further properties of the driver *)

(** ** The TLP search on the sizes the card reports *)

Lemma maxtlpsize_of_pow2 (x : Z) :
  exists e : nat, (5 <= e <= 12)%nat /\ maxtlpsize_of x = 2 ^ Z.of_nat e.
Proof.
  unfold maxtlpsize_of. change 7 with (Z.ones 3).
  rewrite Z.land_ones by lia. change (2 ^ 3) with 8.
  pose proof (Z.mod_pos_bound (Z.shiftr x 8) 8 ltac:(lia)) as Hk.
  set (k := Z.shiftr x 8 mod 8) in *.
  assert (Hcases : k = 0 \/ k = 1 \/ k = 2 \/ k = 3 \/ k = 4 \/ k = 5 \/ k = 6 \/ k = 7)
    by lia.
  destruct Hcases as [-> | [-> | [-> | [-> | [-> | [-> | [-> | ->]]]]]]];
    [exists 5%nat | exists 6%nat | exists 7%nat | exists 8%nat | exists 9%nat
     | exists 10%nat | exists 11%nat | exists 12%nat];
    (split; [lia | reflexivity]).
Qed.

Lemma shiftr1_pow2 (e : nat) : Z.shiftr (2 ^ Z.of_nat (S e)) 1 = 2 ^ Z.of_nat e.
Proof.
  rewrite Z.shiftr_div_pow2 by lia. change (2 ^ 1) with 2.
  replace (Z.of_nat (S e)) with (Z.succ (Z.of_nat e)) by lia.
  rewrite Z.pow_succ_r by lia. rewrite Z.mul_comm. apply Z.div_mul. lia.
Qed.

(** From a power of two [2 ^ e] the search ends on a power [2 ^ j], [j >= 1]:
    the largest one, up to [e], that divides the dword count, or 2. *)
Lemma tlp_loop_pow2 (nd : Z) (fuel : nat) : forall e : nat,
  (1 <= e)%nat -> (e <= S fuel)%nat ->
  exists j : nat, (1 <= j <= e)%nat /\
    tlp_loop fuel nd (2 ^ Z.of_nat e) (nd / 2 ^ Z.of_nat e) (nd mod 2 ^ Z.of_nat e) =
      Some (2 ^ Z.of_nat j, nd / 2 ^ Z.of_nat j, nd mod 2 ^ Z.of_nat j) /\
    (nd mod 2 ^ Z.of_nat j = 0 \/ j = 1%nat) /\
    (forall i : nat, (j < i <= e)%nat -> nd mod 2 ^ Z.of_nat i <> 0).
Proof.
  induction fuel as [|fuel IH]; intros e He Hf.
  - assert (e = 1%nat) as -> by lia. exists 1%nat. cbn [tlp_loop].
    change (2 ^ Z.of_nat 1) with 2. change (2 <? 2) with false.
    rewrite andb_false_r.
    split; [lia|]. split; [reflexivity|]. split; [right; reflexivity|].
    intros i Hi. lia.
  - cbn [tlp_loop].
    destruct (negb (nd mod 2 ^ Z.of_nat e =? 0) && (2 <? 2 ^ Z.of_nat e)) eqn:Hc.
    + apply andb_true_iff in Hc as [Hr Ht].
      apply negb_true_iff, Z.eqb_neq in Hr. apply Z.ltb_lt in Ht.
      destruct e as [|[|e]]; [lia | change (2 ^ Z.of_nat 1) with 2 in Ht; lia |].
      rewrite shiftr1_pow2.
      destruct (IH (S e)) as (j & Hj & Hloop & Hlast & Hbefore); [lia | lia |].
      exists j. split; [lia|]. split; [exact Hloop|]. split; [exact Hlast|].
      intros i Hi. destruct (Nat.eq_dec i (S (S e))) as [-> | Hne].
      * exact Hr.
      * apply Hbefore. lia.
    + exists e. split; [lia|]. split; [reflexivity|]. split.
      * apply andb_false_iff in Hc as [Hr | Ht].
        -- left. apply negb_false_iff, Z.eqb_eq in Hr. exact Hr.
        -- right. apply Z.ltb_ge in Ht.
           destruct e as [|[|e]]; [lia | reflexivity |].
           exfalso. replace (Z.of_nat (S (S e))) with (Z.succ (Z.succ (Z.of_nat e))) in Ht
             by lia.
           rewrite !Z.pow_succ_r in Ht by lia.
           pose proof (Z.pow_pos_nonneg 2 (Z.of_nat e) ltac:(lia) ltac:(lia)). lia.
      * intros i Hi. lia.
Qed.

(** X1. On a card whose maximum TLP size is what the probe decodes from the
    capability register, and for a byte count of at most 512 KiB,
    [th260_dma_start] starts the transfer exactly when the byte count is a
    multiple of 8: then it programs a TLP size that is a power of two between
    2 and the maximum with a matching count of at most 65535; every other
    byte count gets the reset pulse only. *)
Theorem dma_start_accepts_multiples_of_8 (v2p : Z -> Z) (c : th260_cdev) (reg n : Z) :
  maxtlpsize c = maxtlpsize_of reg ->
  dmacount c = n ->
  0 < n <= 512 * 1024 ->
  (n mod 8 = 0 ->
   exists (j : nat) (tlpcount : Z),
     th260_dma_start v2p c =
       Some [IoWrite32 1 DCR_OFFSET; IoWrite32 0 DCR_OFFSET;
             IoWrite32 (u32 (v2p (dmabuf c))) WRITE_ADDR_OFFSET;
             IoWrite32 (2 ^ Z.of_nat j) WRITE_SIZE_OFFSET;
             IoWrite32 tlpcount WRITE_COUNT_OFFSET;
             IoWrite32 1 DCSR_OFFSET] /\
     2 <= 2 ^ Z.of_nat j <= maxtlpsize c /\
     2 ^ Z.of_nat j * 4 * tlpcount = n /\
     0 < tlpcount <= 65535) /\
  (n mod 8 <> 0 ->
   th260_dma_start v2p c = Some [IoWrite32 1 DCR_OFFSET; IoWrite32 0 DCR_OFFSET]).
Proof.
  intros Hmax Hcnt Hn.
  destruct (maxtlpsize_of_pow2 reg) as (e & He & Hpow).
  destruct (tlp_loop_pow2 (n / 4) dma_fuel e) as (j & Hj & Hloop & Hlast & Hbefore);
    [lia | unfold dma_fuel; lia |].
  assert (Hjpos : 2 <= 2 ^ Z.of_nat j <= 2 ^ Z.of_nat e).
  { split.
    - change 2 with (2 ^ 1) at 1. apply Z.pow_le_mono_r; lia.
    - apply Z.pow_le_mono_r; lia. }
  assert (Heven : exists m, 0 < m /\ 2 ^ Z.of_nat j = 2 * m).
  { exists (2 ^ (Z.of_nat j - 1)). split; [apply Z.pow_pos_nonneg; lia|].
    rewrite <- Z.pow_succ_r by lia. f_equal. lia. }
  destruct Heven as (m & Hm & Hjm).
  remember (2 ^ Z.of_nat j) as t eqn:Ht.
  set (nd := n / 4) in *.
  assert (Hnd : 0 <= nd <= 131072 /\ 4 * nd <= n < 4 * nd + 4).
  { subst nd. pose proof (Z.div_mod n 4 ltac:(lia)).
    pose proof (Z.mod_pos_bound n 4 ltac:(lia)). lia. }
  pose proof (Z.div_mod nd t ltac:(lia)) as Hdm.
  pose proof (Z.mod_pos_bound nd t ltac:(lia)) as Hmb.
  assert (Hq : 0 <= nd / t) by (apply Z.div_pos; lia).
  assert (Hu : u32 (t * 4 * (nd / t)) = t * 4 * (nd / t)).
  { apply u32_small. nia. }
  assert (Hnz : (2 ^ Z.of_nat e =? 0) = false) by (apply Z.eqb_neq; lia).
  unfold th260_dma_start. rewrite Hmax, Hpow, Hnz, Hcnt. fold nd. rewrite Hloop.
  rewrite Hu. split.
  - intros H8.
    assert (Hnd2 : n = 4 * nd /\ nd mod 2 = 0).
    { subst nd. pose proof (Z.div_mod n 4 ltac:(lia)).
      pose proof (Z.mod_pos_bound n 4 ltac:(lia)).
      pose proof (Z.div_mod n 8 ltac:(lia)).
      pose proof (Z.div_mod (n / 4) 2 ltac:(lia)).
      pose proof (Z.mod_pos_bound (n / 4) 2 ltac:(lia)). lia. }
    destruct Hnd2 as [Hn4 Hnd2].
    assert (Hrest : nd mod t = 0).
    { destruct Hlast as [H0 | Hj1]; [exact H0|].
      rewrite Hj1 in Ht. change (2 ^ Z.of_nat 1) with 2 in Ht. subst t. exact Hnd2. }
    assert (Hexact : t * (nd / t) = nd) by lia.
    assert (Hsmall : nd / t <= 65535).
    { destruct (Nat.eq_dec j 1%nat) as [Hj1 | Hj1].
      - rewrite Hj1 in Ht. change (2 ^ Z.of_nat 1) with 2 in Ht. subst t.
        assert (H4 : nd mod 2 ^ Z.of_nat 2 <> 0) by (apply Hbefore; lia).
        change (2 ^ Z.of_nat 2) with 4 in H4.
        pose proof (Z.div_mod nd 4 ltac:(lia)).
        pose proof (Z.mod_pos_bound nd 4 ltac:(lia)). lia.
      - assert (4 <= t).
        { subst t. change 4 with (2 ^ 2). apply Z.pow_le_mono_r; lia. }
        nia. }
    replace (65535 <? nd / t) with false by (symmetry; apply Z.ltb_ge; lia).
    replace (n =? t * 4 * (nd / t)) with true by (symmetry; apply Z.eqb_eq; lia).
    cbn [negb]. exists j, (nd / t). rewrite <- Ht.
    split; [reflexivity|]. split; [lia|]. split; [lia|]. nia.
  - intros H8.
    assert (Hne : n <> t * 4 * (nd / t)).
    { intros Heq. apply H8. set (q := nd / t) in *. rewrite Heq.
      replace (t * 4 * q) with (m * q * 8) by (rewrite Hjm; lia).
      apply Z.mod_mul. lia. }
    destruct (65535 <? nd / t); [reflexivity|].
    replace (n =? t * 4 * (nd / t)) with false by (symmetry; apply Z.eqb_neq; exact Hne).
    reflexivity.
Qed.

Lemma odd_mod_pow2 (nd : Z) (e : nat) :
  nd mod 2 = 1 -> (1 <= e)%nat -> nd mod 2 ^ Z.of_nat e <> 0.
Proof.
  intros Hodd He H0.
  pose proof (Z.div_mod nd (2 ^ Z.of_nat e)) as Hdm.
  assert (Hp : 2 ^ Z.of_nat e = 2 * 2 ^ (Z.of_nat e - 1)).
  { rewrite <- Z.pow_succ_r by lia. f_equal. lia. }
  pose proof (Z.pow_pos_nonneg 2 (Z.of_nat e - 1) ltac:(lia) ltac:(lia)) as Hpos.
  specialize (Hdm ltac:(lia)). rewrite H0, Hp in Hdm.
  assert (Hev : nd mod 2 = 0).
  { rewrite Hdm.
    replace (2 * 2 ^ (Z.of_nat e - 1) * (nd / (2 * 2 ^ (Z.of_nat e - 1))) + 0)
      with (2 ^ (Z.of_nat e - 1) * (nd / (2 * 2 ^ (Z.of_nat e - 1))) * 2) by lia.
    apply Z.mod_mul. lia. }
  lia.
Qed.

Lemma tlp_loop_odd_needs_fuel (nd : Z) (fuel : nat) : forall e : nat,
  nd mod 2 = 1 -> (fuel + 2 <= e)%nat ->
  tlp_loop fuel nd (2 ^ Z.of_nat e) (nd / 2 ^ Z.of_nat e) (nd mod 2 ^ Z.of_nat e) = None.
Proof.
  induction fuel as [|fuel IH]; intros e Hodd He; cbn [tlp_loop];
    (replace (nd mod 2 ^ Z.of_nat e =? 0) with false
       by (symmetry; apply Z.eqb_neq, odd_mod_pow2; [exact Hodd | lia]));
    (replace (2 <? 2 ^ Z.of_nat e) with true
       by (symmetry; apply Z.ltb_lt; change 2 with (2 ^ 1) at 1;
           apply Z.pow_lt_mono_r; lia));
    cbn [negb andb]; [reflexivity|].
  destruct e as [|e]; [lia|]. rewrite shiftr1_pow2. apply IH; [exact Hodd | lia].
Qed.

(** X2. The TLP search of [th260_dma_start] ends within 11 halvings for every
    starting size up to 4096 dwords, whatever the dword count; the bound is
    reached: from 4096 and an odd dword count, 10 halvings do not end it. *)
Theorem tlp_search_ends_within_11_halvings (nd nd' t tlpcount rest : Z) :
  t <= 4096 ->
  nd' mod 2 = 1 ->
  (exists r, tlp_loop 11 nd t tlpcount rest = Some r) /\
  tlp_loop 10 nd' 4096 (nd' / 4096) (nd' mod 4096) = None.
Proof.
  intros Ht Hodd. split.
  - apply tlp_loop_total. change (2 ^ (Z.of_nat 11 + 1)) with 4096. exact Ht.
  - apply (tlp_loop_odd_needs_fuel nd' 10 12); [exact Hodd | lia].
Qed.

Lemma tlp_search_ends_within_11_halvings_witness :
  (exists r, tlp_loop 11 1024 4096 0 1024 = Some r) /\
  tlp_loop 10 1023 4096 (1023 / 4096) (1023 mod 4096) = None.
Proof.
  apply (tlp_search_ends_within_11_halvings 1024 1023 4096 0 1024).
  - lia.
  - reflexivity.
Defined.

Lemma dma_start_accepts_multiples_of_8_witness :
  (4096 mod 8 = 0 ->
   exists (j : nat) (tlpcount : Z),
     th260_dma_start (fun a => a) dma_witness_card =
       Some [IoWrite32 1 DCR_OFFSET; IoWrite32 0 DCR_OFFSET;
             IoWrite32 (u32 (dmabuf dma_witness_card)) WRITE_ADDR_OFFSET;
             IoWrite32 (2 ^ Z.of_nat j) WRITE_SIZE_OFFSET;
             IoWrite32 tlpcount WRITE_COUNT_OFFSET;
             IoWrite32 1 DCSR_OFFSET] /\
     2 <= 2 ^ Z.of_nat j <= maxtlpsize dma_witness_card /\
     2 ^ Z.of_nat j * 4 * tlpcount = 4096 /\
     0 < tlpcount <= 65535) /\
  (4096 mod 8 <> 0 ->
   th260_dma_start (fun a => a) dma_witness_card =
     Some [IoWrite32 1 DCR_OFFSET; IoWrite32 0 DCR_OFFSET]).
Proof.
  apply (dma_start_accepts_multiples_of_8 (fun a => a) dma_witness_card 0x200 4096).
  - reflexivity.
  - reflexivity.
  - lia.
Defined.

(** ** read: what reaches the caller's buffer *)

Lemma copied_bytes_app (a b : trace) :
  copied_bytes (a ++ b) = copied_bytes a + copied_bytes b.
Proof.
  induction a as [|e a IH]; [reflexivity|].
  destruct e; cbn [app copied_bytes]; rewrite IH; lia.
Qed.

Lemma copies_contiguous_app (src : Z) (a b : trace) : forall dst : Z,
  copies_contiguous src dst (a ++ b) <->
  copies_contiguous src dst a /\ copies_contiguous src (dst + copied_bytes a) b.
Proof.
  induction a as [|e a IH]; intros dst.
  - cbn. rewrite Z.add_0_r. tauto.
  - destruct e; cbn [app copies_contiguous copied_bytes]; try apply IH.
    rewrite IH. rewrite Z.add_assoc. tauto.
Qed.

Lemma th260_dma_start_cases (v2p : Z -> Z) (c : th260_cdev) (t : trace) :
  th260_dma_start v2p c = Some t ->
  t = reset_pulse \/
  exists a b d, t = reset_pulse ++ [IoWrite32 a WRITE_ADDR_OFFSET;
                                    IoWrite32 b WRITE_SIZE_OFFSET;
                                    IoWrite32 d WRITE_COUNT_OFFSET;
                                    IoWrite32 1 DCSR_OFFSET].
Proof.
  unfold th260_dma_start.
  destruct (maxtlpsize c =? 0); [discriminate|].
  destruct (tlp_loop _ _ _ _ _) as [[[ts tc] r]|]; [|discriminate].
  destruct (65535 <? tc); [intros [= <-]; left; reflexivity|].
  destruct (negb _); intros [= <-]; [left; reflexivity|].
  right. eauto.
Qed.

Lemma read_trace_ok_dma_start (v2p : Z -> Z) (c : th260_cdev) (t tr : trace)
    (src buffer cap total : Z) :
  th260_dma_start v2p c = Some t ->
  read_trace_ok src buffer cap total tr ->
  read_trace_ok src buffer cap total (tr ++ t).
Proof.
  intros Ht (Hev & Hcm & Hco & Hcb).
  assert (Hprop : Forall read_event t /\ Forall (copy_at_most cap) t /\
                  copied_bytes t = 0 /\ forall d, copies_contiguous src d t).
  { destruct (th260_dma_start_cases v2p c t Ht) as [-> | (a & b & d & ->)];
      (split; [repeat constructor; cbn; tauto|];
       split; [repeat constructor|];
       split; [reflexivity | intros; exact I]). }
  destruct Hprop as (Ht1 & Ht4 & Ht2 & Ht3).
  split; [apply Forall_app; split; assumption|].
  split; [apply Forall_app; split; assumption|].
  split; [apply copies_contiguous_app; split; [assumption | apply Ht3]|].
  rewrite copied_bytes_app. lia.
Qed.

Lemma read_trace_ok_copy (src buffer cap total len : Z) (tr : trace) :
  0 < len -> len <= cap ->
  read_trace_ok src buffer cap total tr ->
  read_trace_ok src buffer cap (total + len)
                (tr ++ [CopyToUser (buffer + total) src len]).
Proof.
  intros Hlen Hle (Hev & Hcm & Hco & Hcb).
  split; [apply Forall_app; split; [assumption | repeat constructor]|].
  split; [apply Forall_app; split; [assumption | repeat constructor; exact Hle]|].
  split.
  - apply copies_contiguous_app. split; [assumption|].
    cbn. rewrite Hcb. repeat split; assumption.
  - rewrite copied_bytes_app. cbn. lia.
Qed.

Section ReadSafety.

Variable PAGE_SHIFT : Z.
Variable virt_to_phys : Z -> Z.
Variable w : nat -> wait_outcome.
Variables src buffer0 count0 cap : Z.
Hypothesis count0_range : 0 < count0 < 2 ^ 31.

Local Abbreviation returned := (read_returned src buffer0 cap count0).

Lemma read_wait_loop_safe (fuel : nat) :
  forall (k : nat) (c : th260_cdev) (buffer count total : Z) (tr : trace),
  bytes_done c = 0 -> 0 <= dmacount c <= count -> dmacount c <= cap ->
  dmabuf c = src ->
  0 <= total -> total + count = count0 -> buffer = buffer0 + total ->
  read_trace_ok src buffer0 cap total tr ->
  match read_wait_loop virt_to_phys fuel w k c buffer count total tr with
  | LReturn rv c' tr' => returned rv tr'
  | LBreak c' buffer' count' total' k' tr' =>
      dmabuf c' = src /\ dmabuf_order c' = dmabuf_order c /\
      0 <= total' /\ 0 <= count' /\ total' + count' = count0 /\
      buffer' = buffer0 + total' /\ read_trace_ok src buffer0 cap total' tr'
  | LFuel => True
  end.
Proof.
  induction fuel as [|fuel IH]; intros k c buffer count total tr
    Hbd Hdc Hcap Hsrc Htot Hsum Hbuf Hok; cbn [read_wait_loop];
    (destruct (dmacount c =? 0) eqn:Hz;
     [split; [exact Hsrc|]; split; [reflexivity|]; split; [lia|]; split; [lia|];
      split; [lia|]; split; [exact Hbuf | exact Hok] |]);
    [exact I|].
  apply Z.eqb_neq in Hz.
  destruct (th260_dma_start virt_to_phys (set_irq_received 0 c)) as [t|] eqn:Ht;
    [|exact I].
  pose proof (read_trace_ok_dma_start _ _ _ _ _ _ _ _ Ht Hok) as Hok1.
  destruct (w k) as [|irq copy_failed signal].
  { exists total. split; [exact Hok1|]. split; [lia|]. right. left. reflexivity. }
  destruct irq.
  - (* the interrupt has completed the chunk *)
    replace (bytes_done (irq_complete (set_irq_received 0 c))) with (dmacount c)
      by (cbn; rewrite Hbd, Z.add_0_l, u32_small; [reflexivity | lia]).
    replace (dmabuf (irq_complete (set_irq_received 0 c))) with src
      by (cbn; symmetry; exact Hsrc).
    replace (irq_received (irq_complete (set_irq_received 0 c))) with 1
      by reflexivity.
    replace (dmacount c =? 0) with false by (symmetry; apply Z.eqb_neq; exact Hz).
    cbn [negb andb]. rewrite Hbuf.
    pose proof (read_trace_ok_copy src buffer0 cap total (dmacount c) (tr ++ t)
                  ltac:(lia) Hcap Hok1) as Hok2.
    rewrite u32_small, s32_small by lia.
    destruct copy_failed.
    { exists (total + dmacount c). split; [exact Hok2|]. split; [lia|].
      right. right. reflexivity. }
    destruct signal.
    { exists (total + dmacount c). split; [exact Hok2|]. split; [lia|].
      left. replace (total + dmacount c =? 0) with false
        by (symmetry; apply Z.eqb_neq; lia). split; [reflexivity | lia]. }
    cbn [Z.eqb negb]. rewrite u64_small by lia.
    repeat split; try assumption; try lia; apply Hok2.
  - (* woken without a completed transfer *)
    replace (bytes_done (set_irq_received 0 c)) with 0 by (cbn; symmetry; exact Hbd).
    cbn [Z.eqb negb andb]. rewrite Z.add_0_r, u32_small, s32_small by lia.
    destruct signal.
    { exists total. split; [exact Hok1|]. split; [lia|].
      destruct (total =? 0) eqn:H0; [right; left; reflexivity|].
      apply Z.eqb_neq in H0. left. split; [reflexivity | lia]. }
    replace (irq_received (set_irq_received 0 c)) with 0 by reflexivity.
    cbn [Z.eqb negb].
    specialize (IH (S k) (set_irq_received 0 c) buffer count total (tr ++ t)
                   Hbd Hdc Hcap Hsrc Htot Hsum Hbuf Hok1).
    destruct (read_wait_loop _ _ _ _ _ _ _ _ _); exact IH.
Qed.

Lemma read_chunk_loop_safe (fuel : nat) :
  forall (k : nat) (c : th260_cdev) (buffer count total : Z) (tr : trace)
         (rv : Z) (c' : th260_cdev) (tr' : trace),
  dmabuf c = src -> BUFFER_SIZE PAGE_SHIFT (dmabuf_order c) <= cap ->
  0 <= total -> 0 < count -> total + count = count0 ->
  buffer = buffer0 + total -> read_trace_ok src buffer0 cap total tr ->
  read_chunk_loop PAGE_SHIFT virt_to_phys fuel w k c buffer count total tr
    = Some (rv, c', tr') ->
  returned rv tr'.
Proof.
  induction fuel as [|fuel IH]; intros k c buffer count total tr rv c' tr'
    Hsrc Hcap Htot Hcnt Hsum Hbuf Hok; cbn [read_chunk_loop]; [discriminate|].
  set (c1 := set_dmacount _ _).
  assert (Hmin : 0 <= MIN count (BUFFER_SIZE PAGE_SHIFT (dmabuf_order c)) <= count /\
                 MIN count (BUFFER_SIZE PAGE_SHIFT (dmabuf_order c)) <= cap).
  { assert (0 <= BUFFER_SIZE PAGE_SHIFT (dmabuf_order c))
      by (unfold BUFFER_SIZE; apply Z.shiftl_nonneg; lia).
    unfold MIN. destruct (_ <? _) eqn:E; [apply Z.ltb_lt in E | apply Z.ltb_ge in E]; lia. }
  destruct Hmin as [Hmin Hmcap].
  pose proof (read_wait_loop_safe fuel k c1 buffer count total tr) as Hw.
  destruct (read_wait_loop _ _ _ _ _ _ _ _ _)
    as [rv0 c0 tr0 | c0 b0 n0 t0 k0 tr0 |]; [| |discriminate].
  - intros [= <- <- <-]. apply Hw; try assumption; try reflexivity.
    + subst c1. cbn. rewrite u32_small by lia. exact Hmin.
    + subst c1. cbn. rewrite u32_small by lia. exact Hmcap.
  - destruct Hw as (Hs & Ho & Ht0 & Hn0 & Hsum0 & Hb0 & Hok0);
      try assumption; try reflexivity.
    { subst c1. cbn. rewrite u32_small by lia. exact Hmin. }
    { subst c1. cbn. rewrite u32_small by lia. exact Hmcap. }
    assert (Hcap0 : BUFFER_SIZE PAGE_SHIFT (dmabuf_order c0) <= cap).
    { rewrite Ho. exact Hcap. }
    destruct (0 <? n0) eqn:Hpos.
    + apply Z.ltb_lt in Hpos. intros Hr.
      apply (IH _ _ _ _ _ _ _ _ _ Hs Hcap0 Ht0 Hpos Hsum0 Hb0 Hok0 Hr).
    + apply Z.ltb_ge in Hpos. intros [= <- <- <-].
      exists t0. split; [exact Hok0|]. split; [lia|]. left. split; [reflexivity | lia].
Qed.

End ReadSafety.


(** ** read: calls of several chunks *)

Lemma MIN_ge (a b : Z) : b <= a -> MIN a b = b.
Proof.
  intros H. unfold MIN. destruct (a <? b) eqn:E; [apply Z.ltb_lt in E; lia | reflexivity].
Qed.

Section ReadChunks.

Variable PAGE_SHIFT : Z.
Variable virt_to_phys : Z -> Z.
Variable w : nat -> wait_outcome.

Local Abbreviation capacity c := (BUFFER_SIZE PAGE_SHIFT (dmabuf_order c)).
Local Abbreviation chunk_loop := (read_chunk_loop PAGE_SHIFT virt_to_phys).

(** The card after one completed chunk of [m] bytes. *)
Local Abbreviation after_chunk m c :=
  (irq_complete (set_irq_received 0 (set_dmacount m (set_bytes_done 0 c)))).

(** One chunk whose wait ends with the completion interrupt. *)
Lemma read_chunk_completes (f k : nat) (c : th260_cdev)
    (buffer count total : Z) (tr : trace) :
  0 < maxtlpsize c < 2 ^ 32 ->
  0 < capacity c ->
  0 < count -> 0 <= total -> total + count < 2 ^ 31 ->
  w k = WaitWoken true false false ->
  exists t,
    copied_bytes t = 0 /\
    chunk_loop (S (S f)) w k c buffer count total tr =
      (if 0 <? count - MIN count (capacity c)
       then chunk_loop (S f) w (S k) (after_chunk (MIN count (capacity c)) c)
              (buffer + MIN count (capacity c)) (count - MIN count (capacity c))
              (total + MIN count (capacity c))
              ((tr ++ t) ++ [CopyToUser buffer (dmabuf c) (MIN count (capacity c))])
       else Some (total + MIN count (capacity c),
                  after_chunk (MIN count (capacity c)) c,
                  (tr ++ t) ++ [CopyToUser buffer (dmabuf c) (MIN count (capacity c))])).
Proof.
  intros Hmax Hcap Hcount Htotal Hsum Hw.
  pose proof (MIN_range count (capacity c) Hcount Hcap) as Hm.
  assert (Hmc : MIN count (capacity c) <= count).
  { unfold MIN. destruct (_ <? _) eqn:E; [|apply Z.ltb_ge in E]; lia. }
  set (m := MIN count (capacity c)) in *.
  cbn [read_chunk_loop].
  replace (dmabuf_order (set_bytes_done 0 c)) with (dmabuf_order c) by reflexivity.
  fold m. rewrite (u32_small m) by lia.
  cbn [read_wait_loop].
  replace (dmacount (set_dmacount m (set_bytes_done 0 c))) with m by reflexivity.
  replace (m =? 0) with false by (symmetry; apply Z.eqb_neq; lia).
  destruct (th260_dma_start_total virt_to_phys
              (set_irq_received 0 (set_dmacount m (set_bytes_done 0 c)))) as [t Ht].
  { exact Hmax. }
  exists t. split.
  { destruct (th260_dma_start_cases _ _ _ Ht) as [-> | (a & b & d & ->)]; reflexivity. }
  rewrite Ht, Hw.
  replace (bytes_done (after_chunk m c)) with (u32 (0 + m)) by reflexivity.
  replace (irq_received (after_chunk m c)) with 1 by reflexivity.
  replace (dmabuf (after_chunk m c)) with (dmabuf c) by reflexivity.
  rewrite Z.add_0_l, !(u32_small m) by lia.
  replace (m =? 0) with false by (symmetry; apply Z.eqb_neq; lia).
  cbn [negb andb Z.eqb].
  rewrite (u64_small (count - m)), (u32_small (total + m)), (s32_small (total + m))
    by lia.
  reflexivity.
Qed.

(** [j] chunks in a row completing, with more than [j] buffers requested:
    the loop is then at chunk [j], [j] buffers further. *)
Lemma read_chunks_advance (j : nat) :
  forall (f k : nat) (c : th260_cdev) (buffer count total : Z) (tr : trace),
  0 < maxtlpsize c < 2 ^ 32 ->
  0 < capacity c ->
  0 <= total -> total + count < 2 ^ 31 ->
  Z.of_nat j * capacity c < count ->
  (forall i : nat, (i < j)%nat -> w (k + i)%nat = WaitWoken true false false) ->
  exists c' tr',
    chunk_loop (j + S (S f)) w k c buffer count total tr =
      chunk_loop (S (S f)) w (k + j) c'
        (buffer + Z.of_nat j * capacity c) (count - Z.of_nat j * capacity c)
        (total + Z.of_nat j * capacity c) tr' /\
    card_config c' = card_config c /\
    copied_bytes tr' = copied_bytes tr + Z.of_nat j * capacity c.
Proof.
  induction j as [|j IH]; intros f k c buffer count total tr
    Hmax Hcap Htotal Hsum Hcount Hw.
  - exists c, tr. cbn [Z.of_nat Nat.add].
    rewrite Z.mul_0_l, !Z.add_0_r, Z.sub_0_r, Nat.add_0_r.
    split; [reflexivity|]. split; [reflexivity | lia].
  - assert (Hbig : capacity c < count) by nia.
    destruct (read_chunk_completes (j + S f) k c buffer count total tr)
      as (t & Ht0 & Hstep); try assumption; try lia.
    { specialize (Hw O ltac:(lia)). rewrite Nat.add_0_r in Hw. exact Hw. }
    rewrite (MIN_ge count (capacity c)) in Hstep by lia.
    replace (0 <? count - capacity c) with true in Hstep
      by (symmetry; apply Z.ltb_lt; lia).
    destruct (IH f (S k) (after_chunk (capacity c) c) (buffer + capacity c)
                (count - capacity c) (total + capacity c)
                ((tr ++ t) ++ [CopyToUser buffer (dmabuf c) (capacity c)]))
      as (c' & tr' & Hrest & Hcfg & Hcopied).
    { exact Hmax. }
    { exact Hcap. }
    { lia. }
    { lia. }
    { replace (dmabuf_order (after_chunk (capacity c) c)) with (dmabuf_order c)
        by reflexivity. lia. }
    { intros i Hi. replace (S k + i)%nat with (k + S i)%nat by lia. apply Hw. lia. }
    replace (dmabuf_order (after_chunk (capacity c) c)) with (dmabuf_order c)
      in Hrest, Hcopied by reflexivity.
    exists c', tr'.
    replace (S j + S (S f))%nat with (S (S (j + S f))) by lia.
    replace (j + S (S f))%nat with (S (j + S f)) in Hrest by lia.
    rewrite Hstep, Hrest.
    split.
    { f_equal; lia. }
    split; [rewrite Hcfg; reflexivity|].
    rewrite Hcopied, !copied_bytes_app. cbn [copied_bytes].
    lia.
Qed.

(** The chunk whose wait does not end with a completed copy. *)
Lemma read_chunk_fails (f k : nat) (c : th260_cdev)
    (buffer count total : Z) (tr : trace) :
  0 < maxtlpsize c < 2 ^ 32 ->
  0 < capacity c ->
  0 < count -> 0 <= total -> total + count < 2 ^ 31 ->
  exists t c',
    copied_bytes t = 0 /\
    (w k = WaitTimeout ->
     chunk_loop (S (S f)) w k c buffer count total tr = Some (- EINTR, c', tr ++ t)) /\
    (forall copy_failed, w k = WaitWoken false copy_failed true ->
     chunk_loop (S (S f)) w k c buffer count total tr =
       Some (if total =? 0 then - EINTR else total, c', tr ++ t)) /\
    (forall signal, w k = WaitWoken true true signal ->
     read_rv (chunk_loop (S (S f)) w k c buffer count total tr) = Some (- EFAULT)).
Proof.
  intros Hmax Hcap Hcount Htotal Hsum.
  pose proof (MIN_range count (capacity c) Hcount Hcap) as Hm.
  assert (Hmc : MIN count (capacity c) <= count).
  { unfold MIN. destruct (_ <? _) eqn:E; [|apply Z.ltb_ge in E]; lia. }
  set (m := MIN count (capacity c)) in *.
  destruct (th260_dma_start_total virt_to_phys
              (set_irq_received 0 (set_dmacount m (set_bytes_done 0 c)))) as [t Ht].
  { exact Hmax. }
  exists t, (set_irq_received 0 (set_dmacount m (set_bytes_done 0 c))).
  split.
  { destruct (th260_dma_start_cases _ _ _ Ht) as [-> | (a & b & d & ->)]; reflexivity. }
  assert (Hstart :
    forall o, w k = o ->
    chunk_loop (S (S f)) w k c buffer count total tr =
    match
      match o with
      | WaitTimeout =>
          LReturn (- EINTR) (set_irq_received 0 (set_dmacount m (set_bytes_done 0 c)))
                  (tr ++ t)
      | WaitWoken irq copy_failed signal =>
          let c2 := if irq then after_chunk m c
                    else set_irq_received 0 (set_dmacount m (set_bytes_done 0 c)) in
          let done := bytes_done c2 in
          let tr2 := if done =? 0 then tr ++ t
                     else (tr ++ t) ++ [CopyToUser buffer (dmabuf c2) done] in
          if negb (done =? 0) && copy_failed then LReturn (- EFAULT) c2 tr2
          else if signal then
            LReturn (if s32 (u32 (total + done)) =? 0 then - EINTR
                     else s32 (u32 (total + done))) c2 tr2
          else if negb (irq_received c2 =? 0) then
            LBreak c2 (buffer + done) (u64 (count - done))
                   (s32 (u32 (total + done))) (S k) tr2
          else read_wait_loop virt_to_phys f w (S k) c2 buffer count total tr2
      end
    with
    | LFuel => None
    | LReturn rv c' tr' => Some (rv, c', tr')
    | LBreak c' buffer' count' total' k' tr' =>
        if 0 <? count' then chunk_loop (S f) w k' c' buffer' count' total' tr'
        else Some (total', c', tr')
    end).
  { intros o Ho. cbn [read_chunk_loop].
    replace (dmabuf_order (set_bytes_done 0 c)) with (dmabuf_order c) by reflexivity.
    fold m. rewrite (u32_small m) by lia.
    cbn [read_wait_loop].
    replace (dmacount (set_dmacount m (set_bytes_done 0 c))) with m by reflexivity.
    replace (m =? 0) with false by (symmetry; apply Z.eqb_neq; lia).
    rewrite Ht, Ho. reflexivity. }
  split; [|split].
  - intros Hw. rewrite (Hstart _ Hw). reflexivity.
  - intros copy_failed Hw. rewrite (Hstart _ Hw). cbv zeta.
    replace (bytes_done (set_irq_received 0 (set_dmacount m (set_bytes_done 0 c))))
      with 0 by reflexivity.
    cbn [Z.eqb negb andb]. rewrite Z.add_0_r, u32_small, s32_small by lia.
    reflexivity.
  - intros signal Hw. rewrite (Hstart _ Hw). cbv zeta.
    replace (bytes_done (after_chunk m c)) with (u32 (0 + m)) by reflexivity.
    rewrite Z.add_0_l, (u32_small m) by lia.
    replace (m =? 0) with false by (symmetry; apply Z.eqb_neq; lia).
    reflexivity.
Qed.

End ReadChunks.

(** X4. On a card with a nonzero maximum TLP size, a blocking read of any
    count below 2^31 into a writable buffer, all of whose waits end with the
    completion interrupt and a successful copy, returns exactly [count]
    after copying [count] bytes, chunk by chunk: every copy is at most the
    capacity of the DMA buffer, is taken from the start of that buffer and
    continues the caller's buffer where the previous one ended.  The card's
    configuration is left as it was. *)
Theorem read_in_chunks_returns_count (ps : Z) (v2p : Z -> Z) (fuel : nat)
    (w : nat -> wait_outcome) (c : th260_cdev) (buffer count : Z) :
  0 < maxtlpsize c < 2 ^ 32 ->
  0 < BUFFER_SIZE ps (dmabuf_order c) ->
  0 < count < 2 ^ 31 ->
  (forall i : nat, w i = WaitWoken true false false) ->
  (Z.to_nat ((count - 1) / BUFFER_SIZE ps (dmabuf_order c)) + 2 <= fuel)%nat ->
  exists c' tr,
    th260_read ps v2p fuel w false true c buffer count = Some (count, c', tr) /\
    copied_bytes tr = count /\
    card_config c' = card_config c /\
    Forall (copy_at_most (BUFFER_SIZE ps (dmabuf_order c))) tr /\
    copies_contiguous (dmabuf c) buffer tr.
Proof.
  intros Hmax Hcap Hcount Hw Hfuel.
  assert (Hres : exists c' tr,
    th260_read ps v2p fuel w false true c buffer count = Some (count, c', tr) /\
    copied_bytes tr = count /\
    card_config c' = card_config c).
  2:{ destruct Hres as (c' & tr & Hr & Hcb & Hcfg).
      exists c', tr. split; [exact Hr|]. split; [exact Hcb|]. split; [exact Hcfg|].
      unfold th260_read in Hr.
      replace (count =? 0) with false in Hr by (symmetry; apply Z.eqb_neq; lia).
      cbn [negb] in Hr.
      destruct (read_chunk_loop_safe ps v2p w (dmabuf c) buffer count
                  (BUFFER_SIZE ps (dmabuf_order c)) Hcount fuel
                  O c buffer count 0 [] count c' tr)
        as (total & (_ & Hcm & Hco & _) & _);
        try lia; try reflexivity; try exact Hr.
      { split; [constructor|]. split; [constructor|].
        split; [exact I | reflexivity]. }
      split; [exact Hcm | exact Hco]. }
  set (cap := BUFFER_SIZE ps (dmabuf_order c)) in *.
  set (j := Z.to_nat ((count - 1) / cap)) in *.
  assert (Hq : 0 <= (count - 1) / cap) by (apply Z.div_pos; lia).
  assert (Hj : Z.of_nat j = (count - 1) / cap) by (subst j; lia).
  pose proof (Z.div_mod (count - 1) cap ltac:(lia)) as Hdm.
  pose proof (Z.mod_pos_bound (count - 1) cap ltac:(lia)) as Hmb.
  rewrite <- Hj in Hdm.
  unfold th260_read.
  replace (count =? 0) with false by (symmetry; apply Z.eqb_neq; lia).
  cbn [negb].
  replace fuel with (j + S (S (fuel - j - 2)))%nat by lia.
  destruct (read_chunks_advance ps v2p w j (fuel - j - 2) O c buffer count 0 [])
    as (c1 & tr1 & Hadv & Hcfg & Hcopied); try assumption; try lia.
  { intros i Hi. apply Hw. }
  fold cap in Hadv, Hcopied. cbn [copied_bytes] in Hcopied.
  assert (Hc1 : BUFFER_SIZE ps (dmabuf_order c1) = cap /\ maxtlpsize c1 = maxtlpsize c).
  { unfold card_config in Hcfg. injection Hcfg as _ _ _ _ _ _ _ Hm _ Ho.
    rewrite Ho. split; [reflexivity | exact Hm]. }
  destruct Hc1 as [Hcap1 Hmax1].
  destruct (read_chunk_completes ps v2p w (fuel - j - 2) (O + j) c1
              (buffer + Z.of_nat j * cap) (count - Z.of_nat j * cap)
              (0 + Z.of_nat j * cap) tr1) as (t & Ht0 & Hlast); try lia.
  { apply Hw. }
  rewrite Hcap1 in Hlast.
  rewrite (MIN_le (count - Z.of_nat j * cap) cap) in Hlast by lia.
  replace (0 <? count - Z.of_nat j * cap - (count - Z.of_nat j * cap)) with false
    in Hlast by (symmetry; apply Z.ltb_ge; lia).
  rewrite Hadv, Hlast.
  do 2 eexists. split; [f_equal; f_equal; f_equal; lia|]. split.
  - rewrite !copied_bytes_app, Hcopied, Ht0. cbn [copied_bytes]. lia.
  - rewrite <- Hcfg. reflexivity.
Qed.

(** X5. On a card with a nonzero maximum TLP size, when the first [j] chunks
    of a blocking read complete and the wait of the next chunk times out,
    the call returns [-EINTR] although [j] full buffers have already been
    copied to the caller: the progress is not reported. *)
Theorem read_timeout_after_progress (ps : Z) (v2p : Z -> Z) (fuel j : nat)
    (w : nat -> wait_outcome) (c : th260_cdev) (buffer count : Z) :
  0 < maxtlpsize c < 2 ^ 32 ->
  0 < BUFFER_SIZE ps (dmabuf_order c) ->
  Z.of_nat j * BUFFER_SIZE ps (dmabuf_order c) < count < 2 ^ 31 ->
  (forall i : nat, (i < j)%nat -> w i = WaitWoken true false false) ->
  w j = WaitTimeout ->
  (j + 2 <= fuel)%nat ->
  exists c' tr,
    th260_read ps v2p fuel w false true c buffer count = Some (- EINTR, c', tr) /\
    copied_bytes tr = Z.of_nat j * BUFFER_SIZE ps (dmabuf_order c).
Proof.
  intros Hmax Hcap Hcount Hw Hj Hfuel.
  set (cap := BUFFER_SIZE ps (dmabuf_order c)) in *.
  unfold th260_read.
  replace (count =? 0) with false by (symmetry; apply Z.eqb_neq; nia).
  cbn [negb].
  replace fuel with (j + S (S (fuel - j - 2)))%nat by lia.
  destruct (read_chunks_advance ps v2p w j (fuel - j - 2) O c buffer count 0 [])
    as (c1 & tr1 & Hadv & Hcfg & Hcopied); try assumption; try lia.
  fold cap in Hadv, Hcopied. cbn [copied_bytes] in Hcopied.
  assert (Hc1 : BUFFER_SIZE ps (dmabuf_order c1) = cap /\ maxtlpsize c1 = maxtlpsize c).
  { unfold card_config in Hcfg. injection Hcfg as _ _ _ _ _ _ _ Hm _ Ho.
    rewrite Ho. split; [reflexivity | exact Hm]. }
  destruct Hc1 as [Hcap1 Hmax1].
  destruct (read_chunk_fails ps v2p w (fuel - j - 2) (O + j) c1
              (buffer + Z.of_nat j * cap) (count - Z.of_nat j * cap)
              (0 + Z.of_nat j * cap) tr1) as (t & c2 & Ht0 & Htimeout & _);
    try lia.
  rewrite Hadv, (Htimeout Hj).
  do 2 eexists. split; [reflexivity|].
  rewrite copied_bytes_app, Hcopied, Ht0. lia.
Qed.

(** X6. On a card with a nonzero maximum TLP size, when the first [j >= 1]
    chunks of a blocking read complete and a signal ends the wait of the
    next chunk before its transfer is done, the call returns the [j] full
    buffers copied so far. *)
Theorem read_signal_after_progress (ps : Z) (v2p : Z -> Z) (fuel j : nat)
    (w : nat -> wait_outcome) (copy_failed : bool) (c : th260_cdev)
    (buffer count : Z) :
  0 < maxtlpsize c < 2 ^ 32 ->
  0 < BUFFER_SIZE ps (dmabuf_order c) ->
  Z.of_nat j * BUFFER_SIZE ps (dmabuf_order c) < count < 2 ^ 31 ->
  (1 <= j)%nat ->
  (forall i : nat, (i < j)%nat -> w i = WaitWoken true false false) ->
  w j = WaitWoken false copy_failed true ->
  (j + 2 <= fuel)%nat ->
  exists c' tr,
    th260_read ps v2p fuel w false true c buffer count =
      Some (Z.of_nat j * BUFFER_SIZE ps (dmabuf_order c), c', tr) /\
    copied_bytes tr = Z.of_nat j * BUFFER_SIZE ps (dmabuf_order c).
Proof.
  intros Hmax Hcap Hcount Hj1 Hw Hj Hfuel.
  set (cap := BUFFER_SIZE ps (dmabuf_order c)) in *.
  unfold th260_read.
  replace (count =? 0) with false by (symmetry; apply Z.eqb_neq; nia).
  cbn [negb].
  replace fuel with (j + S (S (fuel - j - 2)))%nat by lia.
  destruct (read_chunks_advance ps v2p w j (fuel - j - 2) O c buffer count 0 [])
    as (c1 & tr1 & Hadv & Hcfg & Hcopied); try assumption; try lia.
  fold cap in Hadv, Hcopied. cbn [copied_bytes] in Hcopied.
  assert (Hc1 : BUFFER_SIZE ps (dmabuf_order c1) = cap /\ maxtlpsize c1 = maxtlpsize c).
  { unfold card_config in Hcfg. injection Hcfg as _ _ _ _ _ _ _ Hm _ Ho.
    rewrite Ho. split; [reflexivity | exact Hm]. }
  destruct Hc1 as [Hcap1 Hmax1].
  destruct (read_chunk_fails ps v2p w (fuel - j - 2) (O + j) c1
              (buffer + Z.of_nat j * cap) (count - Z.of_nat j * cap)
              (0 + Z.of_nat j * cap) tr1) as (t & c2 & Ht0 & _ & Hsignal & _);
    try lia.
  rewrite Hadv, (Hsignal copy_failed Hj).
  replace (0 + Z.of_nat j * cap =? 0) with false by (symmetry; apply Z.eqb_neq; nia).
  do 2 eexists. split; [f_equal; f_equal; f_equal; lia|].
  rewrite copied_bytes_app, Hcopied, Ht0. lia.
Qed.

(** X7. On a card with a nonzero maximum TLP size, when [copy_to_user]
    fails for a completed chunk of a blocking read, after any number [j] of
    chunks copied before it, the call returns [-EFAULT]. *)
Theorem read_copy_failure_is_efault (ps : Z) (v2p : Z -> Z) (fuel j : nat)
    (w : nat -> wait_outcome) (signal : bool) (c : th260_cdev)
    (buffer count : Z) :
  0 < maxtlpsize c < 2 ^ 32 ->
  0 < BUFFER_SIZE ps (dmabuf_order c) ->
  Z.of_nat j * BUFFER_SIZE ps (dmabuf_order c) < count < 2 ^ 31 ->
  (forall i : nat, (i < j)%nat -> w i = WaitWoken true false false) ->
  w j = WaitWoken true true signal ->
  (j + 2 <= fuel)%nat ->
  read_rv (th260_read ps v2p fuel w false true c buffer count) = Some (- EFAULT).
Proof.
  intros Hmax Hcap Hcount Hw Hj Hfuel.
  set (cap := BUFFER_SIZE ps (dmabuf_order c)) in *.
  unfold th260_read.
  replace (count =? 0) with false by (symmetry; apply Z.eqb_neq; nia).
  cbn [negb].
  replace fuel with (j + S (S (fuel - j - 2)))%nat by lia.
  destruct (read_chunks_advance ps v2p w j (fuel - j - 2) O c buffer count 0 [])
    as (c1 & tr1 & Hadv & Hcfg & Hcopied); try assumption; try lia.
  fold cap in Hadv, Hcopied.
  assert (Hc1 : BUFFER_SIZE ps (dmabuf_order c1) = cap /\ maxtlpsize c1 = maxtlpsize c).
  { unfold card_config in Hcfg. injection Hcfg as _ _ _ _ _ _ _ Hm _ Ho.
    rewrite Ho. split; [reflexivity | exact Hm]. }
  destruct Hc1 as [Hcap1 Hmax1].
  destruct (read_chunk_fails ps v2p w (fuel - j - 2) (O + j) c1
              (buffer + Z.of_nat j * cap) (count - Z.of_nat j * cap)
              (0 + Z.of_nat j * cap) tr1) as (t & c2 & Ht0 & _ & _ & Hcopy);
    try lia.
  rewrite Hadv. exact (Hcopy signal Hj).
Qed.

(** ** What read and the interrupt handler leave alone *)

Lemma read_wait_loop_config (v2p : Z -> Z) (fuel : nat) (w : nat -> wait_outcome) :
  forall (k : nat) (c : th260_cdev) (buffer count total : Z) (tr : trace),
  match read_wait_loop v2p fuel w k c buffer count total tr with
  | LReturn _ c' _ => card_config c' = card_config c
  | LBreak c' _ _ _ _ _ => card_config c' = card_config c
  | LFuel => True
  end.
Proof.
  induction fuel as [|fuel IH]; intros k c buffer count total tr;
    cbn [read_wait_loop]; destruct (dmacount c =? 0); try reflexivity; try exact I.
  destruct (th260_dma_start v2p (set_irq_received 0 c)) as [t|]; [|exact I].
  destruct (w k) as [|irq copy_failed signal]; [reflexivity|].
  set (c2 := if irq then _ else _).
  assert (Hc2 : card_config c2 = card_config c) by (subst c2; destruct irq; reflexivity).
  destruct (negb (bytes_done c2 =? 0) && copy_failed); [exact Hc2|].
  destruct signal; [exact Hc2|].
  destruct (negb (irq_received c2 =? 0)); [exact Hc2|].
  specialize (IH (S k) c2 buffer count total
                 (if bytes_done c2 =? 0 then tr ++ t
                  else (tr ++ t) ++ [CopyToUser buffer (dmabuf c2) (bytes_done c2)])).
  destruct (read_wait_loop _ _ _ _ _ _ _ _ _); try exact I; congruence.
Qed.

Lemma read_chunk_loop_config (ps : Z) (v2p : Z -> Z) (fuel : nat)
    (w : nat -> wait_outcome) :
  forall (k : nat) (c : th260_cdev) (buffer count total : Z) (tr : trace) rv c' tr',
  read_chunk_loop ps v2p fuel w k c buffer count total tr = Some (rv, c', tr') ->
  card_config c' = card_config c.
Proof.
  induction fuel as [|fuel IH]; intros k c buffer count total tr rv c' tr';
    cbn [read_chunk_loop]; [discriminate|].
  set (c1 := set_dmacount _ _).
  pose proof (read_wait_loop_config v2p fuel w k c1 buffer count total tr) as Hw.
  destruct (read_wait_loop _ _ _ _ _ _ _ _ _) as [rv0 c0 tr0|c0 b0 n0 t0 k0 tr0|];
    [| |discriminate].
  - intros [= <- <- <-]. exact Hw.
  - destruct (0 <? n0).
    + intros Hr. apply IH in Hr. rewrite Hr. exact Hw.
    + intros [= <- <- <-]. exact Hw.
Qed.

Lemma th260_read_config (ps : Z) (v2p : Z -> Z) (fuel : nat)
    (w : nat -> wait_outcome) (nonblock access_ok : bool) (c : th260_cdev)
    (buffer count rv : Z) (c' : th260_cdev) (tr : trace) :
  th260_read ps v2p fuel w nonblock access_ok c buffer count = Some (rv, c', tr) ->
  card_config c' = card_config c.
Proof.
  unfold th260_read.
  destruct (count =? 0); [intros [= <- <- <-]; reflexivity|].
  destruct nonblock; [intros [= <- <- <-]; reflexivity|].
  destruct (negb access_ok); [intros [= <- <- <-]; reflexivity|].
  apply read_chunk_loop_config.
Qed.

Lemma interrupt_config (fuel : nat) (rd : nat -> Z) (c : th260_cdev) (r : irq_result) :
  th260_interrupt fuel rd c = Some r -> card_config (irq_card r) = card_config c.
Proof.
  unfold th260_interrupt. destruct (_ =? 0); [intros [= <-]; reflexivity|].
  destruct (interrupt_loop _ _ _ _) as [[n t]|]; [|discriminate].
  intros [= <-]. reflexivity.
Qed.

(** X8. No [th260_read] call, however it ends, changes the card's minor
    number, busy flag, PCI device, character device, register window, BAR
    offset, serial number, maximum TLP size or DMA buffer: it only touches
    the three fields of the transfer in flight. *)
Theorem read_keeps_card_config (ps : Z) (v2p : Z -> Z) (fuel : nat)
    (w : nat -> wait_outcome) (nonblock access_ok : bool) (c : th260_cdev)
    (buffer count rv : Z) (c' : th260_cdev) (tr : trace) :
  th260_read ps v2p fuel w nonblock access_ok c buffer count = Some (rv, c', tr) ->
  card_config c' = card_config c.
Proof. apply th260_read_config. Qed.

Lemma done_bit_testbit (x : Z) :
  Z.land x BUSMASTERED_READ_DONE <> 0 -> Z.testbit x 8 = true.
Proof.
  intros H. destruct (Z.testbit x 8) eqn:Hb; [reflexivity|].
  exfalso. apply H. apply Z.bits_inj'. intros n Hn.
  rewrite Z.land_spec, Z.bits_0.
  change BUSMASTERED_READ_DONE with (2 ^ 8).
  rewrite Z.pow2_bits_eqb by lia.
  destruct (Z.eqb_spec 8 n) as [<- | Hne]; [rewrite Hb; reflexivity | apply andb_false_r].
Qed.

Lemma interrupt_loop_events (rd : nat -> Z) (fuel : nat) :
  forall (k : nat) (dcsr : Z) (n : nat) (t : trace),
  interrupt_loop fuel rd k dcsr = Some (n, t) ->
  Forall interrupt_event t /\
  (n = O -> Z.land dcsr BUSMASTERED_READ_DONE = 0 /\ t = []) /\
  ((0 < n)%nat -> read_done (rd (k + n - 1)%nat) = false).
Proof.
  induction fuel as [|fuel IH]; intros k dcsr n t; cbn [interrupt_loop];
    destruct (Z.land dcsr BUSMASTERED_READ_DONE =? 0) eqn:Hz;
    try discriminate;
    try (intros [= <- <-]; apply Z.eqb_eq in Hz;
         split; [constructor | split; [intros _; split; [exact Hz | reflexivity] | lia]]).
  apply Z.eqb_neq in Hz.
  destruct (interrupt_loop fuel rd (S k) (u32 (rd k))) as [[n0 t0]|] eqn:Hrec;
    [|discriminate].
  intros [= <- <-].
  destruct (IH _ _ _ _ Hrec) as (Hev & Hzero & Hpos).
  split; [|split].
  - cbn [app].
    constructor.
    { unfold interrupt_event. right. split; [reflexivity|]. split.
      - rewrite Z.lor_spec. change (Z.testbit 128 7) with true. apply orb_true_r.
      - rewrite Z.lor_spec. rewrite (done_bit_testbit dcsr Hz). reflexivity. }
    constructor. { cbn. left. split; [reflexivity | left; reflexivity]. }
    constructor. { cbn. left. split; [reflexivity | right; reflexivity]. }
    constructor. { reflexivity. }
    exact Hev.
  - discriminate.
  - intros _. destruct n0 as [|n0].
    + destruct (Hzero eq_refl) as [H0 _].
      replace (k + 1 - 1)%nat with k by lia.
      unfold read_done. rewrite H0. reflexivity.
    + replace (k + S (S n0) - 1)%nat with (S k + S n0 - 1)%nat by lia.
      apply Hpos. lia.
Qed.

(** X9. Whenever [th260_interrupt] returns, either the first read of the
    status register showed the completion bit clear and it reports
    "unhandled" with the card untouched and no register written, or it
    reports "handled" with the pending byte count added to the completed
    bytes, the pending count zeroed and the wake-up flag set, after a last
    status read with the bit clear.  Besides reading the status register it
    only writes the reset pulse and status values with the interrupt-disable
    bit 7 set, and it never changes the card's configuration. *)
Theorem interrupt_accounting (fuel : nat) (rd : nat -> Z) (c : th260_cdev)
    (r : irq_result) :
  th260_interrupt fuel rd c = Some r ->
  Forall interrupt_event (irq_trace r) /\
  card_config (irq_card r) = card_config c /\
  ((irq_handled r = 0 /\ read_done (rd O) = false /\ irq_card r = c /\
    irq_trace r = [IoRead32 DCSR_OFFSET]) \/
   (irq_handled r = 1 /\ read_done (rd O) = true /\
    (1 <= irq_iterations r)%nat /\ read_done (rd (irq_iterations r)) = false /\
    bytes_done (irq_card r) = u32 (bytes_done c + dmacount c) /\
    dmacount (irq_card r) = 0 /\ irq_received (irq_card r) = 1)).
Proof.
  unfold th260_interrupt.
  destruct (Z.land (u32 (rd O)) BUSMASTERED_READ_DONE =? 0) eqn:Hz.
  - intros [= <-]. cbn. split; [repeat constructor|]. split; [reflexivity|].
    left. unfold read_done. rewrite Hz. repeat split.
  - destruct (interrupt_loop fuel rd 1 (u32 (rd O))) as [[n t]|] eqn:Hloop;
      [|discriminate].
    intros [= <-]. cbn [irq_trace irq_card irq_handled irq_iterations].
    destruct (interrupt_loop_events rd fuel _ _ _ _ Hloop) as (Hev & Hzero & Hpos).
    split; [constructor; [reflexivity | exact Hev]|]. split; [reflexivity|].
    right. split; [reflexivity|]. split; [unfold read_done; rewrite Hz; reflexivity|].
    destruct n as [|n].
    { destruct (Hzero eq_refl) as [H0 _]. apply Z.eqb_neq in Hz. contradiction. }
    split; [lia|]. split.
    { replace (S n) with (1 + S n - 1)%nat by lia. apply Hpos. lia. }
    repeat split.
Qed.

(** ** mmap: the page offset of the register window *)

Lemma page_offset_mod (ps x : Z) :
  0 <= ps -> Z.land x (Z.lnot (PAGE_MASK ps)) = x mod 2 ^ ps.
Proof.
  intros Hps. unfold PAGE_MASK, PAGE_SIZE. rewrite Z.lnot_involutive.
  rewrite Z.shiftl_1_l. rewrite <- Z.land_ones by exact Hps.
  f_equal. rewrite Z.ones_equiv. lia.
Qed.

Lemma PAGE_ALIGN_BAR_0_LEN (ps : Z) :
  12 <= ps <= 16 -> PAGE_ALIGN ps BAR_0_LEN = 65536.
Proof.
  intros H.
  assert (Hc : ps = 12 \/ ps = 13 \/ ps = 14 \/ ps = 15 \/ ps = 16) by lia.
  destruct Hc as [-> | [-> | [-> | [-> | ->]]]]; reflexivity.
Qed.

(** X10. A successful [th260_mmap] splits the physical start address of
    BAR 0 into the page frame number it hands to [remap_pfn_range] and the
    offset within the page, which it stores in the card:
    [pfn * PAGE_SIZE + offset] is the start address, the offset is below the
    page size, and [IOCTL_GET_BAROFFS] then returns exactly this offset. *)
Theorem mmap_records_page_offset (ps rs : Z) (c : th260_cdev) (v : vm_area_struct) :
  0 <= ps <= 32 ->
  0 <= rs ->
  busy c = 0 ->
  u64 (vm_end v - vm_start v) <= PAGE_ALIGN ps BAR_0_LEN ->
  exists c' pfn,
    th260_mmap ps rs 0 c v =
      (0, c', mk_vma (vm_start v) (vm_end v) pfn true,
       [RemapPfnRange pfn (u64 (vm_end v - vm_start v))]) /\
    pfn * PAGE_SIZE ps + bar0offset c' = rs /\
    0 <= bar0offset c' < PAGE_SIZE ps /\
    th260_ioctl c' IOCTL_GET_BAROFFS true false = (0, Some (bar0offset c', 4)).
Proof.
  intros Hps Hrs Hbusy Hlen. unfold th260_mmap. rewrite Hbusy. cbn [Z.eqb negb].
  apply Z.ltb_ge in Hlen. rewrite Hlen. cbn [Z.eqb negb].
  rewrite page_offset_mod by lia.
  pose proof (Z.pow_pos_nonneg 2 ps ltac:(lia) ltac:(lia)) as Hpos.
  pose proof (Z.mod_pos_bound rs (2 ^ ps) Hpos) as Hmod.
  assert (Hle : 2 ^ ps <= 2 ^ 32) by (apply Z.pow_le_mono_r; lia).
  rewrite u32_small by lia.
  do 2 eexists. split; [reflexivity|].
  cbn [bar0offset set_bar0offset]. unfold PAGE_SIZE.
  rewrite Z.shiftl_1_l, Z.shiftr_div_pow2 by lia.
  split; [|split; [exact Hmod | reflexivity]].
  pose proof (Z.div_mod rs (2 ^ ps) ltac:(lia)). lia.
Qed.

(** X11. With pages of 4 KiB to 64 KiB the page-rounded window is exactly
    64 KiB: on an idle card [th260_mmap] fails with [-EINVAL] exactly for the
    lengths above 65536 bytes, and such a call leaves the card as it was. *)
Theorem mmap_length_limit (ps rs rr : Z) (c : th260_cdev) (v : vm_area_struct) :
  12 <= ps <= 16 ->
  busy c = 0 ->
  (fst (fst (fst (th260_mmap ps rs rr c v))) = - EINVAL <->
   65536 < u64 (vm_end v - vm_start v)) /\
  (65536 < u64 (vm_end v - vm_start v) ->
   th260_mmap ps rs rr c v = (- EINVAL, c, v, [])).
Proof.
  intros Hps Hbusy. unfold th260_mmap. rewrite Hbusy. cbn [Z.eqb negb].
  rewrite PAGE_ALIGN_BAR_0_LEN by exact Hps.
  destruct (65536 <? u64 (vm_end v - vm_start v)) eqn:Hl.
  - apply Z.ltb_lt in Hl. split; [split; [intros _; exact Hl | reflexivity]|].
    intros _. destruct c; cbn in *. subst. reflexivity.
  - apply Z.ltb_ge in Hl. split; [|intros; lia].
    split; [|intros; lia].
    destruct (negb (rr =? 0)); cbn; discriminate.
Qed.

(** ** The device table *)

Lemma set_pci_dev_None_id (p : pci_dev_id) (c : th260_cdev) :
  pci_dev c = None -> set_pci_dev None (set_pci_dev (Some p) c) = c.
Proof. destruct c; cbn; intros ->; reflexivity. Qed.

Lemma th260_cdev_add_lowest (pdev : pci_dev_id) (tbl : list th260_cdev)
    (i : nat) (c : th260_cdev) :
  tbl !! i = Some c ->
  pci_dev c = None ->
  (forall (j : nat) (c' : th260_cdev),
     (j < i)%nat -> tbl !! j = Some c' -> pci_dev c' <> None) ->
  th260_cdev_add pdev tbl = (minor c, <[i := set_pci_dev (Some pdev) c]> tbl).
Proof.
  revert i. induction tbl as [|c0 tbl IH]; intros i Hi Hfree Hbefore.
  - discriminate.
  - destruct i as [|i]; cbn [th260_cdev_add].
    + injection Hi as ->. rewrite Hfree. reflexivity.
    + destruct (pci_dev c0) eqn:Hp0.
      * rewrite (IH i); [reflexivity | exact Hi | exact Hfree |].
        intros j c' Hj Hc'. apply (Hbefore (S j) c'); [lia | exact Hc'].
      * exfalso. apply (Hbefore O c0); [lia | reflexivity | exact Hp0].
Qed.

(** X12. [th260_cdev_add] claims the lowest free slot of the table: it
    returns that slot's minor number and stores the device there, leaving
    every other slot as it was. *)
Theorem cdev_add_claims_lowest_free_slot (pdev : pci_dev_id) (tbl : list th260_cdev)
    (i : nat) (c : th260_cdev) :
  tbl !! i = Some c ->
  pci_dev c = None ->
  (forall (j : nat) (c' : th260_cdev),
     (j < i)%nat -> tbl !! j = Some c' -> pci_dev c' <> None) ->
  th260_cdev_add pdev tbl = (minor c, <[i := set_pci_dev (Some pdev) c]> tbl).
Proof. apply th260_cdev_add_lowest. Qed.

Lemma cdev_add_claims_lowest_free_slot_witness :
  th260_cdev_add 7%nat (snd (th260_cdev_add 3%nat th260_cdev_init)) =
    (minor (init_slot 1),
     <[1%nat := set_pci_dev (Some 7%nat) (init_slot 1)]>
       (snd (th260_cdev_add 3%nat th260_cdev_init))).
Proof.
  apply (cdev_add_claims_lowest_free_slot 7%nat
           (snd (th260_cdev_add 3%nat th260_cdev_init)) 1%nat (init_slot 1)).
  - reflexivity.
  - reflexivity.
  - intros [|j] c' Hj Hc'; [|lia]. injection Hc' as <-. discriminate.
Defined.

Lemma th260_cdev_add_full (pdev : pci_dev_id) (tbl : list th260_cdev) :
  Forall (fun c => pci_dev c <> None) tbl -> th260_cdev_add pdev tbl = (-1, tbl).
Proof.
  induction 1 as [|c tbl Hc Htbl IH]; cbn [th260_cdev_add]; [reflexivity|].
  destruct (pci_dev c); [|contradiction]. rewrite IH. reflexivity.
Qed.

(** X13. When every slot of the table is taken, [th260_probe] fails with
    [-ENODEV] at once: the table is unchanged, no slot is claimed, nothing is
    mapped, allocated or registered; only the error exit runs, which clears
    the device's driver data and disables the device. *)
Theorem probe_on_full_table (ps : Z) (env : probe_env) (pdev : pci_dev_id)
    (st : driver_state) :
  Forall (fun c => pci_dev c <> None) (table st) ->
  th260_probe ps env pdev st =
    (- ENODEV, mk_state (table st) (delete pdev (drvdata st)),
     [PciSetDrvdata pdev None; PciDisableDevice]).
Proof.
  intros Hfull. unfold th260_probe. rewrite th260_cdev_add_full by exact Hfull.
  reflexivity.
Qed.

(** X14. Releasing a slot undoes claiming it: for a device that holds no
    slot, [th260_cdev_del] after [th260_cdev_add] gives back the table. *)
Theorem cdev_del_undoes_cdev_add (pdev : pci_dev_id) (tbl : list th260_cdev) :
  Forall (fun c => pci_dev c <> Some pdev) tbl ->
  th260_cdev_del pdev (snd (th260_cdev_add pdev tbl)) = tbl.
Proof.
  assert (Hdel : forall l, Forall (fun c => pci_dev c <> Some pdev) l ->
                           th260_cdev_del pdev l = l).
  { induction 1 as [|c l Hc Hl IH]; [reflexivity|].
    unfold th260_cdev_del in *. cbn [fmap list_fmap]. rewrite IH.
    destruct (decide (pci_dev c = Some pdev)); [contradiction | reflexivity]. }
  induction 1 as [|c tbl Hc Htbl IH]; cbn [th260_cdev_add]; [reflexivity|].
  destruct (pci_dev c) as [q|] eqn:Hp.
  - destruct (th260_cdev_add pdev tbl) as [ret rest]. cbn [snd] in *.
    unfold th260_cdev_del in *. cbn [fmap list_fmap]. rewrite IH.
    destruct (decide (pci_dev c = Some pdev)); [congruence | reflexivity].
  - cbn [snd]. unfold th260_cdev_del in *. cbn [fmap list_fmap].
    rewrite (Hdel tbl Htbl).
    destruct (decide (pci_dev (set_pci_dev (Some pdev) c) = Some pdev)) as [_|Hne];
      [|exfalso; apply Hne; reflexivity].
    rewrite set_pci_dev_None_id by exact Hp. reflexivity.
Qed.

Lemma dma_alloc_loop_largest (gfp : Z -> Z) (n : nat) :
  forall order buf ta,
  dma_alloc_loop gfp n = (order, buf, ta) ->
  (forall o, order < o <= Z.of_nat n -> gfp o = 0) /\
  (buf = 0 -> order = 0) /\
  Z.of_nat (length ta) = Z.of_nat n - order + 1 /\
  Forall (fun e => exists o, e = GetFreePages o /\ order <= o <= Z.of_nat n) ta.
Proof.
  induction n as [|n IH]; intros order buf ta; cbn [dma_alloc_loop].
  - destruct (negb _); intros [= <- <- <-];
      (split; [intros; lia|]; split; [reflexivity|]; split; [reflexivity|];
       repeat constructor; eexists; split; [reflexivity | lia]).
  - destruct (negb (gfp (Z.of_nat (S n)) =? 0)) eqn:Hg.
    + intros [= <- <- <-]. split; [intros; lia|].
      split; [intros H0; apply negb_true_iff, Z.eqb_neq in Hg; contradiction|].
      split; [cbn [length]; lia|].
      repeat constructor. eexists; split; [reflexivity | lia].
    + destruct (dma_alloc_loop gfp n) as [[o b] t] eqn:Hrec.
      intros [= <- <- <-].
      destruct (IH o b t eq_refl) as (Habove & Hzero & Hlen & Hev).
      pose proof (dma_alloc_loop_spec gfp n o b t Hrec) as [Ho _].
      apply negb_false_iff, Z.eqb_eq in Hg.
      split; [|split; [exact Hzero|split]].
      * intros o' Ho'. destruct (Z.eq_dec o' (Z.of_nat (S n))) as [-> | Hne];
          [exact Hg | apply Habove; lia].
      * cbn [length]. lia.
      * constructor; [eexists; split; [reflexivity | lia]|].
        eapply Forall_impl; [exact Hev|]. cbn. intros e (o' & -> & Ho').
        eexists; split; [reflexivity | lia].
Qed.

Lemma dma_alloc_loop_trace (gfp : Z -> Z) (n : nat) :
  forall order buf ta,
  dma_alloc_loop gfp n = (order, buf, ta) -> ta = orders_tried n order.
Proof.
  induction n as [|n IH]; intros order buf ta; cbn [dma_alloc_loop].
  - destruct (negb _); intros [= <- <- <-]; reflexivity.
  - destruct (negb (gfp (Z.of_nat (S n)) =? 0)) eqn:Hg.
    + intros [= <- <- <-]. unfold orders_tried.
      replace (Z.to_nat (Z.of_nat (S n) - Z.of_nat (S n) + 1)) with 1%nat by lia.
      cbn [seq map].
      replace (Z.of_nat (S n) - Z.of_nat 0) with (Z.of_nat (S n)) by lia.
      reflexivity.
    + destruct (dma_alloc_loop gfp n) as [[o b] t] eqn:Hrec.
      intros [= <- <- <-].
      pose proof (dma_alloc_loop_spec gfp n o b t Hrec) as [Ho _].
      rewrite (IH o b t eq_refl). unfold orders_tried.
      replace (Z.to_nat (Z.of_nat (S n) - o + 1))
        with (S (Z.to_nat (Z.of_nat n - o + 1))) by lia.
      cbn [seq map].
      replace (Z.of_nat (S n) - Z.of_nat 0) with (Z.of_nat (S n)) by lia.
      f_equal.
      rewrite <- seq_shift, map_map. apply map_ext.
      intros i.
      replace (Z.of_nat (S n) - Z.of_nat (S i)) with (Z.of_nat n - Z.of_nat i)
        by lia.
      reflexivity.
Qed.

Example orders_tried_from_7_to_5 :
  orders_tried 7 5 = [GetFreePages 7; GetFreePages 6; GetFreePages 5].
Proof. reflexivity. Qed.

(** X15. The allocation loop of [th260_probe] settles on the largest order,
    from the starting one downwards, that [__get_free_pages] grants: its
    requests are exactly those for the orders [n], [n - 1], ..., [order], in
    this sequence, so every larger order was tried and refused, exactly once
    each, and nothing below the granted order is asked for; if all orders
    are refused the card is left with order 0 and no buffer. *)
Theorem dma_alloc_loop_takes_largest_order (gfp : Z -> Z) (n : nat) :
  let order := fst (fst (dma_alloc_loop gfp n)) in
  let buf := snd (fst (dma_alloc_loop gfp n)) in
  let ta := snd (dma_alloc_loop gfp n) in
  0 <= order <= Z.of_nat n /\
  buf = gfp order /\
  (forall o, order < o <= Z.of_nat n -> gfp o = 0) /\
  (buf = 0 -> order = 0 /\ forall o, 0 <= o <= Z.of_nat n -> gfp o = 0) /\
  Z.of_nat (length ta) = Z.of_nat n - order + 1 /\
  Forall (fun e => exists o, e = GetFreePages o /\ order <= o <= Z.of_nat n) ta /\
  ta = orders_tried n order.
Proof.
  destruct (dma_alloc_loop gfp n) as [[order buf] ta] eqn:Hloop. cbn [fst snd].
  destruct (dma_alloc_loop_spec gfp n order buf ta Hloop) as [Ho Hb].
  destruct (dma_alloc_loop_largest gfp n order buf ta Hloop)
    as (Habove & Hzero & Hlen & Hev).
  pose proof (dma_alloc_loop_trace gfp n order buf ta Hloop) as Htrace.
  split; [exact Ho|]. split; [exact Hb|]. split; [exact Habove|].
  split; [|split; [exact Hlen | split; [exact Hev | exact Htrace]]].
  intros H0. specialize (Hzero H0). split; [exact Hzero|].
  intros o Hrange. destruct (Z.eq_dec o 0) as [-> | Hne].
  - rewrite Hzero in Hb. rewrite <- Hb. exact H0.
  - apply Habove. lia.
Qed.

Lemma probe_success_attaches_card_witness :
  exists (slot : nat) (c : th260_cdev),
    drvdata (snd (fst (th260_probe 12 good_env O init_state))) !! O = Some slot /\
    table (snd (fst (th260_probe 12 good_env O init_state))) !! slot = Some c /\
    pci_dev c = Some O /\
    cdev c = cdev_alloc_ret good_env /\
    dmabuf c <> 0 /\
    32 <= maxtlpsize c <= 4096 /\
    0 < BUFFER_SIZE 12 (dmabuf_order c) <= 512 * 1024.
Proof.
  apply (probe_success_attaches_card 12 good_env O init_state
           (snd (fst (th260_probe 12 good_env O init_state)))
           (snd (th260_probe 12 good_env O init_state))).
  - lia.
  - intros [|[|[|[|i]]]] c Hc; try discriminate Hc; injection Hc as <-; reflexivity.
  - reflexivity.
Defined.

(** ** A failed attach *)

Lemma dma_alloc_loop_releases (gfp : Z -> Z) (n : nat) :
  Forall (fun e => releases e = false) (snd (dma_alloc_loop gfp n)).
Proof.
  destruct (dma_alloc_loop gfp n) as [[order buf] ta] eqn:Hloop. cbn [snd].
  destruct (dma_alloc_loop_largest gfp n order buf ta Hloop) as (_ & _ & _ & Hev).
  eapply Forall_impl; [exact Hev|]. cbn. intros e (o & -> & _). reflexivity.
Qed.

(** X17. A [th260_probe] that fails after claiming a slot returns [-ENODEV]
    and leaves the slot claimed by the device while the device's driver data
    is cleared, so a later [th260_remove] for the device does nothing and the
    slot stays taken; and the failed probe makes no call that releases the
    PCI region, the DMA pages, the interrupt or a device node. *)
Theorem failed_probe_keeps_slot (ps : Z) (env : probe_env) (pdev : pci_dev_id)
    (st st' : driver_state) (rc : Z) (tr : trace) (i : nat) (c : th260_cdev) :
  table st !! i = Some c ->
  pci_dev c = None ->
  minor c = Z.of_nat i ->
  (forall (j : nat) (c' : th260_cdev),
     (j < i)%nat -> table st !! j = Some c' -> pci_dev c' <> None) ->
  th260_probe ps env pdev st = (rc, st', tr) ->
  rc <> 0 ->
  rc = - ENODEV /\
  (exists c', table st' !! i = Some c' /\ pci_dev c' = Some pdev) /\
  drvdata st' !! pdev = None /\
  th260_remove pdev st' = (st', []) /\
  Forall (fun e => releases e = false) tr.
Proof.
  intros Hi Hfree Hminor Hlow.
  pose proof (lookup_lt_Some _ _ _ Hi) as Hlen.
  unfold th260_probe, probe_from_maxtlpsize, probe_error.
  rewrite (th260_cdev_add_lowest pdev (table st) i c Hi Hfree Hlow), Hminor.
  replace (Z.of_nat i <? 0) with false by (symmetry; apply Z.ltb_ge; lia).
  rewrite Nat2Z.id.
  pose proof (dma_alloc_loop_releases (get_free_pages env)
                (Z.to_nat (get_order ps (512 * 1024)))) as Hta.
  destruct (dma_alloc_loop _ _) as [[order buf] ta]. cbn [snd] in Hta.
  cbv zeta. rewrite maxtlpsize_guard.
  repeat match goal with
         | |- context [if ?b then _ else _] => destruct b
         end;
    intros [= <- <- <-] Hrc; try (exfalso; apply Hrc; reflexivity);
    (split; [reflexivity|]);
    (split; [cbn [table];
             rewrite ?list_lookup_alter_eq, list_lookup_insert_eq by exact Hlen;
             eexists; split; reflexivity|]);
    (split; [apply lookup_delete_eq|]);
    (split; [unfold th260_remove; cbn [drvdata]; rewrite lookup_delete_eq; reflexivity|]);
    repeat first [ exact Hta
                 | apply Forall_app; split
                 | constructor; [reflexivity|]
                 | constructor ].
Qed.

Lemma failed_probe_keeps_slot_witness :
  - ENODEV = - ENODEV /\
  (exists c', table (snd (fst (th260_probe 12 enable_fails_env 9%nat
                                 (mk_state two_cards_table ∅)))) !! 2%nat = Some c' /\
              pci_dev c' = Some 9%nat) /\
  drvdata (snd (fst (th260_probe 12 enable_fails_env 9%nat
                       (mk_state two_cards_table ∅)))) !! 9%nat = None /\
  th260_remove 9%nat (snd (fst (th260_probe 12 enable_fails_env 9%nat
                                  (mk_state two_cards_table ∅)))) =
    (snd (fst (th260_probe 12 enable_fails_env 9%nat (mk_state two_cards_table ∅))), []) /\
  Forall (fun e => releases e = false)
         (snd (th260_probe 12 enable_fails_env 9%nat (mk_state two_cards_table ∅))).
Proof.
  apply (failed_probe_keeps_slot 12 enable_fails_env 9%nat
           (mk_state two_cards_table ∅)
           (snd (fst (th260_probe 12 enable_fails_env 9%nat (mk_state two_cards_table ∅))))
           (- ENODEV)
           (snd (th260_probe 12 enable_fails_env 9%nat (mk_state two_cards_table ∅)))
           2%nat (init_slot 2)).
  - reflexivity.
  - reflexivity.
  - reflexivity.
  - intros [|[|j]] c' Hj Hc'; [| |lia]; injection Hc' as <-; discriminate.
  - reflexivity.
  - discriminate.
Defined.

(** ** The value of the serial number *)

Lemma byte_of_div (x i : Z) : 0 <= i -> byte_of x i = (x / 2 ^ (8 * i)) mod 256.
Proof.
  intros Hi. unfold byte_of. change 0xFF with (Z.ones 8).
  rewrite Z.land_ones by lia. rewrite Z.shiftr_div_pow2 by lia. reflexivity.
Qed.

(** X18. The serial number [th260_probe] stores is the 64-bit little-endian
    value of the two registers, first register low, with its top byte
    cleared: [(dword0 + 2^32 * dword1) mod 2^56]. *)
Theorem serial_is_low_56_bits (dword0 dword1 : Z) :
  0 <= dword0 < 2 ^ 32 ->
  0 <= dword1 < 2 ^ 32 ->
  serialreg_allbits dword0 dword1 = (dword0 + 2 ^ 32 * dword1) mod 2 ^ 56.
Proof.
  intros H0 H1. unfold serialreg_allbits. rewrite serialreg_bytes. cbn [le_value].
  rewrite !byte_of_div by lia.
  change (2 ^ (8 * 0)) with 1. change (2 ^ (8 * 1)) with 256.
  change (2 ^ (8 * 2)) with 65536. change (2 ^ (8 * 3)) with 16777216.
  change (2 ^ 32) with 4294967296 in *. change (2 ^ 56) with 72057594037927936.
  rewrite !Z.div_1_r.
  Z.div_mod_to_equations. lia.
Qed.

Lemma serial_is_low_56_bits_witness :
  serialreg_allbits 0x04030201 0xFF070605 =
    (0x04030201 + 2 ^ 32 * 0xFF070605) mod 2 ^ 56.
Proof.
  apply (serial_is_low_56_bits 0x04030201 0xFF070605); lia.
Defined.

(** ** The shape of the device table *)

Lemma table_shape_alter (f : th260_cdev -> th260_cdev) (i : nat)
    (tbl : list th260_cdev) :
  (forall c, minor (f c) = minor c) ->
  table_shape tbl -> table_shape (alter f i tbl).
Proof.
  intros Hf [Hlen Hmin]. split; [rewrite length_alter; exact Hlen|].
  intros j c Hc. destruct (Nat.eq_dec i j) as [<- | Hne].
  - rewrite list_lookup_alter_eq in Hc.
    destruct (tbl !! i) as [c0|] eqn:H0; [|discriminate].
    injection Hc as <-. rewrite Hf. apply Hmin. exact H0.
  - rewrite list_lookup_alter_ne in Hc by exact Hne. apply Hmin. exact Hc.
Qed.

Lemma table_shape_insert (i : nat) (c c' : th260_cdev) (tbl : list th260_cdev) :
  tbl !! i = Some c -> minor c' = minor c ->
  table_shape tbl -> table_shape (<[i := c']> tbl).
Proof.
  intros Hi Hm [Hlen Hmin]. split; [rewrite length_insert; exact Hlen|].
  intros j c0 Hc. destruct (Nat.eq_dec i j) as [<- | Hne].
  - rewrite list_lookup_insert_eq in Hc by (eapply lookup_lt_Some; exact Hi).
    injection Hc as <-. rewrite Hm. apply Hmin. exact Hi.
  - rewrite list_lookup_insert_ne in Hc by exact Hne. apply Hmin. exact Hc.
Qed.

Lemma table_shape_cdev_add (pdev : pci_dev_id) (tbl : list th260_cdev) :
  table_shape tbl -> table_shape (snd (th260_cdev_add pdev tbl)).
Proof.
  intros Hs. destruct (th260_cdev_add pdev tbl) as [ret tbl'] eqn:Hadd.
  destruct (th260_cdev_add_spec pdev tbl ret tbl' Hadd)
    as [[_ ->] | (i & c & Hi & _ & _ & ->)]; cbn [snd]; [exact Hs|].
  eapply table_shape_insert; [exact Hi | reflexivity | exact Hs].
Qed.

Lemma table_shape_cdev_del (pdev : pci_dev_id) (tbl : list th260_cdev) :
  table_shape tbl -> table_shape (th260_cdev_del pdev tbl).
Proof.
  intros [Hlen Hmin]. unfold th260_cdev_del.
  split; [rewrite length_fmap; exact Hlen|].
  intros i c Hc. rewrite list_lookup_fmap in Hc.
  destruct (tbl !! i) as [c0|] eqn:H0; [|discriminate].
  injection Hc as <-. destruct (decide _); cbn; apply Hmin; exact H0.
Qed.

Lemma table_shape_probe (ps : Z) (env : probe_env) (pdev : pci_dev_id)
    (st : driver_state) :
  table_shape (table st) ->
  table_shape (table (snd (fst (th260_probe ps env pdev st)))).
Proof.
  intros H. apply (table_shape_cdev_add pdev) in H.
  unfold th260_probe, probe_from_maxtlpsize, probe_error.
  destruct (th260_cdev_add pdev (table st)) as [minor tbl]. cbn [snd] in H.
  destruct (dma_alloc_loop _ _) as [[order buf] ta].
  repeat match goal with
         | |- context [if ?b then _ else _] => destruct b
         end;
    cbn [fst snd table];
    repeat (apply table_shape_alter; [intros; reflexivity|]); exact H.
Qed.

Lemma card_config_minor (c c' : th260_cdev) :
  card_config c' = card_config c -> minor c' = minor c.
Proof. unfold card_config. intros [= H _ _ _ _ _ _ _ _ _]. exact H. Qed.

(** X19. In every state the driver reaches from module load by attaches,
    detaches, reads, mmaps, releases and interrupts, the device table has
    its [MAX_DEVICES] slots and slot [i] carries minor number [i]: the
    device node [th260pcie<i>] always leads [th260_open] to slot [i]. *)
Theorem reachable_table_shape (ps : Z) (v2p : Z -> Z) (st : driver_state) :
  reachable ps v2p st ->
  length (table st) = MAX_DEVICES /\
  forall (i : nat) (c : th260_cdev), table st !! i = Some c -> minor c = Z.of_nat i.
Proof.
  change (reachable ps v2p st -> table_shape (table st)).
  induction 1 as [ | env pdev st _ IH | pdev st _ IH
                   | fuel w nb ok buffer count slot c rv c' tr st _ IH Hc Hr
                   | rs rr vma slot c st _ IH Hc
                   | slot c st _ IH Hc
                   | fuel rd slot c r st _ IH Hc Hr ].
  - split; [reflexivity|].
    intros [|[|[|[|i]]]] c Hc; try discriminate Hc; injection Hc as <-; reflexivity.
  - apply table_shape_probe. exact IH.
  - unfold th260_remove.
    destruct (drvdata st !! pdev) as [slot|]; [|exact IH].
    destruct (table st !! slot) as [pcard|]; [|exact IH].
    destruct (pci_dev pcard); [|exact IH].
    cbn [fst table]. apply table_shape_cdev_del. exact IH.
  - cbn [table]. eapply table_shape_insert; [exact Hc | | exact IH].
    apply card_config_minor. eapply th260_read_config. exact Hr.
  - cbn [table]. eapply table_shape_insert; [exact Hc | | exact IH].
    unfold th260_mmap.
    repeat match goal with
           | |- context [if ?b then _ else _] => destruct b
           end; reflexivity.
  - cbn [table]. eapply table_shape_insert; [exact Hc | reflexivity | exact IH].
  - cbn [table]. eapply table_shape_insert; [exact Hc | | exact IH].
    apply card_config_minor. eapply interrupt_config. exact Hr.
Qed.

Lemma reachable_table_shape_witness :
  length (table (snd (fst (th260_probe 12 good_env O init_state)))) = MAX_DEVICES /\
  forall (i : nat) (c : th260_cdev),
    table (snd (fst (th260_probe 12 good_env O init_state))) !! i = Some c ->
    minor c = Z.of_nat i.
Proof.
  apply (reachable_table_shape 12 (fun a => a)
           (snd (fst (th260_probe 12 good_env O init_state)))).
  apply reach_probe. apply reach_init.
Defined.

(** ** Module load and unload *)

(** X20. [pci_init_module] returns 0 exactly when the class, the device
    number region (with first minor 0) and the driver registration all
    succeed; it then holds these three and has initialised the device table.
    On every failure it returns a negative code and has released, in reverse
    order of acquisition, everything it had acquired. *)
Theorem init_module_unwinds (env : init_env) :
  (forall err, class_create_err env = Some err -> err < 0) ->
  (fst (fst (pci_init_module env)) = 0 <->
   class_create_err env = None /\ 0 <= alloc_chrdev_region_ret env /\
   devno_minor env = 0 /\ 0 <= pci_register_driver_ret env) /\
  (fst (fst (pci_init_module env)) = 0 ->
   snd (fst (pci_init_module env)) = Some th260_cdev_init /\
   module_held [] (snd (pci_init_module env)) =
     Some [PciRegisterDriver true; AllocChrdevRegion true; ClassCreate true]) /\
  (fst (fst (pci_init_module env)) <> 0 ->
   fst (fst (pci_init_module env)) < 0 /\
   module_held [] (snd (pci_init_module env)) = Some []).
Proof.
  intros Herr. unfold pci_init_module.
  destruct (class_create_err env) as [err|] eqn:Hclass.
  { specialize (Herr err eq_refl). cbn.
    split; [split; [lia | intros [H _]; discriminate]|].
    split; [lia|]. intros _. split; [lia | reflexivity]. }
  destruct (alloc_chrdev_region_ret env <? 0) eqn:Ha.
  { apply Z.ltb_lt in Ha. cbn.
    split; [split; [lia | intros (_ & H & _); lia]|].
    split; [lia|]. intros _. split; [lia | reflexivity]. }
  apply Z.ltb_ge in Ha.
  destruct (devno_minor env =? 0) eqn:Hm; cbn [negb].
  2:{ apply Z.eqb_neq in Hm. cbn.
      split; [split; [discriminate | intros (_ & _ & H & _); contradiction]|].
      split; [discriminate|]. intros _. split; [reflexivity | reflexivity]. }
  apply Z.eqb_eq in Hm.
  destruct (pci_register_driver_ret env <? 0) eqn:Hr.
  { apply Z.ltb_lt in Hr. cbn.
    split; [split; [lia | intros (_ & _ & _ & H); lia]|].
    split; [lia|]. intros _. split; [lia | reflexivity]. }
  apply Z.ltb_ge in Hr. cbn.
  split; [split; [intros _; repeat split; assumption | reflexivity]|].
  split; [intros _; split; reflexivity | intros H; contradiction].
Qed.

Lemma init_module_unwinds_witness :
  (fst (fst (pci_init_module (mk_init_env None 0 0 (-12)))) = 0 <->
   class_create_err (mk_init_env None 0 0 (-12)) = None /\
   0 <= alloc_chrdev_region_ret (mk_init_env None 0 0 (-12)) /\
   devno_minor (mk_init_env None 0 0 (-12)) = 0 /\
   0 <= pci_register_driver_ret (mk_init_env None 0 0 (-12))) /\
  (fst (fst (pci_init_module (mk_init_env None 0 0 (-12)))) = 0 ->
   snd (fst (pci_init_module (mk_init_env None 0 0 (-12)))) = Some th260_cdev_init /\
   module_held [] (snd (pci_init_module (mk_init_env None 0 0 (-12)))) =
     Some [PciRegisterDriver true; AllocChrdevRegion true; ClassCreate true]) /\
  (fst (fst (pci_init_module (mk_init_env None 0 0 (-12)))) <> 0 ->
   fst (fst (pci_init_module (mk_init_env None 0 0 (-12)))) < 0 /\
   module_held [] (snd (pci_init_module (mk_init_env None 0 0 (-12)))) = Some []).
Proof.
  apply (init_module_unwinds (mk_init_env None 0 0 (-12))).
  intros err Herr. discriminate Herr.
Defined.

Lemma th260_remove_claimed (pdev : pci_dev_id) (st : driver_state) (i : nat)
    (c : th260_cdev) :
  claim_consistent st ->
  table st !! i = Some c -> pci_dev c = Some pdev ->
  th260_remove pdev st =
    (mk_state (<[i := set_pci_dev None c]> (table st)) (drvdata st), teardown c).
Proof.
  intros Hcons Hi Hp. unfold th260_remove.
  rewrite (Hcons i c pdev Hi Hp), Hi, Hp. f_equal. f_equal.
  apply list_eq. intros j. unfold th260_cdev_del. rewrite list_lookup_fmap.
  destruct (Nat.eq_dec i j) as [<- | Hne].
  - rewrite list_lookup_insert_eq by (eapply lookup_lt_Some; exact Hi).
    rewrite Hi. cbn. destruct (decide _); [reflexivity | contradiction].
  - rewrite list_lookup_insert_ne by exact Hne.
    destruct (table st !! j) as [cj|] eqn:Hj; [|reflexivity]. cbn.
    destruct (decide (pci_dev cj = Some pdev)) as [Hpj|]; [|reflexivity].
    pose proof (Hcons j cj pdev Hj Hpj) as Hdj.
    rewrite (Hcons i c pdev Hi Hp) in Hdj. congruence.
Qed.

Lemma claim_consistent_clear (st : driver_state) (i : nat) (c : th260_cdev) :
  claim_consistent st -> table st !! i = Some c ->
  claim_consistent (mk_state (<[i := set_pci_dev None c]> (table st)) (drvdata st)).
Proof.
  intros Hcons Hi j cj p Hj Hp. cbn [table drvdata] in *.
  destruct (Nat.eq_dec i j) as [<- | Hne].
  - rewrite list_lookup_insert_eq in Hj by (eapply lookup_lt_Some; exact Hi).
    injection Hj as <-. discriminate Hp.
  - rewrite list_lookup_insert_ne in Hj by exact Hne. exact (Hcons j cj p Hj Hp).
Qed.

Lemma set_pci_dev_None_free (c : th260_cdev) :
  pci_dev c = None -> set_pci_dev None c = c.
Proof. destruct c; cbn; intros ->; reflexivity. Qed.

(** The loop from slot [i] on, the slots before it being free: it frees
    every slot and tears down the claimed ones, in slot order. *)
Lemma exit_remove_loop_spec (n : nat) : forall (i : nat) (st : driver_state),
  claim_consistent st ->
  (forall (j : nat) (c : th260_cdev),
     (j < i)%nat -> table st !! j = Some c -> pci_dev c = None) ->
  (length (table st) <= i + n)%nat ->
  exit_remove_loop n i st =
    (mk_state (set_pci_dev None <$> table st) (drvdata st),
     flat_map teardown_if_claimed (drop i (table st))).
Proof.
  induction n as [|n IH]; intros i st Hcons Hfree Hlen; cbn [exit_remove_loop].
  - rewrite drop_ge by lia. cbn [flat_map]. f_equal.
    destruct st as [tbl dd]. cbn [table drvdata] in *. f_equal.
    apply list_eq. intros j. rewrite list_lookup_fmap.
    destruct (tbl !! j) as [c|] eqn:Hj; [|reflexivity]. cbn.
    rewrite set_pci_dev_None_free; [reflexivity|].
    apply (Hfree j c); [|exact Hj]. apply lookup_lt_Some in Hj. lia.
  - destruct (table st !! i) as [c|] eqn:Hi.
    + rewrite (drop_S _ _ _ Hi). cbn [flat_map]. unfold teardown_if_claimed at 1.
      destruct (pci_dev c) as [p|] eqn:Hp.
      * rewrite (th260_remove_claimed p st i c Hcons Hi Hp).
        rewrite IH; cbn [table drvdata].
        -- rewrite drop_insert_lt by lia. f_equal. f_equal.
           apply list_eq. intros j. rewrite !list_lookup_fmap.
           destruct (Nat.eq_dec i j) as [<- | Hne].
           ++ rewrite list_lookup_insert_eq by (eapply lookup_lt_Some; exact Hi).
              rewrite Hi. reflexivity.
           ++ rewrite list_lookup_insert_ne by exact Hne. reflexivity.
        -- apply claim_consistent_clear; assumption.
        -- intros j cj Hj Hcj. destruct (Nat.eq_dec i j) as [<- | Hne].
           ++ rewrite list_lookup_insert_eq in Hcj
                by (eapply lookup_lt_Some; exact Hi).
              injection Hcj as <-. reflexivity.
           ++ rewrite list_lookup_insert_ne in Hcj by exact Hne.
              apply (Hfree j cj); [lia | exact Hcj].
        -- rewrite length_insert. lia.
      * rewrite IH; [reflexivity | exact Hcons | | lia].
        intros j cj Hj Hcj. destruct (Nat.eq_dec i j) as [<- | Hne].
        -- rewrite Hi in Hcj. injection Hcj as <-. exact Hp.
        -- apply (Hfree j cj); [lia | exact Hcj].
    + apply lookup_ge_None_1 in Hi.
      rewrite IH; [|exact Hcons| |lia].
      * rewrite !drop_ge by lia. reflexivity.
      * intros j cj Hj Hcj. apply (Hfree j cj); [|exact Hcj].
        apply lookup_lt_Some in Hcj. lia.
Qed.

Lemma th260_remove_all_free (pdev : pci_dev_id) (st : driver_state) :
  Forall (fun c => pci_dev c = None) (table st) -> th260_remove pdev st = (st, []).
Proof.
  intros Hfree. unfold th260_remove.
  destruct (drvdata st !! pdev) as [slot|]; [|reflexivity].
  destruct (table st !! slot) as [c|] eqn:Hc; [|reflexivity].
  rewrite (Forall_lookup_1 _ _ _ _ Hfree Hc). reflexivity.
Qed.

Lemma remove_all_free (bound : list pci_dev_id) (st : driver_state) :
  Forall (fun c => pci_dev c = None) (table st) -> remove_all bound st = (st, []).
Proof.
  intros Hfree. induction bound as [|p bound IH]; cbn [remove_all]; [reflexivity|].
  rewrite th260_remove_all_free by exact Hfree. rewrite IH. reflexivity.
Qed.

(** X21. When every claimed slot is its device's driver data,
    [pci_exit_module] tears down each attached card exactly once, in slot
    order, and leaves all slots free; the remove callbacks the PCI core may
    then issue while the driver is unregistered, for whatever devices, do
    nothing more. *)
Theorem exit_module_tears_down_each_card_once (bound : list pci_dev_id)
    (st : driver_state) :
  claim_consistent st ->
  length (table st) = MAX_DEVICES ->
  pci_exit_module bound st =
    (mk_state (set_pci_dev None <$> table st) (drvdata st),
     (Driver <$> flat_map teardown_if_claimed (table st)) ++
     [UnregisterChrdevRegion
        (match table st !! O with Some c => minor c | None => 0 end);
      ClassDestroy; PciUnregisterDriver]).
Proof.
  intros Hcons Hlen. unfold pci_exit_module.
  rewrite (exit_remove_loop_spec MAX_DEVICES O st Hcons); [| intros; lia | lia].
  rewrite drop_0.
  rewrite remove_all_free.
  2:{ cbn [table]. apply Forall_fmap, Forall_forall. intros c _. reflexivity. }
  cbn [table]. rewrite list_lookup_fmap.
  destruct (table st !! O) as [c|]; reflexivity.
Qed.

(** ** Attach in closed form; detach and attach again *)

Lemma probe_closed_form (ps : Z) (env : probe_env) (pdev : pci_dev_id)
    (st : driver_state) (i : nat) (c : th260_cdev) :
  table st !! i = Some c ->
  pci_dev c = None ->
  minor c = Z.of_nat i ->
  (forall (j : nat) (c' : th260_cdev),
     (j < i)%nat -> table st !! j = Some c' -> pci_dev c' <> None) ->
  (probe_succeeds ps env = true ->
   th260_probe ps env pdev st =
     (0, mk_state (<[i := attach_card ps env pdev c]> (table st))
                  (<[pdev := i]> (drvdata st)),
      attach_trace ps env pdev i)) /\
  (probe_succeeds ps env = false ->
   fst (fst (th260_probe ps env pdev st)) = - ENODEV).
Proof.
  intros Hi Hfree Hminor Hlow.
  pose proof (lookup_lt_Some _ _ _ Hi) as Hlen.
  unfold th260_probe, probe_from_maxtlpsize, probe_error, probe_succeeds,
    attach_trace, attach_card.
  rewrite (th260_cdev_add_lowest pdev (table st) i c Hi Hfree Hlow), Hminor.
  replace (Z.of_nat i <? 0) with false by (symmetry; apply Z.ltb_ge; lia).
  rewrite Nat2Z.id.
  destruct (dma_alloc_loop _ _) as [[order buf] ta]. cbn [fst snd].
  cbv zeta. rewrite maxtlpsize_guard.
  rewrite (Z.leb_antisym (cdev_add_ret env) 0).
  rewrite (Z.leb_antisym (pci_enable_device_ret env) 0).
  destruct (cdev_add_ret env <? 0); cbn [negb andb];
    [split; [discriminate | reflexivity]|].
  destruct (pci_enable_device_ret env <? 0); cbn [negb andb];
    [split; [discriminate | reflexivity]|].
  destruct (pci_request_region_ret env =? 0); cbn [negb andb];
    [|split; [discriminate | reflexivity]].
  destruct (bar0_is_mem env); cbn [negb andb];
    [|split; [discriminate | reflexivity]].
  destruct (ioremap_ret env =? 0); cbn [negb andb];
    [split; [discriminate | reflexivity]|].
  destruct (buf =? 0); cbn [negb andb];
    [split; [discriminate | reflexivity]|].
  destruct (dma_set_mask_ret env =? 0); cbn [negb andb];
    [|split; [discriminate | reflexivity]].
  destruct (dma_set_coherent_mask_ret env =? 0); cbn [negb andb];
    [|split; [discriminate | reflexivity]].
  destruct (request_irq_ret env =? 0); cbn [negb andb];
    [|split; [discriminate | reflexivity]].
  split; [intros _ | discriminate].
  f_equal; [f_equal; f_equal|].
  - apply list_eq. intros j. destruct (Nat.eq_dec i j) as [<- | Hne].
    + rewrite !list_lookup_alter_eq, !list_lookup_insert_eq by exact Hlen.
      destruct c; cbn in Hminor |- *. rewrite Hminor. reflexivity.
    + rewrite !list_lookup_alter_ne, !list_lookup_insert_ne by exact Hne.
      reflexivity.
  - cbn [app]. rewrite <- !app_assoc. reflexivity.
Qed.

(** X22. For a table whose lowest free slot is slot [i], [th260_probe]
    succeeds exactly when the kernel's answers all succeed and some page
    allocation is granted; it then changes nothing but slot [i], where it
    sets the device, character device, register window, serial number,
    maximum TLP size and DMA buffer, and the device's driver data; and it
    makes its calls in one fixed order, the device node being created last.
    Otherwise it returns [-ENODEV]. *)
Theorem probe_succeeds_in_one_slot (ps : Z) (env : probe_env) (pdev : pci_dev_id)
    (st : driver_state) (i : nat) (c : th260_cdev) :
  table st !! i = Some c ->
  pci_dev c = None ->
  minor c = Z.of_nat i ->
  (forall (j : nat) (c' : th260_cdev),
     (j < i)%nat -> table st !! j = Some c' -> pci_dev c' <> None) ->
  (probe_succeeds ps env = true ->
   th260_probe ps env pdev st =
     (0, mk_state (<[i := attach_card ps env pdev c]> (table st))
                  (<[pdev := i]> (drvdata st)),
      attach_trace ps env pdev i)) /\
  (probe_succeeds ps env = false ->
   fst (fst (th260_probe ps env pdev st)) = - ENODEV).
Proof. apply probe_closed_form. Qed.

Lemma probe_succeeds_in_one_slot_witness :
  (probe_succeeds 12 good_env = true ->
   th260_probe 12 good_env 9%nat (mk_state two_cards_table ∅) =
     (0, mk_state (<[2%nat := attach_card 12 good_env 9%nat (init_slot 2)]>
                     (table (mk_state two_cards_table ∅)))
                  (<[9%nat := 2%nat]> (drvdata (mk_state two_cards_table ∅))),
      attach_trace 12 good_env 9%nat 2)) /\
  (probe_succeeds 12 good_env = false ->
   fst (fst (th260_probe 12 good_env 9%nat (mk_state two_cards_table ∅))) = - ENODEV).
Proof.
  apply (probe_succeeds_in_one_slot 12 good_env 9%nat (mk_state two_cards_table ∅)
           2%nat (init_slot 2)).
  - reflexivity.
  - reflexivity.
  - reflexivity.
  - intros [|[|j]] c' Hj Hc'; [| |lia]; injection Hc' as <-; discriminate.
Defined.

(** X23. Detaching an attached card and attaching it again, with the same
    answers from kernel and card, claims the same slot and restores the
    driver state of the first attach exactly; the second attach makes the
    same calls as the first. *)
Theorem reattach_restores_state (ps : Z) (env : probe_env) (pdev : pci_dev_id)
    (st st1 : driver_state) (tr1 : trace) (i : nat) (c : th260_cdev) :
  table st !! i = Some c ->
  pci_dev c = None ->
  minor c = Z.of_nat i ->
  (forall (j : nat) (c' : th260_cdev),
     (j < i)%nat -> table st !! j = Some c' -> pci_dev c' <> None) ->
  Forall (fun c' => pci_dev c' <> Some pdev) (table st) ->
  th260_probe ps env pdev st = (0, st1, tr1) ->
  snd (th260_remove pdev st1) = teardown (attach_card ps env pdev c) /\
  th260_probe ps env pdev (fst (th260_remove pdev st1)) = (0, st1, tr1).
Proof.
  intros Hi Hfree Hminor Hlow Hother Hprobe.
  pose proof (lookup_lt_Some _ _ _ Hi) as Hlen.
  destruct (probe_closed_form ps env pdev st i c Hi Hfree Hminor Hlow) as [Hok Hfail].
  destruct (probe_succeeds ps env) eqn:Hs.
  2:{ specialize (Hfail eq_refl). rewrite Hprobe in Hfail. discriminate Hfail. }
  specialize (Hok eq_refl). rewrite Hprobe in Hok. injection Hok as Hst1 Htr1.
  set (c1 := attach_card ps env pdev c) in *.
  assert (Hrem : th260_remove pdev st1 =
                 (mk_state (<[i := set_pci_dev None c1]> (table st))
                           (<[pdev := i]> (drvdata st)), teardown c1)).
  { unfold th260_remove. rewrite Hst1. cbn [table drvdata].
    rewrite lookup_insert_eq, list_lookup_insert_eq by exact Hlen.
    cbn [pci_dev c1 attach_card]. f_equal. f_equal.
    apply list_eq. intros j. unfold th260_cdev_del. rewrite list_lookup_fmap.
    destruct (Nat.eq_dec i j) as [<- | Hne].
    - rewrite !list_lookup_insert_eq by (rewrite ?length_insert; exact Hlen).
      cbn. destruct (decide _) as [_|Hn]; [reflexivity | exfalso; apply Hn; reflexivity].
    - rewrite !list_lookup_insert_ne by exact Hne.
      destruct (table st !! j) as [cj|] eqn:Hj; [|reflexivity]. cbn.
      destruct (decide (pci_dev cj = Some pdev)) as [Hpj|]; [|reflexivity].
      exfalso. exact (Forall_lookup_1 _ _ _ _ Hother Hj Hpj). }
  rewrite Hrem. cbn [fst snd]. split; [reflexivity|].
  destruct (probe_closed_form ps env pdev
              (mk_state (<[i := set_pci_dev None c1]> (table st))
                        (<[pdev := i]> (drvdata st)))
              i (set_pci_dev None c1)) as [Hok2 _].
  - cbn [table]. apply list_lookup_insert_eq. exact Hlen.
  - reflexivity.
  - cbn. exact Hminor.
  - intros j c' Hj Hc'. cbn [table] in Hc'.
    rewrite list_lookup_insert_ne in Hc' by lia. exact (Hlow j c' Hj Hc').
  - rewrite (Hok2 Hs). rewrite Hst1, Htr1. cbn [table drvdata].
    f_equal. f_equal. f_equal.
    + rewrite list_insert_insert_eq. reflexivity.
    + apply insert_insert_eq.
Qed.

(** ** Instances *)


Lemma read_keeps_card_config_witness :
  card_config (snd (fst sample_read)) = card_config dma_witness_card.
Proof.
  apply (read_keeps_card_config 12 (fun a => a) 2 wait_completes false true
           dma_witness_card 0 4096 (fst (fst sample_read)) (snd (fst sample_read))
           (snd sample_read)).
  reflexivity.
Defined.

Lemma read_in_chunks_returns_count_witness :
  exists c' tr,
    th260_read 12 (fun a => a) 4 wait_completes false true small_buffer_card 0 10000
      = Some (10000, c', tr) /\
    copied_bytes tr = 10000 /\
    card_config c' = card_config small_buffer_card /\
    Forall (copy_at_most (BUFFER_SIZE 12 (dmabuf_order small_buffer_card))) tr /\
    copies_contiguous (dmabuf small_buffer_card) 0 tr.
Proof.
  apply (read_in_chunks_returns_count 12 (fun a => a) 4 wait_completes
           small_buffer_card 0 10000).
  - cbn. lia.
  - reflexivity.
  - lia.
  - intros i. reflexivity.
  - vm_compute. lia.
Defined.

Lemma read_timeout_after_progress_witness :
  exists c' tr,
    th260_read 12 (fun a => a) 4 (wait_timeout_after 2) false true
               small_buffer_card 0 10000 = Some (- EINTR, c', tr) /\
    copied_bytes tr = Z.of_nat 2 * BUFFER_SIZE 12 (dmabuf_order small_buffer_card).
Proof.
  apply (read_timeout_after_progress 12 (fun a => a) 4 2 (wait_timeout_after 2)
           small_buffer_card 0 10000).
  - cbn. lia.
  - reflexivity.
  - split; [vm_compute; reflexivity | lia].
  - intros [|[|i]] Hi; [reflexivity | reflexivity | lia].
  - reflexivity.
  - lia.
Defined.

Lemma read_signal_after_progress_witness :
  exists c' tr,
    th260_read 12 (fun a => a) 4 (wait_signal_after 2) false true
               small_buffer_card 0 10000 =
      Some (Z.of_nat 2 * BUFFER_SIZE 12 (dmabuf_order small_buffer_card), c', tr) /\
    copied_bytes tr = Z.of_nat 2 * BUFFER_SIZE 12 (dmabuf_order small_buffer_card).
Proof.
  apply (read_signal_after_progress 12 (fun a => a) 4 2 (wait_signal_after 2) false
           small_buffer_card 0 10000).
  - cbn. lia.
  - reflexivity.
  - split; [vm_compute; reflexivity | lia].
  - lia.
  - intros [|[|i]] Hi; [reflexivity | reflexivity | lia].
  - reflexivity.
  - lia.
Defined.

Lemma read_copy_failure_is_efault_witness :
  read_rv (th260_read 12 (fun a => a) 4 (wait_copy_fails_after 2) false true
                      small_buffer_card 0 10000) = Some (- EFAULT).
Proof.
  apply (read_copy_failure_is_efault 12 (fun a => a) 4 2 (wait_copy_fails_after 2)
           false small_buffer_card 0 10000).
  - cbn. lia.
  - reflexivity.
  - split; [vm_compute; reflexivity | lia].
  - intros [|[|i]] Hi; [reflexivity | reflexivity | lia].
  - reflexivity.
  - lia.
Defined.

Lemma interrupt_accounting_witness :
  Forall interrupt_event (irq_trace sample_interrupt) /\
  card_config (irq_card sample_interrupt) = card_config dma_witness_card /\
  ((irq_handled sample_interrupt = 0 /\ read_done (status_set_for 2 O) = false /\
    irq_card sample_interrupt = dma_witness_card /\
    irq_trace sample_interrupt = [IoRead32 DCSR_OFFSET]) \/
   (irq_handled sample_interrupt = 1 /\ read_done (status_set_for 2 O) = true /\
    (1 <= irq_iterations sample_interrupt)%nat /\
    read_done (status_set_for 2 (irq_iterations sample_interrupt)) = false /\
    bytes_done (irq_card sample_interrupt) =
      u32 (bytes_done dma_witness_card + dmacount dma_witness_card) /\
    dmacount (irq_card sample_interrupt) = 0 /\
    irq_received (irq_card sample_interrupt) = 1)).
Proof.
  apply (interrupt_accounting 5 (status_set_for 2) dma_witness_card sample_interrupt).
  reflexivity.
Defined.

Lemma mmap_records_page_offset_witness :
  exists c' pfn,
    th260_mmap 12 0xfe000123 0 idle_card one_page_vma =
      (0, c', mk_vma (vm_start one_page_vma) (vm_end one_page_vma) pfn true,
       [RemapPfnRange pfn (u64 (vm_end one_page_vma - vm_start one_page_vma))]) /\
    pfn * PAGE_SIZE 12 + bar0offset c' = 0xfe000123 /\
    0 <= bar0offset c' < PAGE_SIZE 12 /\
    th260_ioctl c' IOCTL_GET_BAROFFS true false = (0, Some (bar0offset c', 4)).
Proof.
  apply (mmap_records_page_offset 12 0xfe000123 idle_card one_page_vma).
  - lia.
  - lia.
  - reflexivity.
  - vm_compute. discriminate.
Defined.

Lemma mmap_length_limit_witness :
  (fst (fst (fst (th260_mmap 12 0xfe000000 0 idle_card one_page_vma))) = - EINVAL <->
   65536 < u64 (vm_end one_page_vma - vm_start one_page_vma)) /\
  (65536 < u64 (vm_end one_page_vma - vm_start one_page_vma) ->
   th260_mmap 12 0xfe000000 0 idle_card one_page_vma =
     (- EINVAL, idle_card, one_page_vma, [])).
Proof.
  apply (mmap_length_limit 12 0xfe000000 0 idle_card one_page_vma).
  - lia.
  - reflexivity.
Defined.

Lemma probe_on_full_table_witness :
  th260_probe 12 good_env 9%nat (mk_state full_table ∅) =
    (- ENODEV, mk_state (table (mk_state full_table ∅))
                        (delete 9%nat (drvdata (mk_state full_table ∅))),
     [PciSetDrvdata 9%nat None; PciDisableDevice]).
Proof.
  apply (probe_on_full_table 12 good_env 9%nat (mk_state full_table ∅)).
  repeat constructor; discriminate.
Defined.

Lemma cdev_del_undoes_cdev_add_witness :
  th260_cdev_del 9%nat (snd (th260_cdev_add 9%nat two_cards_table)) = two_cards_table.
Proof.
  apply (cdev_del_undoes_cdev_add 9%nat two_cards_table).
  repeat constructor; discriminate.
Defined.

Lemma exit_module_tears_down_each_card_once_witness :
  pci_exit_module [5%nat] attached_state =
    (mk_state (set_pci_dev None <$> table attached_state) (drvdata attached_state),
     (Driver <$> flat_map teardown_if_claimed (table attached_state)) ++
     [UnregisterChrdevRegion
        (match table attached_state !! O with Some c => minor c | None => 0 end);
      ClassDestroy; PciUnregisterDriver]).
Proof.
  apply (exit_module_tears_down_each_card_once [5%nat] attached_state).
  - intros [|[|[|[|i]]]] c p Hc Hp; try discriminate Hc;
      injection Hc as <-; try discriminate Hp; injection Hp as <-; reflexivity.
  - reflexivity.
Defined.

Lemma reattach_restores_state_witness :
  snd (th260_remove O (snd (fst (th260_probe 12 good_env O init_state)))) =
    teardown (attach_card 12 good_env O (init_slot 0)) /\
  th260_probe 12 good_env O
    (fst (th260_remove O (snd (fst (th260_probe 12 good_env O init_state))))) =
    (0, snd (fst (th260_probe 12 good_env O init_state)),
     snd (th260_probe 12 good_env O init_state)).
Proof.
  apply (reattach_restores_state 12 good_env O init_state
           (snd (fst (th260_probe 12 good_env O init_state)))
           (snd (th260_probe 12 good_env O init_state)) O (init_slot 0)).
  - reflexivity.
  - reflexivity.
  - reflexivity.
  - intros j c' Hj. lia.
  - repeat constructor; discriminate.
  - reflexivity.
Defined.
